(** * Attendance statistics and export pipeline of the GNC Puppet server

    A shallow embedding of [server/storage.ts] (relation joiner and
    aggregator) and of the two export handlers of [server/routes.ts]
    (filter engine and report renderer), with the properties the
    specification states about them. *)

From Stdlib Require Import ZArith List String Ascii Bool Lia Arith.
From Stdlib Require Import Permutation Sorted.
From Stdlib Require Import SpecFloat.
From Stdlib Require Import DecimalString.
Import ListNotations.

Local Open Scope string_scope.
Local Open Scope Z_scope.

(* ================================================================== *)
(** * JavaScript values used by the server code *)
(* ================================================================== *)

Module JS.

(** ** Numbers

    A JavaScript Number is an IEEE 754 binary64 value.  The operators
    [/] and [*] are the correctly rounded binary64 operations, taken here
    from the Standard Library's executable specification [SpecFloat].

    Array lengths, vote counts, rounded percentages and their sums are
    integers far below [2^53]; they are kept as [Z] and enter the
    floating-point world through [of_Z], exactly where the source divides
    or multiplies them. *)

Definition prec : Z := 53.
Definition emax : Z := 1024.

Definition number := spec_float.

Definition of_Z (z : Z) : number := binary_normalize prec emax z 0 false.

Definition div (x y : number) : number := SFdiv prec emax x y.
Definition mul (x y : number) : number := SFmul prec emax x y.

(** [Math.round x]: the integer closest to [x], ties towards +infinity,
    that is [floor (x + 1/2)] computed exactly.  On a finite number the
    result is an integer-valued Number, returned as [Z].  NaN and the
    infinities (which [Math.round] returns unchanged) are sent to [0];
    [round_percent_finite] and [round_div_exact] below show they do not
    arise where the source calls [Math.round]. *)
Definition Math_round (x : number) : Z :=
  match x with
  | S754_finite s m e =>
      let n := if s then Zneg m else Zpos m in
      if 0 <=? e then n * 2 ^ e
      else (2 * n + 2 ^ (- e)) / 2 ^ (- e + 1)
  | _ => 0
  end.

(** The source's idiom [Math.round((count / total) * 100)]. *)
Definition round_percent (count total : Z) : Z :=
  Math_round (mul (div (of_Z count) (of_Z total)) (of_Z 100)).

(** ** Values that cross the JSON boundary *)

Inductive value : Type :=
| undefined
| null
| str (s : string).

(** [a === b] on these values. *)
Definition strict_eq (a b : value) : bool :=
  match a, b with
  | undefined, undefined => true
  | null, null => true
  | str s, str t => String.eqb s t
  | _, _ => false
  end.

(** Truthiness as used by [&&] and [||]. *)
Definition truthy (v : value) : bool :=
  match v with
  | str s => negb (String.eqb s "")
  | _ => false
  end.

(** A nullable column read from a row: [null] or a string. *)
Definition nullable (o : option string) : value :=
  match o with
  | Some s => str s
  | None => null
  end.

(** [x?.name || dflt] for an optional row [x]. *)
Definition name_or {A : Type} (name : A -> string) (x : option A) (dflt : string) : string :=
  match x with
  | Some a => if String.eqb (name a) "" then dflt else name a
  | None => dflt
  end.

(** ** Arrays *)

Section Arrays.
Context {A : Type}.

(** [Array.prototype.sort(cmp)].  The language requires the sort to be
    stable; for a consistent comparator the result is then determined,
    and is the one a stable insertion sort computes.  [cmp a b <= 0]
    keeps [a] before [b]. *)
Fixpoint sort_insert (cmp : A -> A -> Z) (x : A) (l : list A) : list A :=
  match l with
  | [] => [x]
  | y :: ys => if cmp x y <=? 0 then x :: y :: ys else y :: sort_insert cmp x ys
  end.

Fixpoint sort (cmp : A -> A -> Z) (l : list A) : list A :=
  match l with
  | [] => []
  | x :: xs => sort_insert cmp x (sort cmp xs)
  end.

(** [arr.slice(0, n)] and [arr.slice(-n)]. *)
Definition slice_first (n : nat) (l : list A) : list A := firstn n l.
Definition slice_last (n : nat) (l : list A) : list A := skipn (List.length l - n)%nat l.

Definition reverse (l : list A) : list A := rev l.
End Arrays.

(** [v || dflt] where a truthy [v] is a string. *)
Definition value_or (v : value) (dflt : string) : string :=
  match v with
  | str s => if String.eqb s "" then dflt else s
  | _ => dflt
  end.

(** ** Strings

    A JavaScript string is a sequence of UTF-16 code units.  The model's
    [string] holds the UTF-8 bytes of the text, a surrogate that stands
    alone being written as the three bytes of its code point.  String
    concatenation is [++].  [text.length] and [text.substring] count code
    units, and are read off the bytes as follows. *)

(** The code units that begin at a byte: none at a continuation byte
    [10xxxxxx], two (a surrogate pair) at the first byte [11110xxx] of a
    four-byte character, one at any other byte. *)
Definition code_units_at (c : ascii) : nat :=
  match c with
  | Ascii _ _ _ _ _ _ false true => 0
  | Ascii _ _ _ false true true true true => 2
  | _ => 1
  end.

(** [text.length] *)
Fixpoint length (text : string) : nat :=
  match text with
  | EmptyString => 0
  | String c rest => code_units_at c + length rest
  end.

Definition bit (b : bool) : N := if b then 1%N else 0%N.

(** The high surrogate [110110wwwwzzzzyy] of the four-byte character
    [11110uuu 10uuzzzz 10yyyyyy 10xxxxxx], where [wwww = uuuuu - 1],
    written as the three bytes [11101101 1010wwww 10zzzzyy]. *)
Definition high_surrogate (c0 c1 c2 : ascii) : string :=
  match c0, c1, c2 with
  | Ascii u2 u3 u4 _ _ _ _ _, Ascii z0 z1 z2 z3 u0 u1 _ _, Ascii _ _ _ _ y0 y1 _ _ =>
      let u := (bit u0 + 2 * bit u1 + 4 * bit u2 + 8 * bit u3 + 16 * bit u4)%N in
      let w := N.pred u in
      String (Ascii true false true true false true true true)
        (String (Ascii (N.testbit w 0) (N.testbit w 1) (N.testbit w 2) (N.testbit w 3)
                       false true false true)
           (String (Ascii y0 y1 z0 z1 z2 z3 false true) EmptyString))
  end.

(** [text.substring(0, n)]: the first [n] code units of [text], all of
    it when it has fewer.  A cut that falls inside a surrogate pair keeps
    the high surrogate on its own. *)
Fixpoint substring (n : nat) (text : string) : string :=
  match text with
  | EmptyString => EmptyString
  | String c rest =>
      match code_units_at c, n with
      | O, _ => String c (substring n rest)
      | _, O => EmptyString
      | 1%nat, S n' => String c (substring n' rest)
      | _, 1%nat => match rest with
                    | String c1 (String c2 _) => high_surrogate c c1 c2
                    | _ => EmptyString
                    end
      | _, S (S n') => String c (substring n' rest)
      end
  end.

Definition nl : string := String (ascii_of_nat 10) EmptyString.

(** Decimal rendering of an integer inside a template string. *)
Definition show_Z (z : Z) : string := NilZero.string_of_int (Z.to_int z).

End JS.

(* ================================================================== *)
(** * Rows of [shared/schema.ts]

    Each record keeps the columns the modelled code reads.  A column that
    is not declared [notNull] is an [option]. *)
(* ================================================================== *)

Module Member.
Record t := mk {
  id : string;
  mhtId : string;
  name : string;
  isAdmin : option bool;
  userId : option string }.
End Member.

Module Story.
Record t := mk {
  id : string;
  name : string;
  isActive : option bool;
  eventType : option string }.
End Story.

Module Role.
Record t := mk {
  id : string;
  name : string;
  isActive : option bool }.
End Role.

Module Attendance.
Record t := mk {
  id : string;
  memberId : string;
  date : string;
  status : string;
  storyId : option string;
  roleId : option string;
  replacedMemberId : option string;
  eventType : option string }.

(** [record[key]] on a row object.  The table's columns are [id],
    [memberId], [date], [status], [storyId], [timeIn], [timeOut],
    [roleId], [characterIds], [reason], [reasonVisibleToAdmins],
    [replacedMemberId], [eventType], [eventCustom], [createdAt] and
    [updatedAt]; a key that names none of them reads [undefined].  The
    columns left out of [t] are not read by the modelled code. *)
Definition prop (record : t) (key : string) : JS.value :=
  if String.eqb key "id" then JS.str (id record)
  else if String.eqb key "memberId" then JS.str (memberId record)
  else if String.eqb key "date" then JS.str (date record)
  else if String.eqb key "status" then JS.str (status record)
  else if String.eqb key "storyId" then JS.nullable (storyId record)
  else if String.eqb key "roleId" then JS.nullable (roleId record)
  else if String.eqb key "replacedMemberId" then JS.nullable (replacedMemberId record)
  else if String.eqb key "eventType" then JS.nullable (eventType record)
  else JS.undefined.
End Attendance.

Module Poll.
Record t := mk {
  id : string;
  question : string;
  options : list string;
  createdAt : string }.
End Poll.

Module PollResponse.
Record t := mk {
  id : string;
  pollId : string;
  memberId : string;
  selectedOption : Z;
  createdAt : string }.
End PollResponse.

(** The tables, each in the order an unordered [select] enumerates it. *)
Record Database := {
  members : list Member.t;
  stories : list Story.t;
  roles : list Role.t;
  attendance : list Attendance.t;
  polls : list Poll.t;
  pollResponses : list PollResponse.t }.

(* ================================================================== *)
(** * [server/storage.ts] *)
(* ================================================================== *)

Module Storage.

(** [allRows.find(row => row.id === key)] where [key] is a nullable
    foreign-key column. *)
Definition find_by_id {A : Type} (id : A -> string) (key : option string) (rows : list A) : option A :=
  find (fun row => JS.strict_eq (JS.str (id row)) (JS.nullable key)) rows.

(** ** Aggregator: [getReportStats] *)

Record MemberStat := { name : string; percentage : Z }.

Record ReportStats := {
  totalMembers : Z;
  averageAttendance : Z;
  topPerformers : list MemberStat;
  lowPerformers : list MemberStat }.

Definition present_or_replaced (a : Attendance.t) : bool :=
  String.eqb (Attendance.status a) "present" || String.eqb (Attendance.status a) "replaced".

(** The body of [allMembers.map(member => ...)]. *)
Definition memberStat (allAttendance : list Attendance.t) (member : Member.t) : MemberStat :=
  let memberAttendance :=
    filter (fun a => String.eqb (Attendance.memberId a) (Member.id member)) allAttendance in
  let presentCount := Z.of_nat (List.length (filter present_or_replaced memberAttendance)) in
  let percentage :=
    if 0 <? Z.of_nat (List.length memberAttendance)
    then JS.round_percent presentCount (Z.of_nat (List.length memberAttendance))
    else 0 in
  {| name := Member.name member; percentage := percentage |}.

(** The comparator [(a, b) => b.percentage - a.percentage]. *)
Definition by_percentage_desc (a b : MemberStat) : Z := percentage b - percentage a.

(** [arr.reduce((sum, m) => sum + m.percentage, 0)]. *)
Definition sum_percentage (arr : list MemberStat) : Z :=
  fold_left (fun sum m => sum + percentage m) arr 0.

Definition getReportStats (db : Database) : ReportStats :=
  let allMembers := members db in
  let allAttendance := attendance db in
  let memberStats := map (memberStat allAttendance) allMembers in
  let sorted := JS.sort by_percentage_desc memberStats in
  (* [sort] works in place: from here [memberStats] is the sorted array too *)
  let memberStats := sorted in
  let averageAttendance :=
    if 0 <? Z.of_nat (List.length memberStats)
    then JS.Math_round (JS.div (JS.of_Z (sum_percentage memberStats))
                               (JS.of_Z (Z.of_nat (List.length memberStats))))
    else 0 in
  {| totalMembers := Z.of_nat (List.length allMembers);
     averageAttendance := averageAttendance;
     topPerformers := JS.slice_first 3 sorted;
     lowPerformers := JS.reverse (JS.slice_last 3 sorted) |}.

(** ** Queries that order their result

    [orderBy] is the database's ordering of a result set on a column,
    ascending or descending ([desc]).  The collation belongs to the
    database; what the code relies on is that ordering keeps the rows. *)
Section Queries.
Variable orderBy : forall A : Type, (A -> string) -> bool -> list A -> list A.

Definition getMemberByUserId (db : Database) (userId : string) : option Member.t :=
  hd_error (filter (fun m => JS.strict_eq (JS.nullable (Member.userId m)) (JS.str userId))
                   (members db)).

Definition getMembers (db : Database) : list Member.t :=
  orderBy _ Member.name false (members db).

(** [where(eq(stories.isActive, true))]: a [NULL] flag does not match. *)
Definition story_is_active (s : Story.t) : bool :=
  match Story.isActive s with
  | Some true => true
  | _ => false
  end.

Definition getStories (db : Database) : list Story.t :=
  orderBy _ Story.name false (filter story_is_active (stories db)).

(** [deleteStory]: a soft delete, the row stays with [isActive = false]. *)
Definition deleteStory (db : Database) (id : string) : Database :=
  {| members := members db;
     stories := map (fun s => if String.eqb (Story.id s) id
                              then Story.mk (Story.id s) (Story.name s) (Some false) (Story.eventType s)
                              else s) (stories db);
     roles := roles db;
     attendance := attendance db;
     polls := polls db;
     pollResponses := pollResponses db |}.

Definition getAllAttendance (db : Database) : list Attendance.t :=
  orderBy _ Attendance.date true (attendance db).

Definition getPolls (db : Database) : list Poll.t :=
  orderBy _ Poll.createdAt true (polls db).

(** ** Relation joiner: [getAttendanceWithDetails] *)

Record AttendanceWithDetails := {
  record : Attendance.t;
  member : option Member.t;
  story : option Story.t;
  role : option Role.t;
  replacedMember : option Member.t }.

(** The body of [allAttendance.map(record => ({...record, ...}))]. *)
Definition withDetails (allMembers : list Member.t) (allStories : list Story.t)
    (allRoles : list Role.t) (record : Attendance.t) : AttendanceWithDetails :=
  {| record := record;
     member := find_by_id Member.id (Some (Attendance.memberId record)) allMembers;
     story := find_by_id Story.id (Attendance.storyId record) allStories;
     role := find_by_id Role.id (Attendance.roleId record) allRoles;
     replacedMember := find_by_id Member.id (Attendance.replacedMemberId record) allMembers |}.

Definition getAttendanceWithDetails (db : Database) : list AttendanceWithDetails :=
  let allAttendance := orderBy _ Attendance.date true (attendance db) in
  let allMembers := members db in
  let allStories := stories db in
  let allRoles := roles db in
  map (withDetails allMembers allStories allRoles) allAttendance.

(** [storage.db]: [storage] is a [DatabaseStorage], a class that
    declares methods only; the connection is the module-level import
    [db], not a member of the object.  Reading the property yields
    [undefined]. *)
Definition storage_db : option Database := None.

(** [storage.db?.query?.pollResponses?.findMany?.({ where: { pollId } }) || []] *)
Definition storage_db_pollResponses (pollId : JS.value) : list PollResponse.t :=
  match storage_db with
  | Some conn =>
      filter (fun r => JS.strict_eq (JS.str (PollResponse.pollId r)) pollId) (pollResponses conn)
  | None => []
  end.
End Queries.

End Storage.

(* ================================================================== *)
(** * The export handlers of [server/routes.ts] *)
(* ================================================================== *)

Module Routes.

(** ** What a handler does to [res] *)

Inductive CanvasOp : Type :=
| fillStyle (v : string)
| strokeStyle (v : string)
| lineWidth (v : Z)
| font (v : string)
| fillRect (x y : Z) (w : JS.number) (h : Z)
| strokeRect (x y w h : Z)
| fillText (text : string) (x y : Z)
| beginPath
| moveTo (x y : Z)
| lineTo (x y : Z)
| stroke.

Inductive PdfOp : Type :=
| fontSize (n : Z)
| text_at (s : string) (x y : Z)
| text (s : string)
| addPage.

Inductive Sheet : Type :=
| aoa_to_sheet (rows : list (list string))
| json_to_sheet (rows : list (list (string * string))).

(** The artifact a renderer builds. *)
Inductive Artifact : Type :=
| Xlsx (sheetName : string) (ws : Sheet)
| Pdf (doc : list PdfOp)
| Jpeg (width height : Z) (ctx : list CanvasOp).

(** The calls made on the response object, in order.  [json] is
    [res.json(rows)] with the joined attendance view; [pipe] stands for
    [doc.pipe(res)] followed by the document's content up to [doc.end()]. *)
Inductive ResOp : Type :=
| status_json (code : Z) (message : string)
| json (rows : list Storage.AttendanceWithDetails)
| setHeader (name value : string)
| send (buffer : Artifact)
| pipe (doc : Artifact).

(** A renderer ran: an artifact reached the response. *)
Definition writes_artifact (op : ResOp) : bool :=
  match op with
  | send _ | pipe _ => true
  | _ => false
  end.

(** ** Filter engine *)

Record Filters := {
  dateFrom : JS.value;
  dateTo : JS.value;
  statusFilter : JS.value;
  storyFilter : JS.value;
  memberFilter : JS.value;
  eventFilter : JS.value }.

(** [!currentMember?.isAdmin] *)
Definition not_admin (currentMember : option Member.t) : bool :=
  match currentMember with
  | Some m => match Member.isAdmin m with Some true => false | _ => true end
  | None => true
  end.

(** [text.length > maxLen ? text.substring(0, maxLen - 2) + '..' : text] *)
Definition truncate (text : string) (maxLen : nat) : string :=
  if (maxLen <? JS.length text)%nat
  then JS.substring (maxLen - 2) text ++ ".."
  else text.

Section Handlers.
(** Supplied by the database and the runtime. *)
Variable orderBy : forall A : Type, (A -> string) -> bool -> list A -> list A.
(** The time value of [new Date(s)]; [None] is an invalid date. *)
Variable Date_parse : string -> option Z.
(** [new Date(s).toLocaleDateString()] and [new Date(s).toLocaleString()]. *)
Variable toLocaleDateString : string -> string.
Variable toLocaleString : string -> string.
(** [new Date().toLocaleDateString()] and [new Date().toLocaleString()]
    at the time of the request. *)
Variable now_toLocaleDateString : string.
Variable now_toLocaleString : string.
Variable toUpperCase : string -> string.

(** [new Date(v)] for a value of the request body. *)
Definition new_Date (v : JS.value) : option Z :=
  match v with
  | JS.str s => Date_parse s
  | JS.null => Some 0
  | JS.undefined => None
  end.

(** [a < b] on two dates: false when either is invalid. *)
Definition date_lt (a b : option Z) : bool :=
  match a, b with
  | Some x, Some y => x <? y
  | _, _ => false
  end.

(** The callback of [filtered.filter((record) => ...)]. *)
Definition export_filter (filters : Filters) (record : Attendance.t) : bool :=
  if JS.truthy (dateFrom filters)
     && date_lt (Date_parse (Attendance.date record)) (new_Date (dateFrom filters))
  then false
  else if JS.truthy (dateTo filters)
     && date_lt (new_Date (dateTo filters)) (Date_parse (Attendance.date record))
  then false
  else if negb (JS.strict_eq (statusFilter filters) (JS.str "all"))
     && negb (JS.strict_eq (JS.str (Attendance.status record)) (statusFilter filters))
  then false
  else if negb (JS.strict_eq (storyFilter filters) (JS.str "all"))
     && negb (JS.strict_eq (JS.nullable (Attendance.storyId record)) (storyFilter filters))
  then false
  else if negb (JS.strict_eq (memberFilter filters) (JS.str "all"))
     && negb (JS.strict_eq (JS.str (Attendance.memberId record)) (memberFilter filters))
  then false
  else true.

(** [let filtered = allAttendance; if (filters) { filtered = ... }] *)
Definition apply_filters (filters : option Filters) (allAttendance : list Attendance.t)
    : list Attendance.t :=
  match filters with
  | Some f => filter (export_filter f) allAttendance
  | None => allAttendance
  end.

(** ** Attendance report renderers *)

Definition ws_header : list string :=
  ["Date"; "Member"; "Story"; "Role"; "Status"; "Replaced By"].

(** One [ws_data.push([...])] of the excel branch. *)
Definition excel_row (members : list Member.t) (stories : list Story.t)
    (record : Attendance.t) : list string :=
  let member := Storage.find_by_id Member.id (Some (Attendance.memberId record)) members in
  let story := Storage.find_by_id Story.id (Attendance.storyId record) stories in
  [ toLocaleDateString (Attendance.date record);
    JS.name_or Member.name member "";
    JS.name_or Story.name story "";
    JS.value_or (Attendance.prop record "role") "";
    Attendance.status record;
    JS.value_or (Attendance.prop record "replacedBy") "" ].

Definition excel_ws_data (members : list Member.t) (stories : list Story.t)
    (filtered : list Attendance.t) : list (list string) :=
  ws_header :: map (excel_row members stories) filtered.

(** The text of one record in the pdf branch. *)
Definition pdf_line (members : list Member.t) (stories : list Story.t)
    (record : Attendance.t) : string :=
  let member := Storage.find_by_id Member.id (Some (Attendance.memberId record)) members in
  let story := Storage.find_by_id Story.id (Attendance.storyId record) stories in
  toLocaleDateString (Attendance.date record) ++ " - " ++
  JS.name_or Member.name member "Unknown" ++ " - " ++
  JS.name_or Story.name story "Unknown" ++ " - " ++
  toUpperCase (Attendance.status record).

(** [filtered.slice(0, 100).forEach((record, idx) => ...)], from [idx]. *)
Fixpoint pdf_records (members : list Member.t) (stories : list Story.t)
    (idx : nat) (records : list Attendance.t) : list PdfOp :=
  match records with
  | [] => []
  | record :: rest =>
      (if (Nat.eqb (idx mod 10) 0 && (0 <? idx)%nat)%bool then [addPage] else [])
      ++ text (pdf_line members stories record)
      :: pdf_records members stories (S idx) rest
  end.

Definition pdf_doc (members : list Member.t) (stories : list Story.t)
    (filtered : list Attendance.t) : list PdfOp :=
  [ fontSize 16; text_at "Attendance Report" 50 50;
    fontSize 10; text ("Generated: " ++ now_toLocaleDateString ++ JS.nl ++ JS.nl);
    fontSize 10 ]
  ++ pdf_records members stories 0 (JS.slice_first 100 filtered).

(** The six [fillText] calls of one table row of the image branch. *)
Definition image_row (members : list Member.t) (stories : list Story.t)
    (record : Attendance.t) (y : Z) : list CanvasOp :=
  let member := Storage.find_by_id Member.id (Some (Attendance.memberId record)) members in
  let story := Storage.find_by_id Story.id (Attendance.storyId record) stories in
  let date := toLocaleDateString (Attendance.date record) in
  let memberName := JS.name_or Member.name member "Unknown" in
  let storyName := JS.name_or Story.name story "-" in
  let role := JS.value_or (Attendance.prop record "role") "-" in
  let status := Attendance.status record in
  let replacedBy := JS.value_or (Attendance.prop record "replacedBy") "-" in
  [ fillText (truncate date 15) 50 y;
    fillText (truncate memberName 20) 200 y;
    fillText (truncate storyName 25) 450 y;
    fillText (truncate role 12) 800 y;
    fillText (truncate status 10) 950 y;
    fillText (truncate replacedBy 15) 1050 y ].

(** [filtered.forEach((record) => { if (y > 1500) return; ...; y += lineHeight })] *)
Fixpoint image_rows (members : list Member.t) (stories : list Story.t)
    (y : Z) (records : list Attendance.t) : list CanvasOp :=
  match records with
  | [] => []
  | record :: rest =>
      if 1500 <? y then image_rows members stories y rest
      else image_row members stories record y
           ++ image_rows members stories (y + 25) rest
  end.

Definition count_status (status : string) (filtered : list Attendance.t) : Z :=
  Z.of_nat (List.length (filter (fun r => String.eqb (Attendance.status r) status) filtered)).

Definition image_ctx (members : list Member.t) (stories : list Story.t)
    (filtered : list Attendance.t) : list CanvasOp :=
  [ fillStyle "#ffffff"; fillRect 0 0 (JS.of_Z 1200) 1600;
    strokeStyle "#cccccc"; lineWidth 2; strokeRect 30 30 1140 1540;
    fillStyle "#000000"; font "bold 32px Arial"; fillText "Attendance Report" 50 80;
    font "14px Arial"; fillStyle "#666666";
    fillText ("Generated: " ++ now_toLocaleString) 50 110;
    font "bold 16px Arial"; fillStyle "#000000";
    fillText ("Total Records: " ++ JS.show_Z (Z.of_nat (List.length filtered))) 50 160;
    font "14px Arial"; fillStyle "#000000";
    fillText ("Present: " ++ JS.show_Z (count_status "present" filtered)
              ++ " | Absent: " ++ JS.show_Z (count_status "absent" filtered)
              ++ " | Replaced: " ++ JS.show_Z (count_status "replaced" filtered)) 50 190;
    font "bold 13px Arial"; fillStyle "#333333";
    fillText "Date" 50 240; fillText "Member" 200 240; fillText "Story" 450 240;
    fillText "Role" 800 240; fillText "Status" 950 240; fillText "Replaced By" 1050 240;
    strokeStyle "#cccccc"; lineWidth 1; beginPath; moveTo 50 255; lineTo 1150 255; stroke;
    font "12px Arial"; fillStyle "#000000" ]
  ++ image_rows members stories 280 filtered
  ++ [ font "11px Arial"; fillStyle "#999999";
       fillText "GNC Puppet - Attendance Management System" 50 1560 ].

(** ** [GET /api/attendance/all] *)
Definition attendanceAll (db : Database) (userId : string) : list ResOp :=
  let currentMember := Storage.getMemberByUserId db userId in
  if not_admin currentMember then [status_json 403 "Forbidden"]
  else
    let attendance := Storage.getAttendanceWithDetails orderBy db in
    [json attendance].

(** ** [POST /api/reports/export] *)
Definition reportsExport (db : Database) (userId : string)
    (format : JS.value) (filters : option Filters) : list ResOp :=
  let currentMember := Storage.getMemberByUserId db userId in
  if not_admin currentMember then [status_json 403 "Forbidden"]
  else
    let allAttendance := Storage.getAllAttendance orderBy db in
    let members := Storage.getMembers orderBy db in
    let stories := Storage.getStories orderBy db in
    let filtered := apply_filters filters allAttendance in
    if JS.strict_eq format (JS.str "excel") then
      [ setHeader "Content-Type"
          "application/vnd.openxmlformats-officedocument.spreadsheetml.sheet";
        setHeader "Content-Disposition" "attachment; filename=attendance-report.xlsx";
        send (Xlsx "Attendance" (aoa_to_sheet (excel_ws_data members stories filtered))) ]
    else if JS.strict_eq format (JS.str "pdf") then
      [ setHeader "Content-Type" "application/pdf";
        setHeader "Content-Disposition" "attachment; filename=attendance-report.pdf";
        pipe (Pdf (pdf_doc members stories filtered)) ]
    else if JS.strict_eq format (JS.str "image") then
      [ setHeader "Content-Type" "image/jpeg";
        setHeader "Content-Disposition" "attachment; filename=attendance-report.jpg";
        send (Jpeg 1200 1600 (image_ctx members stories filtered)) ]
    else [].

(** ** Poll renderers *)

(** [poll.options[r.selectedOption] || 'Unknown'] *)
Definition selected_option (poll : Poll.t) (r : PollResponse.t) : string :=
  if PollResponse.selectedOption r <? 0 then "Unknown"
  else match nth_error (Poll.options poll) (Z.to_nat (PollResponse.selectedOption r)) with
       | Some o => if String.eqb o "" then "Unknown" else o
       | None => "Unknown"
       end.

Definition responder_name (members : list Member.t) (r : PollResponse.t) : string :=
  JS.name_or Member.name
    (Storage.find_by_id Member.id (Some (PollResponse.memberId r)) members) "Unknown".

Definition poll_excel_rows (poll : Poll.t) (members : list Member.t)
    (responses : list PollResponse.t) : list (list (string * string)) :=
  let data := map (fun r =>
    [ ("Member Name", responder_name members r);
      ("Selected Option", selected_option poll r);
      ("Response Time", toLocaleString (PollResponse.createdAt r)) ]) responses in
  [ [("Poll Question", Poll.question poll)];
    [("Total Responses", JS.show_Z (Z.of_nat (List.length responses)))];
    [] ] ++ data.

(** [responses.slice(0, 100).forEach((r) => ...)] with the running [y]. *)
Fixpoint poll_pdf_records (poll : Poll.t) (members : list Member.t)
    (y : Z) (responses : list PollResponse.t) : list PdfOp :=
  match responses with
  | [] => []
  | r :: rest =>
      let line := responder_name members r ++ ": " ++ selected_option poll r in
      if 700 <? y
      then addPage :: text_at line 50 50 :: poll_pdf_records poll members (50 + 20) rest
      else text_at line 50 y :: poll_pdf_records poll members (y + 20) rest
  end.

Definition poll_pdf_doc (poll : Poll.t) (members : list Member.t)
    (responses : list PollResponse.t) : list PdfOp :=
  [ fontSize 16; text_at (Poll.question poll) 50 50;
    fontSize 10;
    text_at ("Total Responses: " ++ JS.show_Z (Z.of_nat (List.length responses))) 50 100;
    text ("Generated: " ++ now_toLocaleString ++ JS.nl) ]
  ++ poll_pdf_records poll members 150 (JS.slice_first 100 responses).

(** The tally of the image branch:
    [count = responses.filter(r => r.selectedOption === idx).length] and
    [pct = responses.length > 0 ? Math.round((count / responses.length) * 100) : 0]. *)
Definition option_count (responses : list PollResponse.t) (idx : Z) : Z :=
  Z.of_nat (List.length (filter (fun r => PollResponse.selectedOption r =? idx) responses)).

Definition option_pct (responses : list PollResponse.t) (idx : Z) : Z :=
  if 0 <? Z.of_nat (List.length responses)
  then JS.round_percent (option_count responses idx) (Z.of_nat (List.length responses))
  else 0.

(** The body of [poll.options.forEach((option, idx) => ...)]. *)
Definition poll_image_option (responses : list PollResponse.t)
    (option : string) (idx y : Z) : list CanvasOp :=
  let count := option_count responses idx in
  let pct := option_pct responses idx in
  let barWidth := JS.mul (JS.div (JS.of_Z pct) (JS.of_Z 100)) (JS.of_Z 800) in
  [ fillStyle "#333333"; font "bold 14px Arial";
    fillText (option ++ ": " ++ JS.show_Z count ++ " votes (" ++ JS.show_Z pct ++ "%)") 50 y;
    fillStyle "#4CAF50"; fillRect 50 (y + 10) barWidth 15;
    strokeStyle "#cccccc"; strokeRect 50 (y + 10) 800 15 ].

Fixpoint poll_image_options (responses : list PollResponse.t)
    (options : list string) (idx y : Z) : list CanvasOp :=
  match options with
  | [] => []
  | option :: rest =>
      poll_image_option responses option idx y
      ++ poll_image_options responses rest (idx + 1) (y + 35)
  end.

Definition poll_image_ctx (poll : Poll.t) (responses : list PollResponse.t) : list CanvasOp :=
  [ fillStyle "#ffffff"; fillRect 0 0 (JS.of_Z 1200) 1600;
    strokeStyle "#cccccc"; lineWidth 2; strokeRect 30 30 1140 1540;
    fillStyle "#000000"; font "bold 32px Arial"; fillText "Poll Results" 50 80;
    font "18px Arial"; fillText (Poll.question poll) 50 120;
    font "14px Arial"; fillStyle "#666666";
    fillText ("Total Responses: " ++ JS.show_Z (Z.of_nat (List.length responses))
              ++ " | Generated: " ++ now_toLocaleString) 50 160 ]
  ++ poll_image_options responses (Poll.options poll) 0 220
  ++ [ font "11px Arial"; fillStyle "#999999";
       fillText "GNC Puppet - Poll Management System" 50 1560 ].

(** ** [POST /api/polls/export] *)
Definition pollsExport (db : Database) (userId : string)
    (pollId format : JS.value) : list ResOp :=
  let currentMember := Storage.getMemberByUserId db userId in
  if not_admin currentMember then [status_json 403 "Forbidden"]
  else
    let polls := Storage.getPolls orderBy db in
    match find (fun p => JS.strict_eq (JS.str (Poll.id p)) pollId) polls with
    | None => [status_json 404 "Poll not found"]
    | Some poll =>
        if JS.strict_eq format (JS.str "excel") then
          let responses := Storage.storage_db_pollResponses pollId in
          let members := Storage.getMembers orderBy db in
          [ setHeader "Content-Type"
              "application/vnd.openxmlformats-officedocument.spreadsheetml.sheet";
            setHeader "Content-Disposition" "attachment; filename=poll-results.xlsx";
            send (Xlsx "Poll Results" (json_to_sheet (poll_excel_rows poll members responses))) ]
        else if JS.strict_eq format (JS.str "pdf") then
          let responses := Storage.storage_db_pollResponses pollId in
          let members := Storage.getMembers orderBy db in
          [ setHeader "Content-Type" "application/pdf";
            setHeader "Content-Disposition" "attachment; filename=poll-results.pdf";
            pipe (Pdf (poll_pdf_doc poll members responses)) ]
        else if JS.strict_eq format (JS.str "image") then
          let responses := Storage.storage_db_pollResponses pollId in
          [ setHeader "Content-Type" "image/jpeg";
            setHeader "Content-Disposition" "attachment; filename=poll-results.jpg";
            send (Jpeg 1200 1600 (poll_image_ctx poll responses)) ]
        else []
    end.
End Handlers.

End Routes.

(* ================================================================== *)
(** * The specification's own formulas, to compare the code with *)
(* ================================================================== *)

Module Spec.

(** [round(a / b)] for [b > 0]: the nearest integer, halves upwards. *)
Definition round_div (a b : Z) : Z := (2 * a + b) / (2 * b).

(** "percentage = round(100 * P / N); if N = 0, percentage = 0". *)
Definition percentage (P N : Z) : Z :=
  if N =? 0 then 0 else round_div (100 * P) N.

(** "arithmetic mean of all per-member percentages, rounded to nearest
    integer; if there are zero members, average = 0". *)
Definition total (xs : list Z) : Z := fold_right Z.add 0 xs.

Definition mean_rounded (xs : list Z) : Z :=
  match xs with
  | [] => 0
  | _ => round_div (total xs) (Z.of_nat (List.length xs))
  end.

(** [a] may stand before [b] in the ranking: its percentage is at least
    [b]'s. *)
Definition ranks_before (a b : Storage.MemberStat) : Prop :=
  Storage.percentage b <= Storage.percentage a.

Definition has_percentage (k : Z) (s : Storage.MemberStat) : bool :=
  Storage.percentage s =? k.

(** A format selector other than the three the handlers recognize. *)
Definition unrecognized (format : JS.value) : Prop :=
  format <> JS.str "excel" /\ format <> JS.str "pdf" /\ format <> JS.str "image".

(** A filter value that is absent, empty or ["all"] constrains nothing. *)
Definition unconstrained (v : JS.value) : bool :=
  match v with
  | JS.str s => String.eqb s "" || String.eqb s "all"
  | _ => true
  end.

(** The store without the attendance rows whose [memberId] matches no
    member. *)
Definition without_orphans (db : Database) : Database :=
  {| members := members db; stories := stories db; roles := roles db;
     attendance :=
       filter (fun a => existsb (fun m => String.eqb (Member.id m) (Attendance.memberId a))
                                (members db))
              (attendance db);
     polls := polls db; pollResponses := pollResponses db |}.

Section Filter.
Variable Date_parse : string -> option Z.

Definition on_or_after (bound : JS.value) (date : string) : bool :=
  match bound with
  | JS.str b =>
      match Date_parse b, Date_parse date with
      | Some lo, Some d => lo <=? d
      | _, _ => true
      end
  | _ => true
  end.

Definition on_or_before (bound : JS.value) (date : string) : bool :=
  match bound with
  | JS.str b =>
      match Date_parse b, Date_parse date with
      | Some hi, Some d => d <=? hi
      | _, _ => true
      end
  | _ => true
  end.

Definition exact (v field : JS.value) : bool :=
  unconstrained v || JS.strict_eq field v.

(** The six predicates of the filter specification, AND-combined. *)
Definition filter_accepts (f : Routes.Filters) (r : Attendance.t) : bool :=
  (unconstrained (Routes.dateFrom f) || on_or_after (Routes.dateFrom f) (Attendance.date r))
  && (unconstrained (Routes.dateTo f) || on_or_before (Routes.dateTo f) (Attendance.date r))
  && exact (Routes.statusFilter f) (JS.str (Attendance.status r))
  && exact (Routes.storyFilter f) (JS.nullable (Attendance.storyId r))
  && exact (Routes.memberFilter f) (JS.str (Attendance.memberId r))
  && exact (Routes.eventFilter f) (JS.nullable (Attendance.eventType r)).

(** The amended reading: a date bound is skipped when it is absent or
    empty; a status, story or member filter is skipped only when it is
    the string ["all"]. *)
Definition is_all (v : JS.value) : bool := JS.strict_eq v (JS.str "all").

Definition filter_accepts_amended (f : Routes.Filters) (r : Attendance.t) : bool :=
  (negb (JS.truthy (Routes.dateFrom f)) || on_or_after (Routes.dateFrom f) (Attendance.date r))
  && (negb (JS.truthy (Routes.dateTo f)) || on_or_before (Routes.dateTo f) (Attendance.date r))
  && (is_all (Routes.statusFilter f)
      || JS.strict_eq (JS.str (Attendance.status r)) (Routes.statusFilter f))
  && (is_all (Routes.storyFilter f)
      || JS.strict_eq (JS.nullable (Attendance.storyId r)) (Routes.storyFilter f))
  && (is_all (Routes.memberFilter f)
      || JS.strict_eq (JS.str (Attendance.memberId r)) (Routes.memberFilter f))
  && exact (Routes.eventFilter f) (JS.nullable (Attendance.eventType r)).
End Filter.

End Spec.

(* ================================================================== *)
(** * Sample data *)
(* ================================================================== *)

Module Sample.

Definition member (id name : string) : Member.t :=
  Member.mk id ("MHT-" ++ id) name (Some false) None.

Definition admin : Member.t :=
  Member.mk "m0" "MHT001" "Admin User" (Some true) (Some "sample-admin-user").

Definition att (memberId status : string) : Attendance.t :=
  Attendance.mk "" memberId "2024-01-10" status None None None None.

(** [present] records marked present and [total - present] marked absent. *)
Definition history (memberId : string) (present total : nat) : list Attendance.t :=
  repeat (att memberId "present") present ++ repeat (att memberId "absent") (total - present).

(** Five members attending 9, 8, 7, 6 and 5 shows out of 10. *)
Definition five : Database :=
  {| members := [ member "a" "Asha"; member "b" "Bhavin"; member "c" "Chirag";
                  member "d" "Disha"; member "e" "Esha" ];
     stories := []; roles := [];
     attendance := history "a" 9 10 ++ history "b" 8 10 ++ history "c" 7 10
                   ++ history "d" 6 10 ++ history "e" 5 10;
     polls := []; pollResponses := [] |}.

(** One member present at 23 shows out of 40. *)
Definition twenty_three_of_forty : Database :=
  {| members := [ member "a" "Asha" ];
     stories := []; roles := [];
     attendance := history "a" 23 40;
     polls := []; pollResponses := [] |}.

Definition no_filters : Routes.Filters :=
  {| Routes.dateFrom := JS.undefined; Routes.dateTo := JS.undefined;
     Routes.statusFilter := JS.undefined; Routes.storyFilter := JS.undefined;
     Routes.memberFilter := JS.undefined; Routes.eventFilter := JS.undefined |}.

Definition all_filters : Routes.Filters :=
  {| Routes.dateFrom := JS.str ""; Routes.dateTo := JS.str "";
     Routes.statusFilter := JS.str "all"; Routes.storyFilter := JS.str "all";
     Routes.memberFilter := JS.str "all"; Routes.eventFilter := JS.str "all" |}.

(** A poll with options A and B, three votes for A and one for B. *)
Definition ab_poll : Poll.t := Poll.mk "p1" "A or B?" ["A"; "B"] "2024-01-01".

Definition vote (id : string) (option : Z) : PollResponse.t :=
  PollResponse.mk id "p1" "a" option "2024-01-02".

Definition ab_votes : list PollResponse.t :=
  [ vote "r1" 0; vote "r2" 0; vote "r3" 1; vote "r4" 0 ].

Definition ab_db : Database :=
  {| members := [ admin; member "a" "Asha" ];
     stories := []; roles := []; attendance := [];
     polls := [ ab_poll ]; pollResponses := ab_votes |}.

(** A role, a replaced member and a record that names both. *)
Definition puppeteer : Role.t := Role.mk "role-1" "Puppeteer" (Some true).

Definition with_role : Attendance.t :=
  Attendance.mk "att-1" "a" "2024-01-10" "replaced" None (Some "role-1") (Some "b") None.

Definition role_db : Database :=
  {| members := [ admin; member "a" "Asha"; member "b" "Bhavin" ];
     stories := []; roles := [ puppeteer ]; attendance := [ with_role ];
     polls := []; pollResponses := [] |}.

(** A record whose story, role and replaced member are not in the store,
    and one whose member is not either. *)
Definition dangling : Attendance.t :=
  Attendance.mk "att-2" "a" "2024-01-11" "present" (Some "gone") (Some "no-role") (Some "zz") None.

Definition orphan : Attendance.t :=
  Attendance.mk "att-3" "deleted" "2024-01-12" "absent" None None None None.

Definition dangling_db : Database :=
  {| members := [ admin; member "a" "Asha" ];
     stories := []; roles := [ puppeteer ]; attendance := [ dangling; orphan ];
     polls := []; pollResponses := [] |}.

(** Two stories and an attendance record for the first; then the first
    story is deleted, which leaves its row behind as [retired]. *)
Definition dalo : Story.t := Story.mk "s1" "Dalo Tarwadi" (Some true) None.
Definition running : Story.t := Story.mk "s2" "Lumpy & Pooh" (Some true) None.
Definition retired : Story.t := Story.mk "s1" "Dalo Tarwadi" (Some false) None.

Definition in_retired : Attendance.t :=
  Attendance.mk "att-4" "a" "2024-01-10" "present" (Some "s1") None None None.

Definition stories_db : Database :=
  {| members := [ admin; member "a" "Asha" ];
     stories := [ dalo; running ]; roles := []; attendance := [ in_retired ];
     polls := []; pollResponses := [] |}.

Definition retired_db : Database := Storage.deleteStory stories_db "s1".

(** A stand-in database ordering and runtime for the examples. *)
Definition keep_order (A : Type) (column : A -> string) (desc : bool) (rows : list A) : list A :=
  rows.

(** Days since the start of the month for dates ["2024-01-dd"]. *)
Definition day_of (s : string) : option Z :=
  if String.eqb (String.substring 0 8 s) "2024-01-" && Nat.eqb (String.length s) 10
  then match NilZero.uint_of_string (String.substring 8 2 s) with
       | Some d => Some (Z.of_uint d)
       | None => None
       end
  else None.

Definition same (s : string) : string := s.

End Sample.

(* ================================================================== *)
(** * Reading binary64 numbers

    Vocabulary for the statements about [JS.div] and [JS.mul]. *)
(* ================================================================== *)

Module Binary64.

(** The number of binary digits of a mantissa. *)
Definition digits (p : positive) : Z := Zpos (digits2_pos p).

(** [x] is the positive normal number [M * 2^E]. *)
Definition normal (x : JS.number) (M : positive) (E : Z) : Prop :=
  x = S754_finite false M E /\ 2 ^ 52 <= Zpos M < 2 ^ 53.

(** [m] is the quotient [a / K] rounded to one of its two neighbouring
    integers, and to the quotient itself when the division is exact. *)
Definition faithful (a K m : Z) : Prop := (m - 1) * K < a < (m + 1) * K.

End Binary64.

(* ================================================================== *)
(** * More of [server/storage.ts]: the remaining tables and read paths *)
(* ================================================================== *)

Module Character.
Record t := mk {
  id : string;
  name : string;
  storyId : string }.
End Character.

Module Show.
Record t := mk {
  id : string;
  date : string;
  storyId : string;
  createdById : option string }.
End Show.

Module Notification.
Record t := mk {
  id : string;
  title : string;
  type : string;
  isActive : option bool;
  createdAt : string }.
End Notification.

(** The database with the tables [Database] leaves out. *)
Record Tables := {
  core : Database;
  characters : list Character.t;
  shows : list Show.t;
  notifications : list Notification.t }.

Module DatabaseStorage.

Record Stats := {
  totalMembers : Z;
  totalShows : Z;
  recentAttendance : Z;
  activeNotifications : Z }.

Record StoryWithCharacters := {
  story : Story.t;
  story_characters : list Character.t }.

Record PollResponseWithMember := {
  response : PollResponse.t;
  member : option Member.t }.

(** [where(eq(notifications.isActive, true))] *)
Definition notification_is_active (n : Notification.t) : bool :=
  match Notification.isActive n with
  | Some true => true
  | _ => false
  end.

(** [const [story] = await db.select().from(stories).where(eq(stories.id, id))] *)
Definition getStory (db : Database) (id : string) : option Story.t :=
  hd_error (filter (fun s => String.eqb (Story.id s) id) (stories db)).

(** [db.update(notifications).set({ isActive: false }).where(eq(notifications.id, id))] *)
Definition deleteNotification (t : Tables) (id : string) : Tables :=
  {| core := core t;
     characters := characters t;
     shows := shows t;
     notifications :=
       map (fun n => if String.eqb (Notification.id n) id
                     then Notification.mk (Notification.id n) (Notification.title n)
                            (Notification.type n) (Some false) (Notification.createdAt n)
                     else n) (notifications t) |}.

Section Methods.
Variable orderBy : forall A : Type, (A -> string) -> bool -> list A -> list A.
(** The database's [>=] on a [date] column against a ['YYYY-MM-DD'] text. *)
Variable gte : string -> string -> bool.

Definition getStoriesWithCharacters (t : Tables) : list StoryWithCharacters :=
  let allStories :=
    orderBy _ Story.name false (filter Storage.story_is_active (stories (core t))) in
  let allCharacters := characters t in
  map (fun story =>
         {| story := story;
            story_characters :=
              filter (fun c => String.eqb (Character.storyId c) (Story.id story)) allCharacters |})
      allStories.

Definition getAttendanceByMember (db : Database) (memberId : string) : list Attendance.t :=
  orderBy _ Attendance.date true
    (filter (fun a => String.eqb (Attendance.memberId a) memberId) (attendance db)).

Definition getActiveNotifications (t : Tables) : list Notification.t :=
  orderBy _ Notification.createdAt true (filter notification_is_active (notifications t)).

Definition getPollResponsesByPollId (db : Database) (pollId : string)
    : list PollResponseWithMember :=
  let responses :=
    orderBy _ PollResponse.createdAt true
      (filter (fun r => String.eqb (PollResponse.pollId r) pollId) (pollResponses db)) in
  let allMembers := members db in
  map (fun response =>
         {| response := response;
            member := Storage.find_by_id Member.id (Some (PollResponse.memberId response))
                        allMembers |})
      responses.

(** [getStats].  [oneWeekAgo] is the text
    [oneWeekAgo.toISOString().split('T')[0]] of the day seven days before
    the call; each count query yields the number of rows selected. *)
Definition getStats (oneWeekAgo : string) (t : Tables) : Stats :=
  let memberCount := Z.of_nat (List.length (members (core t))) in
  let showCount := Z.of_nat (List.length (shows t)) in
  let notificationCount :=
    Z.of_nat (List.length (filter notification_is_active (notifications t))) in
  let recentAttendance :=
    filter (fun a => gte (Attendance.date a) oneWeekAgo) (attendance (core t)) in
  let presentCount :=
    Z.of_nat (List.length (filter Storage.present_or_replaced recentAttendance)) in
  let attendancePercentage :=
    if 0 <? Z.of_nat (List.length recentAttendance)
    then JS.round_percent presentCount (Z.of_nat (List.length recentAttendance))
    else 0 in
  {| totalMembers := memberCount;
     totalShows := showCount;
     recentAttendance := attendancePercentage;
     activeNotifications := notificationCount |}.
End Methods.

End DatabaseStorage.


(* ================================================================== *)
(** * More of [server/routes.ts]: routes that serve the aggregates *)
(* ================================================================== *)

Module Api.

(** What a handler that answers with JSON sends: an error status with a
    message, or [res.json(body)]. *)
Inductive Reply (A : Type) : Type :=
| status_message (code : Z) (message : string)
| json (body : A).
Arguments status_message {A} code message.
Arguments json {A} body.

Section Handlers.
Variable orderBy : forall A : Type, (A -> string) -> bool -> list A -> list A.
Variable gte : string -> string -> bool.

(** [GET /api/stats] *)
Definition stats (oneWeekAgo : string) (t : Tables) : Reply DatabaseStorage.Stats :=
  json (DatabaseStorage.getStats gte oneWeekAgo t).

(** [GET /api/reports/stats] *)
Definition reportsStats (db : Database) (userId : string) : Reply Storage.ReportStats :=
  let currentMember := Storage.getMemberByUserId db userId in
  if Routes.not_admin currentMember then status_message 403 "Forbidden"
  else json (Storage.getReportStats db).

(** [GET /api/polls/results] *)
Definition pollsResults (db : Database) (userId : string)
    : Reply (list (Poll.t * list DatabaseStorage.PollResponseWithMember)) :=
  let currentMember := Storage.getMemberByUserId db userId in
  if Routes.not_admin currentMember then status_message 403 "Forbidden"
  else
    let polls := Storage.getPolls orderBy db in
    json (map (fun poll =>
                 (poll, DatabaseStorage.getPollResponsesByPollId orderBy db (Poll.id poll)))
              polls).
End Handlers.

End Api.

(* ================================================================== *)
(** * The reports page of the client, which calls the export *)
(* ================================================================== *)

Module ReportsPage.

(** The six [useState] filter values. *)
Record State := {
  dateFrom : string;
  dateTo : string;
  statusFilter : string;
  storyFilter : string;
  memberFilter : string;
  eventFilter : string }.

(** The initial values of the state. *)
Definition initial : State :=
  {| dateFrom := ""; dateTo := ""; statusFilter := "all";
     storyFilter := "all"; memberFilter := "all"; eventFilter := "all" |}.

(** The [filters] object [handleExport] puts in the request body. *)
Definition export_filters (st : State) : Routes.Filters :=
  {| Routes.dateFrom := JS.str (dateFrom st);
     Routes.dateTo := JS.str (dateTo st);
     Routes.statusFilter := JS.str (statusFilter st);
     Routes.storyFilter := JS.str (storyFilter st);
     Routes.memberFilter := JS.str (memberFilter st);
     Routes.eventFilter := JS.str (eventFilter st) |}.

(** The last test of the page's callback on its own: the record passes
    when [eventFilter !== "all" && record.eventType !== eventFilter] is
    false. *)
Definition event_shown (st : State) (record : Attendance.t) : bool :=
  String.eqb (eventFilter st) "all"
  || JS.strict_eq (JS.nullable (Attendance.eventType record)) (JS.str (eventFilter st)).

Section Page.
Variable Date_parse : string -> option Z.

(** The callback of [allAttendance?.filter((record) => ...)]. *)
Definition shown (st : State) (view : Storage.AttendanceWithDetails) : bool :=
  let record := Storage.record view in
  if negb (String.eqb (dateFrom st) "")
     && Routes.date_lt (Date_parse (Attendance.date record)) (Date_parse (dateFrom st))
  then false
  else if negb (String.eqb (dateTo st) "")
     && Routes.date_lt (Date_parse (dateTo st)) (Date_parse (Attendance.date record))
  then false
  else if negb (String.eqb (statusFilter st) "all")
     && negb (String.eqb (Attendance.status record) (statusFilter st))
  then false
  else if negb (String.eqb (storyFilter st) "all")
     && negb (JS.strict_eq (JS.nullable (Attendance.storyId record)) (JS.str (storyFilter st)))
  then false
  else if negb (String.eqb (memberFilter st) "all")
     && negb (String.eqb (Attendance.memberId record) (memberFilter st))
  then false
  else if negb (String.eqb (eventFilter st) "all")
     && negb (JS.strict_eq (JS.nullable (Attendance.eventType record)) (JS.str (eventFilter st)))
  then false
  else true.

(** [const filteredAttendance = allAttendance?.filter(...) || []]; the
    query data is [None] until it has loaded. *)
Definition filteredAttendance (st : State)
    (allAttendance : option (list Storage.AttendanceWithDetails))
    : list Storage.AttendanceWithDetails :=
  match allAttendance with
  | Some rows => filter (shown st) rows
  | None => []
  end.
End Page.

(** The Member and Story cells of a row of the page's table:
    [record.member?.name || 'Unknown'] and [record.story?.name || '-']. *)
Definition member_cell (record : Storage.AttendanceWithDetails) : string :=
  JS.name_or Member.name (Storage.member record) "Unknown".

Definition story_cell (record : Storage.AttendanceWithDetails) : string :=
  JS.name_or Story.name (Storage.story record) "-".

End ReportsPage.

(* ================================================================== *)
(** * [client/src/pages/AdminAttendance.tsx]: the table of all records *)
(* ================================================================== *)

Module AdminAttendancePage.

(** The Member, Story and Role cells of a table row:
    [record.member?.name || 'Unknown'], [record.story?.name || '-'] and
    [record.role?.name || '-']. *)
Definition member_cell (record : Storage.AttendanceWithDetails) : string :=
  JS.name_or Member.name (Storage.member record) "Unknown".

Definition story_cell (record : Storage.AttendanceWithDetails) : string :=
  JS.name_or Story.name (Storage.story record) "-".

Definition role_cell (record : Storage.AttendanceWithDetails) : string :=
  JS.name_or Role.name (Storage.role record) "-".

End AdminAttendancePage.


(* ================================================================== *)
(** * Measures of what a renderer produced *)
(* ================================================================== *)

Module Rendered.

(** The bar of [pct] percent fits the 800 pixel frame. *)
Definition bar_in_frame (pct : Z) : bool :=
  let w := JS.mul (JS.div (JS.of_Z pct) (JS.of_Z 100)) (JS.of_Z 800) in
  SFleb (JS.of_Z 0) w && SFleb w (JS.of_Z 800).

(** The page breaks of a document. *)
Definition is_addPage (op : Routes.PdfOp) : bool :=
  match op with
  | Routes.addPage => true
  | _ => false
  end.

Definition page_breaks (doc : list Routes.PdfOp) : nat := List.length (filter is_addPage doc).

(** The text a document operation writes. *)
Definition text_of (op : Routes.PdfOp) : list string :=
  match op with
  | Routes.text s | Routes.text_at s _ _ => [s]
  | _ => []
  end.

(** The pages of a document: what it writes between one [addPage] and
    the next. *)
Fixpoint pages (doc : list Routes.PdfOp) : list (list Routes.PdfOp) :=
  match doc with
  | [] => [[]]
  | Routes.addPage :: rest => [] :: pages rest
  | op :: rest =>
      match pages rest with
      | page :: later => (op :: page) :: later
      | [] => [[op]]
      end
  end.

(** A list cut into runs of ten: run [k] holds the elements at positions
    [10 * k] to [10 * k + 9]. *)
Definition in_tens {A : Type} (l : list A) : list (list A) :=
  map (fun k => firstn 10 (skipn (10 * k) l)) (seq 0 ((List.length l + 9) / 10)).

(** The height at which a document places a positioned text. *)
Definition pdf_text_y (op : Routes.PdfOp) : option Z :=
  match op with
  | Routes.text_at _ _ y => Some y
  | _ => None
  end.

End Rendered.


(* ================================================================== *)
(** * Further example data *)
(* ================================================================== *)

Module Scenario.

(** [Sample.five] and a sixth member who attended 4 shows out of 10. *)
Definition six : Database :=
  {| members := members Sample.five ++ [ Sample.member "f" "Falguni" ];
     stories := []; roles := [];
     attendance := attendance Sample.five ++ Sample.history "f" 4 10;
     polls := []; pollResponses := [] |}.

Definition dalo_hero : Character.t := Character.mk "c1" "Dalo" "s1".
Definition pooh : Character.t := Character.mk "c2" "Pooh" "s2".

Definition notice (id : string) (isActive : option bool) : Notification.t :=
  Notification.mk id "Practice on Sunday" "info" isActive "2024-01-05".

(** A database with two characters, one show, one active and one
    withdrawn notification around the given core tables. *)
Definition tables (db : Database) : Tables :=
  {| core := db;
     characters := [ dalo_hero; pooh ];
     shows := [ Show.mk "sh1" "2024-01-10" "s1" None ];
     notifications := [ notice "n1" (Some true); notice "n2" (Some false) ] |}.

(** A stand-in for the database's [>=] on dates of January 2024. *)
Definition dated_on_or_after (date since : string) : bool :=
  match Sample.day_of date, Sample.day_of since with
  | Some d, Some s => s <=? d
  | _, _ => false
  end.

(** The reports page with the two date fields filled in. *)
Definition january_10_to_11 : ReportsPage.State :=
  {| ReportsPage.dateFrom := "2024-01-10"; ReportsPage.dateTo := "2024-01-11";
     ReportsPage.statusFilter := "all"; ReportsPage.storyFilter := "all";
     ReportsPage.memberFilter := "all"; ReportsPage.eventFilter := "all" |}.


End Scenario.

(* ================================================================== *)
(** * Properties *)
(* ================================================================== *)

(** ** Binary64 arithmetic

    What [SpecFloat]'s rounding does to the positive normal numbers the
    aggregator meets: a quotient of two counts, its product with 100, and
    a quotient of a sum of percentages by a count. *)

Section Binary64Facts.
Import Binary64.

(** *** Digits of a mantissa *)

Lemma digits_spec (p : positive) : 2 ^ (digits p - 1) <= Zpos p < 2 ^ digits p.
Proof.
  unfold digits. induction p as [p IH|p IH|]; cbn [digits2_pos].
  - rewrite Pos2Z.inj_succ.
    replace (Z.succ (Z.pos (digits2_pos p)) - 1) with (Z.succ (Z.pos (digits2_pos p) - 1)) by lia.
    rewrite !Z.pow_succ_r by lia. lia.
  - rewrite Pos2Z.inj_succ.
    replace (Z.succ (Z.pos (digits2_pos p)) - 1) with (Z.succ (Z.pos (digits2_pos p) - 1)) by lia.
    rewrite !Z.pow_succ_r by lia. lia.
  - cbn. lia.
Qed.

Lemma digits_unique (p : positive) (k : Z) :
  2 ^ (k - 1) <= Zpos p < 2 ^ k -> digits p = k.
Proof.
  intros [Hlo Hhi]. pose proof (digits_spec p) as [Dlo Dhi].
  assert (Hd : 0 < digits p) by (unfold digits; lia).
  assert (Hk : 0 < k).
  { destruct (Z.ltb_spec 0 k); [assumption|].
    assert (2 ^ k <= 2 ^ 0) by (apply Z.pow_le_mono_r; lia).
    change (2 ^ 0) with 1 in *. lia. }
  destruct (Z.lt_trichotomy (digits p) k) as [Hlt|[Heq|Hgt]]; [|exact Heq|].
  - assert (2 ^ digits p <= 2 ^ (k - 1)) by (apply Z.pow_le_mono_r; lia). lia.
  - assert (2 ^ k <= 2 ^ (digits p - 1)) by (apply Z.pow_le_mono_r; lia). lia.
Qed.

(** *** Shifting a mantissa right *)

Lemma iter_pos_nat {A : Type} (f : A -> A) (n : positive) (x : A) :
  iter_pos f n x = Nat.iter (Pos.to_nat n) f x.
Proof.
  revert x. induction n as [n IH|n IH|]; intros x; cbn [iter_pos].
  - rewrite !IH. rewrite Pos2Nat.inj_xI.
    replace (S (2 * Pos.to_nat n)) with (Pos.to_nat n + (Pos.to_nat n + 1))%nat by lia.
    rewrite !Nat.iter_add. reflexivity.
  - rewrite !IH. rewrite Pos2Nat.inj_xO.
    replace (2 * Pos.to_nat n)%nat with (Pos.to_nat n + Pos.to_nat n)%nat by lia.
    rewrite Nat.iter_add. reflexivity.
  - reflexivity.
Qed.

Lemma shr_1_spec (m : Z) (r s : bool) :
  0 <= m ->
  shr_1 (Build_shr_record m r s) = Build_shr_record (m / 2) (Z.odd m) (r || s).
Proof.
  intros Hm. destruct m as [|[p|p|]|p]; try lia; cbn [shr_1].
  - reflexivity.
  - f_equal. rewrite Pos2Z.inj_xI. apply Z.div_unique with 1; lia.
  - f_equal. rewrite Pos2Z.inj_xO. apply Z.div_unique with 0; lia.
  - reflexivity.
Qed.

Lemma shr_iter_spec (n : nat) (m : Z) (r s : bool) :
  0 <= m ->
  exists r' s',
    Nat.iter n shr_1 (Build_shr_record m r s)
    = Build_shr_record (m / 2 ^ Z.of_nat n) r' s'
    /\ (r || s = false -> m mod 2 ^ Z.of_nat n = 0 -> r' = false /\ s' = false).
Proof.
  intros Hm. induction n as [|n IH].
  - exists r, s. change (Nat.iter 0 shr_1 ?x) with x. change (2 ^ Z.of_nat 0) with 1. rewrite Z.div_1_r.
    split; [reflexivity|]. intros H _. now apply orb_false_elim in H.
  - destruct IH as (r' & s' & Heq & Hex).
    rewrite Nat.iter_succ, Heq.
    assert (Hp : 0 < 2 ^ Z.of_nat n) by (apply Z.pow_pos_nonneg; lia).
    rewrite shr_1_spec by (apply Z.div_pos; lia).
    exists (Z.odd (m / 2 ^ Z.of_nat n)), (r' || s').
    rewrite Nat2Z.inj_succ, Z.pow_succ_r by lia.
    split.
    + f_equal. rewrite Z.div_div by lia. f_equal. lia.
    + intros Hrs Hmod.
      assert (Hm2 : m = 2 * 2 ^ Z.of_nat n * (m / (2 * 2 ^ Z.of_nat n))).
      { apply Z.div_exact in Hmod; lia. }
      assert (Hmodn : m mod 2 ^ Z.of_nat n = 0).
      { rewrite Hm2. replace (2 * 2 ^ Z.of_nat n * (m / (2 * 2 ^ Z.of_nat n)))
          with ((2 * (m / (2 * 2 ^ Z.of_nat n))) * 2 ^ Z.of_nat n) by ring.
        apply Z.mod_mul. lia. }
      destruct (Hex Hrs Hmodn) as [-> ->]. split; [|reflexivity].
      rewrite Hm2 at 1.
      replace (2 * 2 ^ Z.of_nat n * (m / (2 * 2 ^ Z.of_nat n)))
          with ((2 * (m / (2 * 2 ^ Z.of_nat n))) * 2 ^ Z.of_nat n) by ring.
      rewrite Z.div_mul by lia. rewrite Z.odd_mul. reflexivity.
Qed.

(** *** Rounding to 53 digits *)

Lemma fexp_normal (e : Z) : -1074 <= e - 53 -> fexp 53 1024 e = e - 53.
Proof. intros H. unfold fexp, emin. lia. Qed.

Lemma round_nearest_even_bracket (m : Z) (r s : bool) :
  let m' := round_nearest_even m (loc_of_shr_record (Build_shr_record m r s)) in
  m <= m' <= m + 1 /\ (r = false -> s = false -> m' = m).
Proof.
  destruct r, s; cbn; try destruct (Z.even m); split; try lia; intros; congruence.
Qed.

(** The first shift of [binary_round_aux]. *)
Lemma shr_spec (p : positive) (ex c : Z) (lx : location) :
  0 <= c ->
  exists r s,
    shr (shr_record_of_loc (Zpos p) lx) ex c
    = (Build_shr_record (Zpos p / 2 ^ c) r s, ex + c)
    /\ (lx = loc_Exact -> Zpos p mod 2 ^ c = 0 -> r = false /\ s = false).
Proof.
  intros Hc.
  assert (Hrec : exists r0 s0, shr_record_of_loc (Zpos p) lx = Build_shr_record (Zpos p) r0 s0
                               /\ (lx = loc_Exact -> r0 || s0 = false)).
  { destruct lx as [|[]]; cbn; eauto; do 2 eexists; (split; [reflexivity|discriminate]). }
  destruct Hrec as (r0 & s0 & -> & Hex).
  destruct c as [|q|q]; [| |lia]; cbn [shr].
  - exists r0, s0. rewrite Z.add_0_r. change (2 ^ 0) with 1. rewrite Z.div_1_r.
    split; [reflexivity|]. intros Hl _. now apply orb_false_elim, Hex.
  - rewrite iter_pos_nat.
    destruct (shr_iter_spec (Pos.to_nat q) (Zpos p) r0 s0 ltac:(lia)) as (r & s & Heq & Hx).
    rewrite positive_nat_Z in *. exists r, s. rewrite Heq.
    split; [reflexivity|]. intros Hl Hm. apply Hx; auto.
Qed.

(** Rounding a mantissa of at least 53 digits, away from overflow and
    underflow: the result is a normal number whose value, in units of the
    53-digit grid, is the truncated mantissa or its successor, and the
    truncated mantissa itself when nothing was cut off. *)
Lemma binary_round_aux_spec (p : positive) (ex : Z) (lx : location) :
  let c := digits p - 53 in
  let m1 := Zpos p / 2 ^ c in
  0 <= c -> -1074 <= ex + c -> ex + c <= 970 ->
  exists M E,
    binary_round_aux 53 1024 false (Zpos p) ex lx = S754_finite false M E
    /\ 2 ^ 52 <= Zpos M < 2 ^ 53
    /\ ex + c <= E <= ex + c + 1
    /\ m1 <= Zpos M * 2 ^ (E - (ex + c)) <= m1 + 1
    /\ (lx = loc_Exact -> Zpos p mod 2 ^ c = 0 -> Zpos M * 2 ^ (E - (ex + c)) = m1).
Proof.
  intros c m1 Hc Hlo Hhi.
  unfold binary_round_aux, shr_fexp.
  change (Zdigits2 (Zpos p)) with (digits p).
  rewrite fexp_normal by (unfold c in *; lia).
  replace (digits p + ex - 53 - ex) with c by (unfold c; lia).
  destruct (shr_spec p ex c lx Hc) as (r & s & -> & Hexact).
  fold m1. cbn [shr_m].
  pose proof (round_nearest_even_bracket m1 r s) as [Hbr Hsame].
  set (m2 := round_nearest_even m1 (loc_of_shr_record (Build_shr_record m1 r s))) in *.
  (* the truncated mantissa has exactly 53 digits *)
  assert (Hm1 : 2 ^ 52 <= m1 < 2 ^ 53).
  { pose proof (digits_spec p) as [Dlo Dhi].
    assert (Hpc : 0 < 2 ^ c) by (apply Z.pow_pos_nonneg; lia).
    replace (digits p - 1) with (52 + c) in Dlo by (unfold c; lia).
    replace (digits p) with (53 + c) in Dhi by (unfold c; lia).
    rewrite Z.pow_add_r in Dlo, Dhi by lia.
    unfold m1. split.
    - apply Z.div_le_lower_bound; lia.
    - apply Z.div_lt_upper_bound; lia. }
  destruct (Z.eq_dec m2 (2 ^ 53)) as [Hcarry|Hnocarry].
  - (* the rounding carried into a 54th digit *)
    rewrite Hcarry.
    change (Zdigits2 (2 ^ 53)) with 54.
    rewrite fexp_normal by lia.
    replace (54 + (ex + c) - 53 - (ex + c)) with 1 by lia.
    cbn [shr shr_record_of_loc iter_pos]. 
    change (shr_1 (Build_shr_record (2 ^ 53) false false))
      with (Build_shr_record (2 ^ 52) false false).
    cbn [shr_m]. change (2 ^ 52) with (Zpos (2 ^ 52)) at 1.
    cbv iota beta.
    replace (ex + c + 1 <=? 1024 - 53) with true by (symmetry; apply Z.leb_le; lia).
    exists (2 ^ 52)%positive, (ex + c + 1).
    split; [reflexivity|].
    replace (ex + c + 1 - (ex + c)) with 1 by lia.
    change (Zpos (2 ^ 52) * 2 ^ 1) with (2 ^ 53).
    split; [cbn; lia|]. split; [lia|]. split; [lia|].
    intros Hl Hm. destruct (Hexact Hl Hm) as [-> ->]. rewrite <- Hcarry. now apply Hsame.
  - assert (Hm2 : 2 ^ 52 <= m2 < 2 ^ 53) by lia.
    destruct m2 as [|M|M] eqn:HM; [lia| |lia].
    change (Zdigits2 (Zpos M)) with (digits M).
    rewrite (digits_unique M 53) by (change (53 - 1) with 52; lia).
    rewrite fexp_normal by lia.
    replace (53 + (ex + c) - 53 - (ex + c)) with 0 by lia.
    cbn [shr shr_record_of_loc shr_m].
    replace (ex + c <=? 1024 - 53) with true by (symmetry; apply Z.leb_le; lia).
    exists M, (ex + c).
    split; [reflexivity|].
    rewrite Z.sub_diag. change (2 ^ 0) with 1. rewrite Z.mul_1_r.
    split; [lia|]. split; [lia|]. split; [lia|].
    intros Hl Hm. destruct (Hexact Hl Hm) as [-> ->]. now apply Hsame.
Qed.

(** *** Integers, quotients and products *)

Lemma faithful_of_bracket (a K m : Z) :
  0 < K ->
  a / K <= m <= a / K + 1 ->
  (a mod K = 0 -> m = a / K) ->
  faithful a K m.
Proof.
  intros HK Hm Hex. unfold faithful.
  pose proof (Z.div_mod a K ltac:(lia)) as Hdm.
  pose proof (Z.mod_pos_bound a K HK) as Hr.
  destruct (Z.eq_dec (a mod K) 0) as [Hz|Hnz].
  - rewrite (Hex Hz). nia.
  - nia.
Qed.

Lemma pos_iter_xO (p n : positive) : Zpos (Pos.iter xO p n) = Zpos p * 2 ^ Zpos n.
Proof.
  rewrite <- Z.shiftl_mul_pow2 by lia. cbn [Z.shiftl].
  apply (Pos.iter_swap_gen _ _ Zpos xO (Z.mul 2)). reflexivity.
Qed.

(** An integer below [2^53] is represented exactly. *)
Lemma of_Z_spec (z : Z) :
  0 < z < 2 ^ 53 ->
  exists M E, normal (JS.of_Z z) M E /\ -52 <= E <= 0 /\ Zpos M = z * 2 ^ (- E).
Proof.
  intros Hz. destruct z as [|p|p]; try lia.
  unfold JS.of_Z, JS.prec, JS.emax, binary_normalize, binary_round.
  change (Zpos (digits2_pos p)) with (digits p).
  pose proof (digits_spec p) as [Dlo Dhi].
  assert (Hd : 1 <= digits p <= 53).
  { split; [unfold digits; lia|].
    destruct (Z.leb_spec (digits p) 53); [assumption|].
    assert (2 ^ 53 <= 2 ^ (digits p - 1)) by (apply Z.pow_le_mono_r; lia). lia. }
  rewrite fexp_normal by lia.
  set (E0 := digits p + 0 - 53).
  assert (Hmz : exists mz, shl_align p 0 E0 = (mz, E0) /\ Zpos mz = Zpos p * 2 ^ (- E0)).
  { unfold shl_align. rewrite Z.sub_0_r.
    destruct E0 as [|q|q] eqn:HE0; [| lia |].
    - exists p. split; [reflexivity|]. change (2 ^ (- 0)) with 1. lia.
    - exists (Pos.iter xO p q). split; [reflexivity|]. apply pos_iter_xO. }
  destruct Hmz as (mz & -> & Hmz).
  assert (Hmzb : 2 ^ 52 <= Zpos mz < 2 ^ 53).
  { rewrite Hmz.
    assert (0 < 2 ^ (- E0)) by (apply Z.pow_pos_nonneg; unfold E0; lia).
    assert (H52 : 2 ^ 52 = 2 ^ (digits p - 1) * 2 ^ (- E0)).
    { rewrite <- Z.pow_add_r by (unfold E0; lia). f_equal. unfold E0. lia. }
    assert (H53 : 2 ^ 53 = 2 ^ digits p * 2 ^ (- E0)).
    { rewrite <- Z.pow_add_r by (unfold E0; lia). f_equal. unfold E0. lia. }
    rewrite H52, H53. nia. }
  assert (Hdz : digits mz = 53) by (apply digits_unique; change (53 - 1) with 52; lia).
  destruct (binary_round_aux_spec mz E0 loc_Exact) as (M & E & Heq & HM & HE & _ & Hex);
    rewrite ?Hdz; try (unfold E0; lia).
  rewrite Hdz in *. change (53 - 53) with 0 in *. rewrite Z.add_0_r in *.
  specialize (Hex eq_refl (Z.mod_1_r _)). rewrite Z.div_1_r in Hex.
  assert (E = E0).
  { destruct (Z.eq_dec E E0) as [|Hne]; [assumption|].
    replace (E - E0) with 1 in Hex by lia. change (2 ^ 1) with 2 in Hex. lia. }
  subst E. rewrite Z.sub_diag in Hex. change (2 ^ 0) with 1 in Hex.
  exists M, E0. split; [split; assumption|]. split; [unfold E0; lia|]. lia.
Qed.

Lemma new_location_exact (k : Z) : new_location k 0 = loc_Exact.
Proof.
  unfold new_location, new_location_even, new_location_odd.
  destruct (Z.even k); reflexivity.
Qed.

(** The quotient of two normal numbers is a faithful rounding of the
    exact quotient of their mantissas. *)
Lemma div_spec (x y : JS.number) (M1 M2 : positive) (E1 E2 : Z) :
  normal x M1 E1 -> normal y M2 E2 ->
  -1000 <= E1 - E2 <= 1000 ->
  exists M E c,
    normal (JS.div x y) M E
    /\ 0 <= c <= 1
    /\ E1 - E2 - 53 + c <= E <= E1 - E2 - 53 + c + 1
    /\ faithful (Zpos M1 * 2 ^ 53) (Zpos M2 * 2 ^ c)
                (Zpos M * 2 ^ (E - (E1 - E2 - 53 + c))).
Proof.
  intros [-> H1] [-> H2] HE.
  unfold JS.div, JS.prec, JS.emax, SFdiv, SFdiv_core_binary.
  change (Zdigits2 (Zpos M1)) with (digits M1).
  change (Zdigits2 (Zpos M2)) with (digits M2).
  rewrite (digits_unique M1 53), (digits_unique M2 53) by (change (53 - 1) with 52; lia).
  rewrite fexp_normal by lia.
  replace (Z.min (53 + E1 - (53 + E2) - 53) (E1 - E2)) with (E1 - E2 - 53) by lia.
  replace (E1 - E2 - (E1 - E2 - 53)) with 53 by lia.
  cbv iota. rewrite Z.shiftl_mul_pow2 by lia.
  set (a := Zpos M1 * 2 ^ 53).
  pose proof (Z.div_eucl_eq a (Zpos M2) ltac:(lia)) as Heu.
  pose proof (Z.mod_pos_bound a (Zpos M2) ltac:(lia)) as Hrem.
  unfold Z.modulo in Hrem.
  assert (Hq : fst (Z.div_eucl a (Zpos M2)) = a / Zpos M2) by reflexivity.
  assert (Hr : snd (Z.div_eucl a (Zpos M2)) = a mod Zpos M2) by reflexivity.
  destruct (Z.div_eucl a (Zpos M2)) as [q r]. cbn [fst snd] in *.
  cbn [xorb].
  assert (Hqb : 2 ^ 52 <= q < 2 ^ 54).
  { subst q. split.
    - apply Z.div_le_lower_bound; [lia|]. unfold a. nia.
    - apply Z.div_lt_upper_bound; [lia|]. unfold a.
      change (2 ^ 54) with (2 * 2 ^ 53). nia. }
  destruct q as [|pq|pq] eqn:Hqe; try lia.
  set (c := digits pq - 53).
  assert (Hc : 0 <= c <= 1).
  { pose proof (digits_spec pq) as [Dlo Dhi]. unfold c.
    split.
    - destruct (Z.leb_spec 53 (digits pq)); [lia|].
      assert (2 ^ digits pq <= 2 ^ 52) by (apply Z.pow_le_mono_r; unfold digits in *; lia). lia.
    - destruct (Z.leb_spec (digits pq) 54); [lia|].
      assert (2 ^ 54 <= 2 ^ (digits pq - 1)) by (apply Z.pow_le_mono_r; lia). lia. }
  destruct (binary_round_aux_spec pq (E1 - E2 - 53) (new_location (Zpos M2) r))
    as (M & E & Heq & HM & HEb & Hbr & Hex); fold c; try lia.
  fold c in Hbr, Hex.
  exists M, E, c. split; [split; assumption|]. split; [assumption|]. split; [assumption|].
  assert (Hpc : 0 < 2 ^ c) by (apply Z.pow_pos_nonneg; lia).
  assert (Hdd : Zpos pq / 2 ^ c = a / (Zpos M2 * 2 ^ c)).
  { rewrite Hq. apply Z.div_div; lia. }
  apply faithful_of_bracket; [lia|rewrite <- Hdd; exact Hbr|].
  intros Hmod. rewrite <- Hdd.
  assert (Ha : a = Zpos M2 * 2 ^ c * (a / (Zpos M2 * 2 ^ c))).
  { apply Z.div_exact in Hmod; lia. }
  set (k := a / (Zpos M2 * 2 ^ c)) in *.
  assert (Hr0 : r = 0).
  { rewrite Hr, Ha. replace (Zpos M2 * 2 ^ c * k) with ((2 ^ c * k) * Zpos M2) by ring.
    apply Z.mod_mul. lia. }
  assert (Hq0 : Zpos pq = 2 ^ c * k).
  { rewrite Hq. rewrite Ha at 1.
    replace (Zpos M2 * 2 ^ c * k) with ((2 ^ c * k) * Zpos M2) by ring.
    apply Z.div_mul. lia. }
  apply Hex.
  - rewrite Hr0. apply new_location_exact.
  - rewrite Hq0, Z.mul_comm. apply Z.mod_mul. lia.
Qed.

(** Likewise for the product. *)
Lemma mul_spec (x y : JS.number) (M1 M2 : positive) (E1 E2 : Z) :
  normal x M1 E1 -> normal y M2 E2 ->
  -1000 <= E1 + E2 <= 800 ->
  exists M E c,
    normal (JS.mul x y) M E
    /\ 52 <= c <= 53
    /\ E1 + E2 + c <= E <= E1 + E2 + c + 1
    /\ faithful (Zpos M1 * Zpos M2) (2 ^ c) (Zpos M * 2 ^ (E - (E1 + E2 + c))).
Proof.
  intros [-> H1] [-> H2] HE.
  unfold JS.mul, JS.prec, JS.emax, SFmul. cbn [xorb].
  set (p := (M1 * M2)%positive).
  assert (Hp : 2 ^ 104 <= Zpos p < 2 ^ 106).
  { unfold p. rewrite Pos2Z.inj_mul.
    change (2 ^ 104) with (2 ^ 52 * 2 ^ 52). change (2 ^ 106) with (2 ^ 53 * 2 ^ 53). nia. }
  set (c := digits p - 53).
  assert (Hc : 52 <= c <= 53).
  { pose proof (digits_spec p) as [Dlo Dhi]. unfold c. split.
    - destruct (Z.leb_spec 105 (digits p)); [lia|].
      assert (2 ^ digits p <= 2 ^ 104) by (apply Z.pow_le_mono_r; unfold digits in *; lia). lia.
    - destruct (Z.leb_spec (digits p) 106); [lia|].
      assert (2 ^ 106 <= 2 ^ (digits p - 1)) by (apply Z.pow_le_mono_r; lia). lia. }
  destruct (binary_round_aux_spec p (E1 + E2) loc_Exact)
    as (M & E & Heq & HM & HEb & Hbr & Hex); fold c; try lia.
  fold c in Hbr, Hex.
  exists M, E, c. split; [split; assumption|]. split; [assumption|]. split; [assumption|].
  assert (Hpc : 0 < 2 ^ c) by (apply Z.pow_pos_nonneg; lia).
  rewrite <- Pos2Z.inj_mul. fold p.
  apply faithful_of_bracket; [lia|exact Hbr|]. intros Hmod. now apply Hex.
Qed.

(** *** The percentage idiom and the mean *)

Lemma pow2_add (a b c : Z) : a = b + c -> 0 <= b -> 0 <= c -> 2 ^ a = 2 ^ b * 2 ^ c.
Proof. intros -> Hb Hc. now apply Z.pow_add_r. Qed.

Lemma pow2_pos (a : Z) : 0 <= a -> 0 < 2 ^ a.
Proof. intros. apply Z.pow_pos_nonneg; lia. Qed.

Lemma of_Z_100 : normal (JS.of_Z 100) 7036874417766400 (-46).
Proof. split; [reflexivity|]. cbn. lia. Qed.

Lemma of_Z_0 : JS.of_Z 0 = S754_zero false.
Proof. reflexivity. Qed.

(** [x <= 1] for the quotient of two counts [0 < P <= N]. *)
Lemma div_counts (P N : Z) :
  0 < P <= N -> N < 2 ^ 53 ->
  exists M E, normal (JS.div (JS.of_Z P) (JS.of_Z N)) M E
              /\ -106 <= E <= -52 /\ Zpos M <= 2 ^ (- E).
Proof.
  intros HP HN.
  destruct (of_Z_spec P ltac:(lia)) as (M1 & E1 & Hn1 & HE1 & HM1).
  destruct (of_Z_spec N ltac:(lia)) as (M2 & E2 & Hn2 & HE2 & HM2).
  destruct (div_spec _ _ _ _ _ _ Hn1 Hn2 ltac:(lia)) as (M & E & c & Hn & Hc & HE & HF).
  set (G := E1 - E2 - 53 + c) in *.
  exists M, E. split; [exact Hn|].
  destruct Hn as [_ HMb]. destruct Hn1 as [_ HM1b]. destruct Hn2 as [_ HM2b].
  (* the scaled mantissa is at most 2^-G *)
  set (m := Zpos M * 2 ^ (E - G)) in *.
  set (U := 2 ^ (- E2) * 2 ^ c).
  assert (HU : 0 < U) by (unfold U; pose proof (pow2_pos (- E2)); pose proof (pow2_pos c); nia).
  assert (HK : 0 < 2 ^ (- G)) by (apply pow2_pos; unfold G; lia).
  assert (Hsplit : 2 ^ (- E1) * 2 ^ 53 = U * 2 ^ (- G)).
  { unfold U. rewrite <- !Z.pow_add_r by (unfold G; lia). f_equal. unfold G. lia. }
  assert (Hm : m <= 2 ^ (- G)).
  { unfold faithful in HF. destruct HF as [HF _].
    rewrite HM1, HM2 in HF.
    replace (P * 2 ^ (- E1) * 2 ^ 53) with (P * (U * 2 ^ (- G))) in HF by (rewrite <- Hsplit; ring).
    replace (N * 2 ^ (- E2) * 2 ^ c) with (N * U) in HF by (unfold U; ring).
    assert (P * (U * 2 ^ (- G)) <= N * U * 2 ^ (- G)) by nia.
    assert ((m - 1) * (N * U) < 2 ^ (- G) * (N * U)) by lia.
    assert (0 < N * U) by nia. nia. }
  assert (HW : 0 < 2 ^ (E - G)) by (apply pow2_pos; lia).
  assert (HEle : E <= -52).
  { destruct (Z.leb_spec E (-52)); [assumption|exfalso].
    assert (2 ^ (- G) <= 2 ^ 52 * 2 ^ (E - G)).
    { rewrite <- Z.pow_add_r by lia. apply Z.pow_le_mono_r; lia. }
    assert (2 ^ 52 * 2 ^ (E - G) <= m) by (unfold m; nia).
    assert (HEq : m = 2 ^ (- G)) by lia.
    (* then M = 2^52 exactly and E = -52, contradiction *)
    assert (2 ^ (- G) < 2 ^ 52 * 2 ^ (E - G) \/ 2 ^ (- G) = 2 ^ 52 * 2 ^ (E - G)) as [Hlt|Heq] by lia;
      [lia|].
    rewrite <- Z.pow_add_r in Heq by lia.
    apply Z.pow_inj_r in Heq; lia. }
  split; [unfold G in *; lia|].
  assert (Hs : 2 ^ (- G) = 2 ^ (E - G) * 2 ^ (- E)).
  { apply pow2_add; lia. }
  unfold m in Hm. rewrite Hs in Hm.
  assert (0 < 2 ^ (- E)) by (apply pow2_pos; lia). nia.
Qed.

Lemma Math_round_normal (M : positive) (E : Z) :
  E < 0 ->
  JS.Math_round (S754_finite false M E) = (2 * Zpos M + 2 ^ (- E)) / (2 * 2 ^ (- E)).
Proof.
  intros HE. unfold JS.Math_round.
  destruct (Z.leb_spec 0 E); [lia|].
  rewrite Z.pow_add_r by lia. change (2 ^ 1) with 2. f_equal. ring.
Qed.

(** The argument of [Math.round] in the percentage idiom is a zero or a
    finite number, and the rounded percentage lies in [0, 100]. *)
Lemma round_percent_finite (P N : Z) :
  0 <= P <= N -> 0 < N < 2 ^ 53 ->
  let x := JS.mul (JS.div (JS.of_Z P) (JS.of_Z N)) (JS.of_Z 100) in
  (P = 0 /\ x = S754_zero false)
  \/ (exists M E, normal x M E /\ E < 0 /\ Zpos M <= 100 * 2 ^ (- E)).
Proof.
  intros HP HN x.
  destruct (Z.eq_dec P 0) as [->|HP0].
  - left. split; [reflexivity|].
    destruct (of_Z_spec N ltac:(lia)) as (M2 & E2 & [Hn2 _] & _).
    unfold x. rewrite of_Z_0, Hn2. reflexivity.
  - right.
    destruct (div_counts P N ltac:(lia) ltac:(lia)) as (Mx & Ex & Hnx & HEx & HMx).
    destruct (mul_spec _ _ _ _ _ _ Hnx of_Z_100 ltac:(lia)) as (M & E & c & Hn & Hc & HE & HF).
    fold x in Hn. exists M, E. split; [exact Hn|]. split; [lia|].
    set (G := Ex + -46 + c) in *.
    destruct HF as [HF _].
    set (m := Zpos M * 2 ^ (E - G)) in *.
    assert (HC : 0 < 2 ^ c) by (apply pow2_pos; lia).
    assert (HG : 0 < 2 ^ (- G)) by (apply pow2_pos; unfold G; lia).
    assert (Hs1 : 2 ^ (- Ex) * 2 ^ 46 = 2 ^ (- G) * 2 ^ c).
    { rewrite <- !Z.pow_add_r by (unfold G; lia). f_equal. unfold G. lia. }
    assert (Hm : m <= 100 * 2 ^ (- G)).
    { change (Zpos 7036874417766400) with (100 * 2 ^ 46) in HF.
      assert (Zpos Mx * (100 * 2 ^ 46) <= 100 * (2 ^ (- G) * 2 ^ c)).
      { rewrite <- Hs1. nia. }
      assert ((m - 1) * 2 ^ c < (100 * 2 ^ (- G)) * 2 ^ c) by lia.
      nia. }
    assert (Hs : 2 ^ (- G) = 2 ^ (E - G) * 2 ^ (- E)) by (apply pow2_add; unfold G in *; lia).
    assert (HW : 0 < 2 ^ (E - G)) by (apply pow2_pos; lia).
    assert (0 < 2 ^ (- E)) by (apply pow2_pos; unfold G in *; lia).
    unfold m in Hm. rewrite Hs in Hm. nia.
Qed.

Lemma round_percent_range (P N : Z) :
  0 <= P <= N -> 0 < N < 2 ^ 53 -> 0 <= JS.round_percent P N <= 100.
Proof.
  intros HP HN. unfold JS.round_percent.
  destruct (round_percent_finite P N HP HN) as [[_ ->]|(M & E & [-> HM] & HE & Hle)].
  - cbn. lia.
  - rewrite Math_round_normal by assumption.
    assert (HT : 0 < 2 ^ (- E)) by (apply pow2_pos; lia).
    split.
    + apply Z.div_pos; lia.
    + apply Z.lt_succ_r. apply Z.div_lt_upper_bound; lia.
Qed.

(** One correctly rounded division of two integers, then [Math.round],
    is the exact rounding of the quotient. *)
Lemma round_div_exact (s n : Z) :
  0 <= s <= 100 * n -> 0 < n < 2 ^ 32 ->
  JS.Math_round (JS.div (JS.of_Z s) (JS.of_Z n)) = Spec.round_div s n.
Proof.
  intros Hs Hn. unfold Spec.round_div.
  destruct (Z.eq_dec s 0) as [->|Hs0].
  - destruct (of_Z_spec n ltac:(lia)) as (M2 & E2 & [Hn2 _] & _).
    rewrite of_Z_0, Hn2. cbn [JS.div SFdiv JS.Math_round xorb].
    symmetry. apply Z.div_small. lia.
  - destruct (of_Z_spec s ltac:(lia)) as (M1 & E1 & Hn1 & HE1 & HM1).
    destruct (of_Z_spec n ltac:(lia)) as (M2 & E2 & Hn2 & HE2 & HM2).
    destruct (div_spec _ _ _ _ _ _ Hn1 Hn2 ltac:(lia)) as (M & E & c & [-> HMb] & Hc & HE & HF).
    destruct Hn1 as [_ HM1b]. destruct Hn2 as [_ HM2b].
    set (G := E1 - E2 - 53 + c) in *.
    (* the quotient is below 128, so its exponent is small *)
    assert (HA : 0 < 2 ^ (- E1)) by (apply pow2_pos; lia).
    assert (HB : 0 < 2 ^ (- E2)) by (apply pow2_pos; lia).
    assert (HE12 : E1 - E2 <= 7).
    { destruct (Z.leb_spec (E1 - E2) 7); [assumption|exfalso].
      assert (2 ^ (- E2) = 2 ^ (E1 - E2) * 2 ^ (- E1)) by (apply pow2_add; lia).
      assert (2 ^ 8 <= 2 ^ (E1 - E2)) by (apply Z.pow_le_mono_r; lia).
      change (2 ^ 8) with 256 in *.
      assert (256 * (n * 2 ^ (- E1)) <= n * 2 ^ (- E2)) by nia.
      assert (s * 2 ^ (- E1) <= 100 * (n * 2 ^ (- E1))) by nia.
      change (2 ^ 52) with 4503599627370496 in *.
      change (2 ^ 53) with 9007199254740992 in *.
      rewrite HM1 in HM1b. rewrite HM2 in HM2b. lia. }
    assert (HEneg : E <= -44) by (unfold G in *; lia).
    rewrite Math_round_normal by lia.
    (* T = 2 * T' *)
    set (T' := 2 ^ (- E - 1)).
    assert (HT : 2 ^ (- E) = 2 * T').
    { unfold T'. replace (- E) with (1 + (- E - 1)) at 1 by lia.
      rewrite Z.pow_add_r by lia. reflexivity. }
    assert (HT' : 2 ^ 43 <= T') by (apply Z.pow_le_mono_r; lia).
    change (2 ^ 43) with 8796093022208 in HT'. change (2 ^ 32) with 4294967296 in Hn.
    rewrite HT.
    set (W := 2 ^ (E - G)) in *.
    assert (HW : 0 < W) by (apply pow2_pos; lia).
    assert (HK : 2 ^ (- G) = W * (2 * T')).
    { rewrite <- HT. apply pow2_add; unfold G in *; lia. }
    assert (HC : 0 < 2 ^ c) by (apply pow2_pos; lia).
    assert (Hsplit : 2 ^ (- E1) * 2 ^ 53 = (2 ^ (- E2) * 2 ^ c) * 2 ^ (- G)).
    { rewrite <- !Z.pow_add_r by (unfold G; lia). f_equal. unfold G. lia. }
    set (U := 2 ^ (- E2) * 2 ^ c) in *.
    assert (HU : 0 < U) by (unfold U; nia).
    (* the faithful bracket, freed of the common factor U *)
    assert (HF' : (Zpos M * W - 1) * n < s * (W * (2 * T')) < (Zpos M * W + 1) * n).
    { unfold faithful in HF. rewrite HM1, HM2 in HF.
      replace (s * 2 ^ (- E1) * 2 ^ 53) with (s * (W * (2 * T')) * U) in HF
        by (rewrite <- HK; replace (s * 2 ^ (- E1) * 2 ^ 53) with (s * (2 ^ (- E1) * 2 ^ 53)) by ring;
            rewrite Hsplit; ring).
      replace (n * 2 ^ (- E2) * 2 ^ c) with (n * U) in HF by (unfold U; ring).
      split.
      - apply (Z.mul_lt_mono_pos_r U); [lia|]. lia.
      - apply (Z.mul_lt_mono_pos_r U); [lia|]. lia. }
    clear HF Hsplit HK HM1 HM2.
    set (k := (2 * s + n) / (2 * n)).
    assert (Hk : 2 * n * k <= 2 * s + n < 2 * n * (k + 1)).
    { unfold k. pose proof (Z.div_mod (2 * s + n) (2 * n) ltac:(lia)).
      pose proof (Z.mod_pos_bound (2 * s + n) (2 * n) ltac:(lia)). lia. }
    symmetry. apply Z.div_unique with (2 * Zpos M + 2 * T' - 2 * (2 * T') * k); [|ring].
    left. destruct HF' as [HFl HFu].
    assert (Hlow : (2 * k - 1) * T' <= Zpos M).
    { destruct (Z.leb_spec ((2 * k - 1) * T') (Zpos M)); [assumption|exfalso].
      assert (Zpos M + 1 <= (2 * k - 1) * T') by lia.
      assert ((Zpos M * W + W) * n <= (2 * k - 1) * T' * W * n) by nia.
      assert ((2 * k - 1) * n * (W * T') <= 2 * s * (W * T')) by nia.
      nia. }
    assert (Hupp : Zpos M < (2 * k + 1) * T').
    { destruct (Z.ltb_spec (Zpos M) ((2 * k + 1) * T')); [assumption|exfalso].
      assert ((2 * k + 1) * T' * W * n <= Zpos M * W * n) by nia.
      assert (2 * s * (W * T') <= ((2 * k + 1) * n - 1) * (W * T')) by nia.
      assert (n <= W * T') by nia.
      nia. }
    lia.
Qed.
End Binary64Facts.

(** ** The stable sort on percentages *)

Section SortFacts.
Import Spec Storage.

Let cmp := by_percentage_desc.

Lemma sort_insert_perm (x : MemberStat) (l : list MemberStat) :
  Permutation (JS.sort_insert cmp x l) (x :: l).
Proof.
  induction l as [|y ys IH]; simpl; [reflexivity|].
  destruct (cmp x y <=? 0); [reflexivity|].
  rewrite IH. apply perm_swap.
Qed.

Lemma sort_perm (l : list MemberStat) : Permutation (JS.sort cmp l) l.
Proof.
  induction l as [|x xs IH]; simpl; [constructor|].
  rewrite sort_insert_perm. now constructor.
Qed.

Lemma sort_insert_sorted (x : MemberStat) (l : list MemberStat) :
  StronglySorted ranks_before l -> StronglySorted ranks_before (JS.sort_insert cmp x l).
Proof.
  induction 1 as [|y ys Hs IH Hy]; simpl.
  - repeat constructor.
  - destruct (Z.leb_spec (cmp x y) 0) as [Hle|Hgt]; unfold cmp, by_percentage_desc in *.
    + constructor; [now constructor|].
      constructor; [unfold ranks_before; lia|].
      rewrite Forall_forall in *. intros z Hz.
      specialize (Hy z Hz). unfold ranks_before in *. lia.
    + constructor; [exact IH|].
      rewrite Forall_forall in *. intros z Hz.
      apply (Permutation_in _ (sort_insert_perm x ys)) in Hz.
      destruct Hz as [<-|Hz]; [unfold ranks_before; lia|now apply Hy].
Qed.

Lemma sort_sorted (l : list MemberStat) : StronglySorted ranks_before (JS.sort cmp l).
Proof.
  induction l as [|x xs IH]; simpl; [constructor|now apply sort_insert_sorted].
Qed.

(** Insertion never moves [x] past an entry of equal percentage. *)
Lemma sort_insert_stable (k : Z) (x : MemberStat) (l : list MemberStat) :
  filter (has_percentage k) (JS.sort_insert cmp x l) = filter (has_percentage k) (x :: l).
Proof.
  induction l as [|y ys IH]; [reflexivity|].
  cbn [JS.sort_insert].
  destruct (Z.leb_spec (cmp x y) 0) as [Hle|Hgt]; [reflexivity|].
  unfold cmp, by_percentage_desc in Hgt.
  cbn [filter] in *. rewrite IH. unfold has_percentage.
  destruct (Z.eqb_spec (percentage x) k), (Z.eqb_spec (percentage y) k);
    try reflexivity; lia.
Qed.

Lemma sort_stable (k : Z) (l : list MemberStat) :
  filter (has_percentage k) (JS.sort cmp l) = filter (has_percentage k) l.
Proof.
  induction l as [|x xs IH]; [reflexivity|].
  cbn [JS.sort]. rewrite sort_insert_stable. cbn [filter]. now rewrite IH.
Qed.

(** The ranking only looks at the percentages. *)
Lemma sort_insert_percentages (x : MemberStat) (l : list MemberStat) :
  map percentage (JS.sort_insert cmp x l)
  = JS.sort_insert (fun a b => b - a) (percentage x) (map percentage l).
Proof.
  induction l as [|y ys IH]; [reflexivity|].
  cbn [JS.sort_insert map]. unfold cmp at 1, by_percentage_desc.
  destruct (percentage y - percentage x <=? 0); cbn [map]; [reflexivity|].
  now rewrite IH.
Qed.

Lemma sort_percentages (l : list MemberStat) :
  map percentage (JS.sort cmp l) = JS.sort (fun a b => b - a) (map percentage l).
Proof.
  induction l as [|x xs IH]; [reflexivity|].
  cbn [JS.sort map]. now rewrite sort_insert_percentages, IH.
Qed.

Lemma sort_length (l : list MemberStat) : List.length (JS.sort cmp l) = List.length l.
Proof. apply Permutation_length, sort_perm. Qed.

(** The first three and the last three of a short list share an entry. *)
Lemma slices_overlap (l : list MemberStat) :
  (1 <= List.length l <= 5)%nat ->
  exists s, In s (JS.slice_first 3 l) /\ In s (JS.reverse (JS.slice_last 3 l)).
Proof.
  unfold JS.slice_first, JS.slice_last, JS.reverse.
  destruct l as [|a [|b [|c [|d [|e [|f l]]]]]]; cbn [List.length]; intros H; try lia.
  - exists a; simpl; auto.
  - exists a; simpl; auto.
  - exists a; simpl; auto.
  - exists b; simpl; auto.
  - exists c; simpl; auto.
Qed.

Lemma slice_first_length (n : nat) (l : list MemberStat) :
  List.length (JS.slice_first n l) = Nat.min n (List.length l).
Proof. apply length_firstn. Qed.

Lemma slice_last_length (n : nat) (l : list MemberStat) :
  List.length (JS.reverse (JS.slice_last n l)) = Nat.min n (List.length l).
Proof.
  unfold JS.reverse, JS.slice_last. rewrite length_rev, length_skipn. lia.
Qed.
End SortFacts.

(** C1. [getReportStats] ranks the members' statistics with a stable sort
    on the percentage, descending: the sorted array is a permutation of
    the statistics, non-increasing in percentage, and keeps entries of
    equal percentage in enumeration order.  [topPerformers] is its first
    three entries, [lowPerformers] its last three reversed; each has
    [min 3 n] entries for [n] members, so all of them when there are fewer
    than three, and with one to five members the two lists share an entry.
    Whenever the members' percentages are 90, 80, 70, 60, 50 the lists
    are 90, 80, 70 and 50, 60, 70; [Sample.five] is such a database. *)
Theorem getReportStats_ranking :
  (forall db : Database,
      let stats := map (Storage.memberStat (attendance db)) (members db) in
      let top := Storage.topPerformers (Storage.getReportStats db) in
      let low := Storage.lowPerformers (Storage.getReportStats db) in
      exists sorted : list Storage.MemberStat,
        Permutation sorted stats
        /\ StronglySorted Spec.ranks_before sorted
        /\ (forall k, filter (Spec.has_percentage k) sorted
                      = filter (Spec.has_percentage k) stats)
        /\ top = firstn 3 sorted
        /\ low = rev (skipn (List.length sorted - 3) sorted)
        /\ List.length top = Nat.min 3 (List.length (members db))
        /\ List.length low = Nat.min 3 (List.length (members db))
        /\ ((1 <= List.length (members db) <= 5)%nat ->
            exists s, In s top /\ In s low))
  /\ (forall db : Database,
        map Storage.percentage (map (Storage.memberStat (attendance db)) (members db))
        = [90; 80; 70; 60; 50] ->
        map Storage.percentage (Storage.topPerformers (Storage.getReportStats db))
        = [90; 80; 70]
        /\ map Storage.percentage (Storage.lowPerformers (Storage.getReportStats db))
           = [50; 60; 70])
  /\ map Storage.percentage (map (Storage.memberStat (attendance Sample.five)) (members Sample.five))
     = [90; 80; 70; 60; 50].
Proof.
  split; [|split; [|vm_compute; reflexivity]].
  2: { intros db Hp.
       unfold Storage.getReportStats; cbv zeta;
         cbn [Storage.topPerformers Storage.lowPerformers].
       unfold JS.slice_first, JS.slice_last, JS.reverse.
       rewrite <- firstn_map, map_rev, <- skipn_map.
       rewrite <- (length_map Storage.percentage (JS.sort _ _)).
       rewrite sort_percentages, Hp. split; reflexivity. }
  intros db stats top low.
  exists (JS.sort Storage.by_percentage_desc stats).
  assert (Hlen : List.length (JS.sort Storage.by_percentage_desc stats)
                 = List.length (members db)).
  { rewrite sort_length. unfold stats. apply length_map. }
  split; [apply sort_perm|].
  split; [apply sort_sorted|].
  split; [intros k; apply sort_stable|].
  split; [reflexivity|].
  split; [reflexivity|].
  unfold top, low, Storage.getReportStats; cbv zeta;
    cbn [Storage.topPerformers Storage.lowPerformers]; fold stats.
  split; [rewrite slice_first_length; now rewrite Hlen|].
  split; [rewrite slice_last_length; now rewrite Hlen|].
  intros Hn. apply slices_overlap. now rewrite Hlen.
Qed.

Lemma getReportStats_ranking_witness :
  (1 <= List.length (members Sample.five) <= 5)%nat
  /\ exists s, In s (Storage.topPerformers (Storage.getReportStats Sample.five))
               /\ In s (Storage.lowPerformers (Storage.getReportStats Sample.five)).
Proof.
  split; [simpl; lia|].
  destruct getReportStats_ranking as [H _].
  destruct (H Sample.five) as (sorted & _ & _ & _ & _ & _ & _ & _ & Hov).
  apply Hov. simpl; lia.
Defined.

(** ** Lookups by primary key *)

Section Lookups.
Context {A : Type} (id : A -> string).

Lemma find_by_id_none (key : option string) (rows : list A) :
  (forall row, In row rows -> Some (id row) <> key) ->
  Storage.find_by_id id key rows = None.
Proof.
  intros H. unfold Storage.find_by_id.
  induction rows as [|row rows IH]; [reflexivity|].
  cbn [find]; cbv beta.
  destruct key as [k|]; cbn [JS.nullable JS.strict_eq] in *.
  - destruct (String.eqb_spec (id row) k) as [<-|_].
    + exfalso. apply (H row); [now left|reflexivity].
    + apply IH. intros r Hr. apply H. now right.
  - apply IH. intros r Hr. apply H. now right.
Qed.


End Lookups.

(** ** The relation joiner *)

Section Joiner.
Variable orderBy : forall A : Type, (A -> string) -> bool -> list A -> list A.
Variable toLocaleDateString : string -> string.
Variable toUpperCase : string -> string.
Hypothesis orderBy_perm :
  forall (A : Type) (column : A -> string) (desc : bool) (rows : list A),
    Permutation (orderBy A column desc rows) rows.

(** A member's statistics read only that member's attendance rows. *)
Lemma memberStat_rows (rows rows' : list Attendance.t) (member : Member.t) :
  filter (fun a => String.eqb (Attendance.memberId a) (Member.id member)) rows
  = filter (fun a => String.eqb (Attendance.memberId a) (Member.id member)) rows' ->
  Storage.memberStat rows member = Storage.memberStat rows' member.
Proof. intros H. unfold Storage.memberStat. now rewrite H. Qed.

(** C7. [getAttendanceWithDetails] returns one joined record per
    attendance row, whatever the foreign keys point to; in every joined
    record a [storyId], [memberId], [roleId] or [replacedMemberId] that
    matches no row of its table leaves that relation absent, and the
    attendance row itself is passed on unchanged.  The route that serves
    the joined view answers with exactly these records.  What reads the
    records afterwards carries the absence on and fails nowhere: the
    tables of the reports page and of the admin attendance page show
    "Unknown" for an absent member and "-" for an absent story or role;
    the export, which joins the rows itself, writes an empty cell in the
    spreadsheet, "Unknown" in the document line and "Unknown" or "-" in
    the image row; and the report statistics are those of the store
    without the rows whose member is gone. *)
Theorem getAttendanceWithDetails_dangling (db : Database) :
  let joined := Storage.getAttendanceWithDetails orderBy db in
  let memberRows := Storage.getMembers orderBy db in
  let storyRows := Storage.getStories orderBy db in
  let no_story (record : Attendance.t) :=
    forall s, In s (stories db) -> Some (Story.id s) <> Attendance.storyId record in
  let no_member (record : Attendance.t) :=
    forall m, In m (members db) -> Member.id m <> Attendance.memberId record in
  Permutation (map Storage.record joined) (attendance db)
  /\ (forall j, In j joined ->
       (no_story (Storage.record j) ->
        Storage.story j = None
        /\ ReportsPage.story_cell j = "-" /\ AdminAttendancePage.story_cell j = "-")
       /\ (no_member (Storage.record j) ->
           Storage.member j = None
           /\ ReportsPage.member_cell j = "Unknown"
           /\ AdminAttendancePage.member_cell j = "Unknown")
       /\ ((forall r, In r (roles db) -> Some (Role.id r) <> Attendance.roleId (Storage.record j)) ->
           Storage.role j = None /\ AdminAttendancePage.role_cell j = "-")
       /\ ((forall m, In m (members db) ->
              Some (Member.id m) <> Attendance.replacedMemberId (Storage.record j)) ->
           Storage.replacedMember j = None))
  /\ (forall userId,
       Routes.not_admin (Storage.getMemberByUserId db userId) = false ->
       Routes.attendanceAll orderBy db userId = [Routes.json joined])
  /\ (forall record y,
       (no_story record ->
        nth_error (Routes.excel_row toLocaleDateString memberRows storyRows record) 2 = Some ""
        /\ Routes.pdf_line toLocaleDateString toUpperCase memberRows storyRows record
           = toLocaleDateString (Attendance.date record) ++ " - "
             ++ JS.name_or Member.name
                  (Storage.find_by_id Member.id (Some (Attendance.memberId record)) memberRows)
                  "Unknown"
             ++ " - " ++ "Unknown" ++ " - " ++ toUpperCase (Attendance.status record)
        /\ nth_error (Routes.image_row toLocaleDateString memberRows storyRows record y) 2
           = Some (Routes.fillText "-" 450 y))
       /\ (no_member record ->
           nth_error (Routes.excel_row toLocaleDateString memberRows storyRows record) 1 = Some ""
           /\ Routes.pdf_line toLocaleDateString toUpperCase memberRows storyRows record
              = toLocaleDateString (Attendance.date record) ++ " - " ++ "Unknown" ++ " - "
                ++ JS.name_or Story.name
                     (Storage.find_by_id Story.id (Attendance.storyId record) storyRows)
                     "Unknown"
                ++ " - " ++ toUpperCase (Attendance.status record)
           /\ nth_error (Routes.image_row toLocaleDateString memberRows storyRows record y) 1
              = Some (Routes.fillText "Unknown" 200 y)))
  /\ Storage.getReportStats (Spec.without_orphans db) = Storage.getReportStats db.
Proof.
  intros joined memberRows storyRows no_story no_member.
  split; [|split; [|split; [|split]]].
  - unfold joined, Storage.getAttendanceWithDetails.
    rewrite map_map. cbn [Storage.record]. rewrite map_id. apply orderBy_perm.
  - intros j Hj. unfold joined, Storage.getAttendanceWithDetails in Hj.
    apply in_map_iff in Hj. destruct Hj as (r & <- & _).
    unfold ReportsPage.story_cell, ReportsPage.member_cell, AdminAttendancePage.story_cell,
      AdminAttendancePage.member_cell, AdminAttendancePage.role_cell.
    cbn [Storage.withDetails Storage.record Storage.story Storage.member
         Storage.role Storage.replacedMember].
    split; [|split; [|split]].
    + intros H. rewrite (find_by_id_none Story.id _ _ H). repeat split.
    + intros H.
      rewrite (find_by_id_none Member.id (Some (Attendance.memberId r)) (members db));
        [repeat split|].
      intros m Hm Heq. apply (H m Hm). congruence.
    + intros H. rewrite (find_by_id_none Role.id _ _ H). repeat split.
    + intros H. apply find_by_id_none. exact H.
  - intros userId Hadm. unfold Routes.attendanceAll. rewrite Hadm. reflexivity.
  - intros record y. split.
    + intros H.
      assert (Hfind : Storage.find_by_id Story.id (Attendance.storyId record) storyRows = None).
      { apply find_by_id_none. intros s Hs. apply H.
        unfold storyRows, Storage.getStories in Hs.
        apply (Permutation_in _ (orderBy_perm _ _ _ _)) in Hs.
        apply filter_In in Hs. tauto. }
      unfold Routes.excel_row, Routes.pdf_line, Routes.image_row. cbv zeta.
      rewrite Hfind. repeat split.
    + intros H.
      assert (Hfind : Storage.find_by_id Member.id (Some (Attendance.memberId record)) memberRows
                      = None).
      { apply find_by_id_none. intros m Hm Heq. apply (H m); [|congruence].
        unfold memberRows, Storage.getMembers in Hm.
        apply (Permutation_in _ (orderBy_perm _ _ _ _)) in Hm. exact Hm. }
      unfold Routes.excel_row, Routes.pdf_line, Routes.image_row. cbv zeta.
      rewrite Hfind. repeat split.
  - unfold Storage.getReportStats, Spec.without_orphans.
    cbn [members attendance].
    assert (Hstats : map (Storage.memberStat
                            (filter (fun a => existsb (fun m => String.eqb (Member.id m)
                                                                  (Attendance.memberId a))
                                                      (members db))
                                    (attendance db)))
                         (members db)
                     = map (Storage.memberStat (attendance db)) (members db)).
    { apply map_ext_in. intros member Hmember. apply memberStat_rows.
      induction (attendance db) as [|a rows IH]; [reflexivity|].
      cbn [filter].
      destruct (String.eqb (Attendance.memberId a) (Member.id member)) eqn:E.
      - assert (Hex : existsb (fun m => String.eqb (Member.id m) (Attendance.memberId a))
                              (members db) = true).
        { apply existsb_exists. exists member. split; [exact Hmember|].
          now rewrite String.eqb_sym. }
        rewrite Hex. cbn [filter]. rewrite E. now f_equal.
      - destruct (existsb _ (members db)); [cbn [filter]; rewrite E|]; exact IH. }
    cbv zeta. rewrite Hstats. reflexivity.
Qed.
End Joiner.

Lemma getAttendanceWithDetails_dangling_witness :
  (exists j, In j (Storage.getAttendanceWithDetails Sample.keep_order Sample.dangling_db)
             /\ Storage.record j = Sample.dangling
             /\ Storage.story j = None /\ Storage.role j = None
             /\ Storage.replacedMember j = None
             /\ ReportsPage.story_cell j = "-"
             /\ AdminAttendancePage.role_cell j = "-")
  /\ attendance (Spec.without_orphans Sample.dangling_db) = [ Sample.dangling ]
  /\ Storage.getReportStats (Spec.without_orphans Sample.dangling_db)
     = Storage.getReportStats Sample.dangling_db.
Proof.
  destruct (getAttendanceWithDetails_dangling Sample.keep_order Sample.same Sample.same
              (fun A c d rows => Permutation_refl rows) Sample.dangling_db)
    as (_ & H & _ & _ & Hstats).
  split; [|split; [reflexivity | exact Hstats]].
  eexists. split; [left; reflexivity|].
  specialize (H _ (or_introl eq_refl)).
  destruct H as (Hs & _ & Hr & Hm).
  split; [reflexivity|].
  assert (Hstory : forall s, In s (stories Sample.dangling_db) ->
                     Some (Story.id s) <> Attendance.storyId Sample.dangling)
    by (simpl; tauto).
  assert (Hrole : forall r, In r (roles Sample.dangling_db) ->
                    Some (Role.id r) <> Attendance.roleId Sample.dangling)
    by (simpl; intros r [<-|[]]; discriminate).
  destruct (Hs Hstory) as (H1 & H2 & _). destruct (Hr Hrole) as (H3 & H4).
  split; [exact H1|]. split; [exact H3|].
  split; [apply Hm; simpl; intros m [<-|[<-|[]]]; discriminate|].
  split; [exact H2 | exact H4].
Defined.

(** ** The filter engine *)

(** C3, as stated, fails: with every filter absent the specification's
    filter accepts a record and the handler's filter rejects it. *)
Lemma export_filter_absent_status_rejects :
  Spec.filter_accepts Sample.day_of Sample.no_filters (Sample.att "a" "present") = true
  /\ Routes.export_filter Sample.day_of Sample.no_filters (Sample.att "a" "present") = false.
Proof. split; reflexivity. Qed.

Section FilterFacts.
Variable Date_parse : string -> option Z.

Lemma not_date_lt (a b : option Z) :
  negb (Routes.date_lt a b)
  = match b, a with Some lo, Some d => lo <=? d | _, _ => true end.
Proof.
  destruct a as [x|], b as [y|]; cbn; try reflexivity.
  destruct (Z.ltb_spec x y), (Z.leb_spec y x); try reflexivity; lia.
Qed.

(** C3, amended.  For a request whose [eventFilter] is absent, empty or
    ["all"], the export filter is the conjunction of the recognized
    predicates: [dateFrom] and [dateTo] as inclusive bounds on the
    record's date, skipped when absent or empty, and [statusFilter],
    [storyFilter], [memberFilter] as exact matches, skipped only when
    the value is ["all"]. *)
Theorem export_filter_amended (f : Routes.Filters) (r : Attendance.t) :
  Spec.unconstrained (Routes.eventFilter f) = true ->
  Routes.export_filter Date_parse f r = Spec.filter_accepts_amended Date_parse f r.
Proof.
  intros Hev. unfold Routes.export_filter, Spec.filter_accepts_amended, Spec.is_all, Spec.exact.
  rewrite Hev, orb_true_l, andb_true_r.
  assert (Hfrom : Routes.date_lt (Date_parse (Attendance.date r))
                    (Routes.new_Date Date_parse (Routes.dateFrom f))
                  = negb (Spec.on_or_after Date_parse (Routes.dateFrom f) (Attendance.date r))
                  \/ JS.truthy (Routes.dateFrom f) = false).
  { destruct (Routes.dateFrom f) as [| |b]; [now right|now right|left].
    cbn [Routes.new_Date Spec.on_or_after].
    rewrite <- (negb_involutive (Routes.date_lt _ _)), not_date_lt. reflexivity. }
  assert (Hto : Routes.date_lt (Routes.new_Date Date_parse (Routes.dateTo f))
                  (Date_parse (Attendance.date r))
                = negb (Spec.on_or_before Date_parse (Routes.dateTo f) (Attendance.date r))
                \/ JS.truthy (Routes.dateTo f) = false).
  { destruct (Routes.dateTo f) as [| |b]; [now right|now right|left].
    cbn [Routes.new_Date Spec.on_or_before].
    rewrite <- (negb_involutive (Routes.date_lt _ _)), not_date_lt.
    destruct (Date_parse b), (Date_parse (Attendance.date r)); reflexivity. }
  destruct Hfrom as [-> | ->], Hto as [-> | ->];
    repeat match goal with
           | |- context [JS.truthy ?v] => destruct (JS.truthy v)
           | |- context [Spec.on_or_after ?p ?v ?d] => destruct (Spec.on_or_after p v d)
           | |- context [Spec.on_or_before ?p ?v ?d] => destruct (Spec.on_or_before p v d)
           | |- context [JS.strict_eq ?a ?b] => destruct (JS.strict_eq a b)
           end; reflexivity.
Qed.

(** The handler's filter has no predicate for [eventFilter]: changing
    that field of the request never changes the outcome. *)
Lemma export_filter_eventFilter_unused (f : Routes.Filters) (v : JS.value) (r : Attendance.t) :
  Routes.export_filter Date_parse
    {| Routes.dateFrom := Routes.dateFrom f; Routes.dateTo := Routes.dateTo f;
       Routes.statusFilter := Routes.statusFilter f; Routes.storyFilter := Routes.storyFilter f;
       Routes.memberFilter := Routes.memberFilter f; Routes.eventFilter := v |} r
  = Routes.export_filter Date_parse f r.
Proof. reflexivity. Qed.
End FilterFacts.

Lemma export_filter_amended_witness :
  Spec.unconstrained (Routes.eventFilter Sample.all_filters) = true
  /\ Routes.export_filter Sample.day_of Sample.all_filters (Sample.att "a" "present")
     = Spec.filter_accepts_amended Sample.day_of Sample.all_filters (Sample.att "a" "present").
Proof.
  split; [reflexivity|].
  apply (export_filter_amended Sample.day_of Sample.all_filters (Sample.att "a" "present")).
  reflexivity.
Defined.

(** ** The attendance export *)


Section ReportExport.
Variable orderBy : forall A : Type, (A -> string) -> bool -> list A -> list A.
Variable Date_parse : string -> option Z.
Variable toLocaleDateString : string -> string.
Variable now_toLocaleDateString : string.
Variable now_toLocaleString : string.
Variable toUpperCase : string -> string.
Hypothesis orderBy_perm :
  forall (A : Type) (column : A -> string) (desc : bool) (rows : list A),
    Permutation (orderBy A column desc rows) rows.

Let reportsExport :=
  Routes.reportsExport orderBy Date_parse toLocaleDateString
    now_toLocaleDateString now_toLocaleString toUpperCase.


(** [deleteStory] keeps the row and its key and clears the flag. *)
Lemma deleteStory_soft (db : Database) (s : Story.t) :
  In s (stories db) ->
  map Story.id (stories (Storage.deleteStory db (Story.id s))) = map Story.id (stories db)
  /\ exists s', In s' (stories (Storage.deleteStory db (Story.id s)))
                /\ Story.id s' = Story.id s /\ Story.isActive s' = Some false.
Proof.
  intros Hin. cbn [Storage.deleteStory stories]. split.
  - rewrite map_map. apply map_ext. intros a.
    destruct (String.eqb (Story.id a) (Story.id s)); reflexivity.
  - exists (Story.mk (Story.id s) (Story.name s) (Some false) (Story.eventType s)).
    split; [|split; reflexivity].
    apply in_map_iff. exists s. rewrite String.eqb_refl. now split.
Qed.






Lemma excel_ws_data_length
    (members : list Member.t) (stories : list Story.t) (filtered : list Attendance.t) :
  List.length (Routes.excel_ws_data toLocaleDateString members stories filtered)
  = S (List.length filtered).
Proof. unfold Routes.excel_ws_data. cbn [List.length]. now rewrite length_map. Qed.
End ReportExport.


(** C4. The spreadsheet branch writes one row per filtered record, but
    every row has an empty Role cell and an empty Replaced By cell: the
    branch reads [record.role] and [record.replacedBy], and an attendance
    row has neither property (its columns are [roleId] and
    [replacedMemberId]).  The record of [Sample.role_db], which names a
    role and a replaced member, is exported without either. *)
Theorem excel_export_loses_role_and_replaced_by :
  (forall (toLocaleDateString : string -> string) (members : list Member.t)
          (stories : list Story.t) (record : Attendance.t),
      Attendance.prop record "role" = JS.undefined
      /\ Attendance.prop record "replacedBy" = JS.undefined
      /\ nth_error (Routes.excel_row toLocaleDateString members stories record) 3 = Some ""
      /\ nth_error (Routes.excel_row toLocaleDateString members stories record) 5 = Some "")
  /\ Attendance.roleId Sample.with_role = Some (Role.id Sample.puppeteer)
  /\ Attendance.replacedMemberId Sample.with_role = Some "b"
  /\ Routes.reportsExport Sample.keep_order Sample.day_of Sample.same "today" "now" Sample.same
       Sample.role_db "sample-admin-user" (JS.str "excel") (Some Sample.all_filters)
     = [ Routes.setHeader "Content-Type"
           "application/vnd.openxmlformats-officedocument.spreadsheetml.sheet";
         Routes.setHeader "Content-Disposition" "attachment; filename=attendance-report.xlsx";
         Routes.send (Routes.Xlsx "Attendance" (Routes.aoa_to_sheet
           [ ["Date"; "Member"; "Story"; "Role"; "Status"; "Replaced By"];
             ["2024-01-10"; "Asha"; ""; ""; "replaced"; ""] ])) ].
Proof. repeat split. Qed.

(** ** The poll export and the format dispatch *)

(** C8, as stated, fails: a caller who is not an admin and names a poll
    that does not exist is answered 403, not 404. *)
Lemma pollsExport_forbidden_not_found :
  find (fun p => JS.strict_eq (JS.str (Poll.id p)) (JS.str "missing"))
       (Storage.getPolls Sample.keep_order Sample.ab_db) = None
  /\ Routes.pollsExport Sample.keep_order Sample.same "now"
       Sample.ab_db "someone-else" (JS.str "missing") (JS.str "excel")
     = [Routes.status_json 403 "Forbidden"].
Proof. split; reflexivity. Qed.

(** C9, as stated, fails: with an unrecognized format both handlers still
    write a body when the caller is not an admin, and the poll handler
    when the poll does not exist. *)
Lemma export_unknown_format_still_answers :
  Routes.reportsExport Sample.keep_order Sample.day_of Sample.same "today" "now" Sample.same
    Sample.role_db "someone-else" (JS.str "csv") None
  = [Routes.status_json 403 "Forbidden"]
  /\ Routes.pollsExport Sample.keep_order Sample.same "now"
       Sample.ab_db "someone-else" (JS.str "p1") (JS.str "csv")
     = [Routes.status_json 403 "Forbidden"]
  /\ Routes.pollsExport Sample.keep_order Sample.same "now"
       Sample.ab_db "sample-admin-user" (JS.str "missing") (JS.str "csv")
     = [Routes.status_json 404 "Poll not found"].
Proof. repeat split. Qed.

Section Dispatch.
Variable orderBy : forall A : Type, (A -> string) -> bool -> list A -> list A.
Variable Date_parse : string -> option Z.
Variable toLocaleDateString : string -> string.
Variable toLocaleString : string -> string.
Variable now_toLocaleDateString : string.
Variable now_toLocaleString : string.
Variable toUpperCase : string -> string.
Hypothesis orderBy_perm :
  forall (A : Type) (column : A -> string) (desc : bool) (rows : list A),
    Permutation (orderBy A column desc rows) rows.

Let reportsExport :=
  Routes.reportsExport orderBy Date_parse toLocaleDateString
    now_toLocaleDateString now_toLocaleString toUpperCase.
Let pollsExport := Routes.pollsExport orderBy toLocaleString now_toLocaleString.

Lemma strict_eq_str_false (v : JS.value) (s : string) :
  v <> JS.str s -> JS.strict_eq v (JS.str s) = false.
Proof.
  destruct v as [| |t]; cbn; try reflexivity.
  intros H. destruct (String.eqb_spec t s); [subst; congruence|reflexivity].
Qed.

Lemma getPolls_find_none (db : Database) (pollId : JS.value) :
  (forall p, In p (polls db) -> JS.strict_eq (JS.str (Poll.id p)) pollId = false) ->
  find (fun p => JS.strict_eq (JS.str (Poll.id p)) pollId) (Storage.getPolls orderBy db) = None.
Proof.
  intros H. destruct (find _ _) as [p|] eqn:E; [|reflexivity].
  apply find_some in E. destruct E as [Hin Heq].
  apply (Permutation_in _ (orderBy_perm _ _ _ _)) in Hin.
  rewrite (H p Hin) in Heq. discriminate.
Qed.

Lemma getPolls_find_some (db : Database) (pollId : JS.value) (p : Poll.t) :
  In p (polls db) -> JS.strict_eq (JS.str (Poll.id p)) pollId = true ->
  exists poll,
    find (fun p => JS.strict_eq (JS.str (Poll.id p)) pollId) (Storage.getPolls orderBy db)
    = Some poll.
Proof.
  intros Hin Heq. destruct (find _ _) as [q|] eqn:E; [now exists q|].
  apply (Permutation_in _ (Permutation_sym (orderBy_perm _ Poll.createdAt true _))) in Hin.
  rewrite (find_none _ _ E p Hin) in Heq. discriminate.
Qed.

(** C8, amended.  When [pollId] matches no poll, a caller who passes
    the admin check is answered 404 "Poll not found", and for any caller
    no renderer runs: the response carries no artifact. *)
Theorem pollsExport_not_found (db : Database) (userId : string) (pollId format : JS.value) :
  (forall p, In p (polls db) -> JS.strict_eq (JS.str (Poll.id p)) pollId = false) ->
  (Routes.not_admin (Storage.getMemberByUserId db userId) = false ->
   pollsExport db userId pollId format = [Routes.status_json 404 "Poll not found"])
  /\ existsb Routes.writes_artifact (pollsExport db userId pollId format) = false.
Proof.
  intros Hnone. unfold pollsExport, Routes.pollsExport.
  rewrite (getPolls_find_none db pollId Hnone).
  destruct (Routes.not_admin _); split; try reflexivity; discriminate.
Qed.

(** C9, amended.  With a format other than "excel", "pdf" and "image",
    no rendering branch runs in either handler; the attendance export
    writes nothing at all for a caller who passes the admin check, and
    the poll export writes nothing at all for such a caller when the
    poll exists. *)
Theorem export_unrecognized_format
    (db : Database) (userId : string) (pollId format : JS.value)
    (filters : option Routes.Filters) (p : Poll.t) :
  Spec.unrecognized format ->
  existsb Routes.writes_artifact (reportsExport db userId format filters) = false
  /\ existsb Routes.writes_artifact (pollsExport db userId pollId format) = false
  /\ (Routes.not_admin (Storage.getMemberByUserId db userId) = false ->
      reportsExport db userId format filters = []
      /\ (In p (polls db) -> JS.strict_eq (JS.str (Poll.id p)) pollId = true ->
          pollsExport db userId pollId format = [])).
Proof.
  intros (He & Hp & Hi).
  apply strict_eq_str_false in He, Hp, Hi.
  unfold reportsExport, pollsExport, Routes.reportsExport, Routes.pollsExport.
  rewrite He, Hp, Hi.
  destruct (Routes.not_admin _).
  - repeat split; try reflexivity; discriminate.
  - split; [reflexivity|]. split.
    + destruct (find _ _); reflexivity.
    + intros _. split; [reflexivity|]. intros Hin Heq.
      destruct (getPolls_find_some db pollId p Hin Heq) as [poll ->]. reflexivity.
Qed.
End Dispatch.

Lemma pollsExport_not_found_witness :
  Routes.pollsExport Sample.keep_order Sample.same "now"
    Sample.ab_db "sample-admin-user" (JS.str "missing") (JS.str "image")
  = [Routes.status_json 404 "Poll not found"].
Proof.
  refine (proj1 (pollsExport_not_found Sample.keep_order Sample.same "now"
                   (fun A c d rows => Permutation_refl rows)
                   Sample.ab_db "sample-admin-user" (JS.str "missing") (JS.str "image") _) _).
  - simpl. intros p [<-|[]]. reflexivity.
  - reflexivity.
Defined.

Lemma export_unrecognized_format_witness :
  Routes.reportsExport Sample.keep_order Sample.day_of Sample.same "today" "now" Sample.same
    Sample.ab_db "sample-admin-user" (JS.str "csv") None = []
  /\ Routes.pollsExport Sample.keep_order Sample.same "now"
       Sample.ab_db "sample-admin-user" (JS.str "p1") (JS.str "csv") = [].
Proof.
  destruct (export_unrecognized_format Sample.keep_order Sample.day_of Sample.same Sample.same
              "today" "now" Sample.same (fun A c d rows => Permutation_refl rows)
              Sample.ab_db "sample-admin-user" (JS.str "p1") (JS.str "csv") None Sample.ab_poll)
    as (_ & _ & H).
  - repeat split; discriminate.
  - destruct (H eq_refl) as [Hr Hp]. split; [exact Hr|].
    apply Hp; [left; reflexivity|reflexivity].
Defined.

(** C6. The poll export never sees the stored responses: it reads them
    through [storage.db], which the storage object does not have, and so
    tallies the empty array.  For the poll with options A and B, three
    stored votes for A and one for B, the image shows 0 votes and 0% for
    both options, where a tally of the stored votes gives counts 3 and 1
    and percentages 75 and 25. *)
Theorem pollsExport_tallies_no_responses :
  (forall pollId, Storage.storage_db_pollResponses pollId = [])
  /\ (forall idx, Routes.option_count [] idx = 0 /\ Routes.option_pct [] idx = 0)
  /\ (exists ctx,
        Routes.pollsExport Sample.keep_order Sample.same "now"
          Sample.ab_db "sample-admin-user" (JS.str "p1") (JS.str "image")
        = [ Routes.setHeader "Content-Type" "image/jpeg";
            Routes.setHeader "Content-Disposition" "attachment; filename=poll-results.jpg";
            Routes.send (Routes.Jpeg 1200 1600 ctx) ]
        /\ In (Routes.fillText "A: 0 votes (0%)" 50 220) ctx
        /\ In (Routes.fillText "B: 0 votes (0%)" 50 255) ctx)
  /\ pollResponses Sample.ab_db = Sample.ab_votes
  /\ map (Routes.option_count Sample.ab_votes) [0; 1] = [3; 1]
  /\ map (Routes.option_pct Sample.ab_votes) [0; 1] = [75; 25].
Proof.
  split; [reflexivity|].
  split; [split; reflexivity|].
  split; [|repeat split; vm_compute; reflexivity].
  eexists. split; [reflexivity|].
  split; vm_compute; tauto.
Qed.

(** ** The aggregator's percentages and their mean *)

Section Aggregator.
Import Storage.

Lemma memberStat_percentage_range (allAttendance : list Attendance.t) (member : Member.t) :
  Z.of_nat (List.length allAttendance) < 2 ^ 53 ->
  0 <= percentage (memberStat allAttendance member) <= 100.
Proof.
  intros Hlen. unfold memberStat. cbn [percentage].
  set (memberAttendance := filter _ allAttendance).
  destruct (Z.ltb_spec 0 (Z.of_nat (List.length memberAttendance))) as [Hpos|_]; [|lia].
  apply round_percent_range.
  - pose proof (filter_length_le present_or_replaced memberAttendance). lia.
  - pose proof (filter_length_le
                  (fun a => String.eqb (Attendance.memberId a) (Member.id member)) allAttendance).
    fold memberAttendance in H. lia.
Qed.

Lemma sum_percentage_total (arr : list MemberStat) :
  sum_percentage arr = Spec.total (map percentage arr).
Proof.
  unfold sum_percentage.
  assert (H : forall a, fold_left (fun sum m => sum + percentage m) arr a
                        = a + Spec.total (map percentage arr)).
  { induction arr as [|x xs IH]; intros a; cbn [fold_left map Spec.total fold_right].
    - lia.
    - rewrite IH. unfold Spec.total. lia. }
  rewrite H. lia.
Qed.

Lemma total_perm (xs ys : list Z) : Permutation xs ys -> Spec.total xs = Spec.total ys.
Proof.
  unfold Spec.total. induction 1; cbn [fold_right]; lia.
Qed.

Lemma total_bounds (xs : list Z) :
  (forall x, In x xs -> 0 <= x <= 100) ->
  0 <= Spec.total xs <= 100 * Z.of_nat (List.length xs).
Proof.
  unfold Spec.total. induction xs as [|x xs IH]; intros H; cbn [fold_right List.length].
  - lia.
  - pose proof (H x (or_introl eq_refl)).
    assert (forall y, In y xs -> 0 <= y <= 100) by (intros y Hy; apply H; now right).
    specialize (IH H1). lia.
Qed.
End Aggregator.

(** C5. [averageAttendance] is the arithmetic mean of the per-member
    percentages, each member counting once, rounded to the nearest integer
    with halves upwards; with no members it is 0.  The member and
    attendance arrays are within the language's array length limit. *)
Theorem getReportStats_average (db : Database) :
  Z.of_nat (List.length (members db)) < 2 ^ 32 ->
  Z.of_nat (List.length (attendance db)) < 2 ^ 32 ->
  let percentages :=
    map (fun member => Storage.percentage (Storage.memberStat (attendance db) member))
        (members db) in
  Storage.averageAttendance (Storage.getReportStats db) = Spec.mean_rounded percentages
  /\ (members db = [] -> Storage.averageAttendance (Storage.getReportStats db) = 0).
Proof.
  intros Hm Ha percentages.
  assert (Hmain : Storage.averageAttendance (Storage.getReportStats db)
                  = Spec.mean_rounded percentages).
  { unfold Storage.getReportStats; cbv zeta; cbn [Storage.averageAttendance].
    set (stats := map (Storage.memberStat (attendance db)) (members db)).
    assert (Hp : percentages = map Storage.percentage stats).
    { unfold percentages, stats. now rewrite map_map. }
    rewrite sort_length. rewrite sum_percentage_total.
    rewrite (total_perm _ _ (Permutation_map Storage.percentage (sort_perm stats))).
    rewrite <- Hp.
    assert (Hlen : List.length stats = List.length percentages).
    { rewrite Hp. now rewrite length_map. }
    rewrite Hlen.
    assert (Hrange : forall y, In y percentages -> 0 <= y <= 100).
    { intros y Hy. rewrite Hp in Hy.
      apply in_map_iff in Hy. destruct Hy as (st & <- & Hst).
      apply in_map_iff in Hst. destruct Hst as (m & <- & _).
      apply memberStat_percentage_range.
      change (2 ^ 32) with 4294967296 in Ha. change (2 ^ 53) with 9007199254740992. lia. }
    assert (Hn : Z.of_nat (List.length percentages) < 2 ^ 32).
    { rewrite <- Hlen. unfold stats. rewrite length_map. exact Hm. }
    clear Hp Hlen. clearbody percentages.
    destruct percentages as [|x xs]; [reflexivity|].
    set (xs' := x :: xs) in *.
    assert (Hpos : 0 < Z.of_nat (List.length xs')) by (unfold xs'; cbn [List.length]; lia).
    destruct (Z.ltb_spec 0 (Z.of_nat (List.length xs'))) as [_|]; [|lia].
    change (Spec.mean_rounded xs')
      with (Spec.round_div (Spec.total xs') (Z.of_nat (List.length xs'))).
    apply round_div_exact; [now apply total_bounds|lia]. }
  split; [exact Hmain|].
  intros Hnil. rewrite Hmain. unfold percentages. rewrite Hnil. reflexivity.
Qed.

Lemma getReportStats_average_witness :
  Storage.averageAttendance (Storage.getReportStats Sample.five) = 70
  /\ Spec.mean_rounded [90; 80; 70; 60; 50] = 70.
Proof.
  split; [|reflexivity].
  rewrite (proj1 (getReportStats_average Sample.five
                    ltac:(vm_compute; reflexivity) ltac:(vm_compute; reflexivity))).
  vm_compute. reflexivity.
Defined.

(** C2. A member with 40 attendance records, 23 of them present: the
    source's [Math.round((23 / 40) * 100)] is evaluated in binary64, where
    the product is 8092405580431359 * 2^-47, just below 57.5, and rounds
    to 57; the specification's [round(100 * 23 / 40)] is 58. *)
Theorem percentage_23_of_40 :
  let records := attendance Sample.twenty_three_of_forty in
  let member := Sample.member "a" "Asha" in
  List.length (filter (fun a => String.eqb (Attendance.memberId a) (Member.id member)) records)
  = 40%nat
  /\ List.length (filter Storage.present_or_replaced records) = 23%nat
  /\ JS.mul (JS.div (JS.of_Z 23) (JS.of_Z 40)) (JS.of_Z 100)
     = S754_finite false 8092405580431359 (-47)
  /\ Storage.percentage (Storage.memberStat records member) = 57
  /\ Storage.topPerformers (Storage.getReportStats Sample.twenty_three_of_forty)
     = [ {| Storage.name := "Asha"; Storage.percentage := 57 |} ]
  /\ Spec.percentage 23 40 = 58.
Proof. repeat split; vm_compute; reflexivity. Qed.

(* ================================================================== *)
(** * Further properties *)
(* ================================================================== *)

(** ** The ranking and the average *)

Section RankingFacts.
Import Storage.

(** The ranking order read from the low end. *)
Lemma StronglySorted_rev {A : Type} (R : A -> A -> Prop) (l : list A) :
  StronglySorted R l -> StronglySorted (fun a b => R b a) (rev l).
Proof.
  induction 1 as [|x xs Hs IH Hx]; cbn [rev]; [constructor|].
  induction (rev xs) as [|y ys IHy] eqn:E in IH, Hx |- *.
  - repeat constructor.
  - assert (Hin : forall z, In z (y :: ys) -> R x z).
    { intros z Hz. rewrite Forall_forall in Hx. apply Hx.
      apply in_rev. rewrite E. exact Hz. }
    clear E Hx IHy.
    revert IH Hin. generalize (y :: ys). intros l.
    induction l as [|z zs IHz]; intros Hsorted Hin; cbn [app].
    + repeat constructor.
    + inversion Hsorted as [|? ? Hs' Hz]; subst.
      constructor.
      * apply IHz; [exact Hs'|]. intros w Hw. apply Hin. now right.
      * rewrite Forall_forall in *. intros w Hw. apply in_app_or in Hw.
        destruct Hw as [Hw|[<-|[]]]; [now apply Hz|]. apply Hin. now left.
Qed.

Lemma StronglySorted_firstn {A : Type} (R : A -> A -> Prop) (n : nat) (l : list A) :
  StronglySorted R l -> StronglySorted R (firstn n l).
Proof.
  intros H. revert n. induction H as [|x xs Hs IH Hx]; intros [|n]; cbn [firstn];
    try constructor.
  - apply IH.
  - rewrite Forall_forall in *. intros y Hy. apply Hx.
    rewrite <- (firstn_skipn n xs). apply in_or_app. now left.
Qed.

Lemma StronglySorted_skipn {A : Type} (R : A -> A -> Prop) (n : nat) (l : list A) :
  StronglySorted R l -> StronglySorted R (skipn n l).
Proof.
  intros H. revert n. induction H as [|x xs Hs IH Hx]; intros [|n]; cbn [skipn];
    try constructor; auto.
Qed.

(** In a sorted list every entry of a prefix stands before every entry of
    the rest. *)
Lemma StronglySorted_split {A : Type} (R : A -> A -> Prop) (n : nat) (l : list A) :
  StronglySorted R l ->
  forall a b, In a (firstn n l) -> In b (skipn n l) -> R a b.
Proof.
  intros H. revert n. induction H as [|x xs Hs IH Hx]; intros [|n] a b Ha Hb;
    cbn [firstn skipn] in *; try contradiction.
  destruct Ha as [<-|Ha].
  - rewrite Forall_forall in Hx. apply Hx.
    rewrite <- (firstn_skipn n xs). apply in_or_app. now right.
  - now apply (IH n).
Qed.

Lemma StronglySorted_head {A : Type} (R : A -> A -> Prop) (x : A) (l : list A) :
  (forall a, R a a) -> StronglySorted R (x :: l) -> forall y, In y (x :: l) -> R x y.
Proof.
  intros Hrefl H y [<-|Hy]; [apply Hrefl|].
  inversion H as [|? ? _ Hx]; subst. rewrite Forall_forall in Hx. now apply Hx.
Qed.
End RankingFacts.


Section Ranking.
Import Storage.

Let stats (db : Database) := map (memberStat (attendance db)) (members db).
Let ranked (db : Database) := JS.sort by_percentage_desc (stats db).

Lemma ranked_in (db : Database) (s : MemberStat) : In s (ranked db) <-> In s (stats db).
Proof.
  split; intros H.
  - apply (Permutation_in _ (sort_perm _) H).
  - apply (Permutation_in _ (Permutation_sym (sort_perm _)) H).
Qed.

Lemma ranked_length (db : Database) : List.length (ranked db) = List.length (members db).
Proof. unfold ranked, stats. now rewrite sort_length, length_map. Qed.

Lemma topPerformers_head (db : Database) (best : MemberStat) :
  hd_error (topPerformers (getReportStats db)) = Some best ->
  forall s, In s (stats db) -> percentage s <= percentage best.
Proof.
  unfold getReportStats; cbv zeta; cbn [topPerformers]. fold (stats db). fold (ranked db).
  intros Hhd s Hs. apply ranked_in in Hs.
  pose proof (sort_sorted (stats db)) as Hsorted. fold (ranked db) in Hsorted.
  destruct (ranked db) as [|x xs]; [discriminate|].
  cbn in Hhd. injection Hhd as <-.
  apply (StronglySorted_head Spec.ranks_before x xs); auto.
  intros a. unfold Spec.ranks_before. lia.
Qed.

Lemma lowPerformers_head (db : Database) (worst : MemberStat) :
  hd_error (lowPerformers (getReportStats db)) = Some worst ->
  forall s, In s (stats db) -> percentage worst <= percentage s.
Proof.
  unfold getReportStats; cbv zeta; cbn [lowPerformers]. fold (stats db). fold (ranked db).
  unfold JS.reverse, JS.slice_last.
  intros Hhd s Hs. apply ranked_in in Hs.
  pose proof (StronglySorted_rev _ _ (sort_sorted (stats db))) as Hsorted.
  fold (ranked db) in Hsorted.
  set (k := (List.length (ranked db) - 3)%nat) in *.
  rewrite <- (firstn_skipn k (ranked db)), rev_app_distr in Hsorted.
  destruct (rev (skipn k (ranked db))) as [|w ws] eqn:E; [discriminate|].
  cbn in Hhd. injection Hhd as <-.
  cbn [app] in Hsorted.
  apply (StronglySorted_head _ w _ (fun a => Z.le_refl _) Hsorted).
  apply in_rev in Hs. rewrite <- (firstn_skipn k (ranked db)), rev_app_distr, E in Hs.
  exact Hs.
Qed.

Lemma performers_nonempty (db : Database) :
  members db <> [] ->
  exists best worst,
    hd_error (topPerformers (getReportStats db)) = Some best
    /\ hd_error (lowPerformers (getReportStats db)) = Some worst.
Proof.
  intros Hne.
  unfold getReportStats; cbv zeta; cbn [topPerformers lowPerformers].
  fold (stats db). fold (ranked db). unfold JS.reverse, JS.slice_last, JS.slice_first.
  pose proof (ranked_length db) as Hlen.
  assert (Hpos : (0 < List.length (ranked db))%nat).
  { rewrite Hlen. destruct (members db); [congruence|cbn; lia]. }
  destruct (ranked db) as [|x xs] eqn:E; [cbn in Hpos; lia|].
  exists x.
  set (k := (List.length (x :: xs) - 3)%nat).
  assert (Hk : (List.length (skipn k (x :: xs)) > 0)%nat).
  { rewrite length_skipn. unfold k.
    clear - Hpos. revert Hpos. generalize (List.length (x :: xs)). intros n Hn. lia. }
  destruct (rev (skipn k (x :: xs))) as [|w ws] eqn:Er.
  - apply (f_equal (@List.length _)) in Er. rewrite length_rev in Er.
    change (List.length (@nil MemberStat)) with 0%nat in Er. lia.
  - exists w. split; reflexivity.
Qed.

(** X1. The ranking that [getReportStats] returns: [topPerformers] runs
    from the best percentage downwards and opens with the highest
    percentage of all members; [lowPerformers] runs from the worst upwards
    and opens with the lowest.  Both hold members' statistics only.  With
    six or more members no low performer is above a top performer; with
    fewer the two lists overlap and that can fail. *)
Theorem getReportStats_best_and_worst (db : Database) :
  let top := topPerformers (getReportStats db) in
  let low := lowPerformers (getReportStats db) in
  StronglySorted Spec.ranks_before top
  /\ StronglySorted (fun a b => Spec.ranks_before b a) low
  /\ (forall s, In s top \/ In s low -> In s (map (memberStat (attendance db)) (members db)))
  /\ (forall best s, hd_error top = Some best ->
        In s (map (memberStat (attendance db)) (members db)) ->
        percentage s <= percentage best)
  /\ (forall worst s, hd_error low = Some worst ->
        In s (map (memberStat (attendance db)) (members db)) ->
        percentage worst <= percentage s)
  /\ ((6 <= List.length (members db))%nat ->
      forall t l, In t top -> In l low -> percentage l <= percentage t).
Proof.
  intros top low.
  pose proof (sort_sorted (stats db)) as Hsorted. fold (ranked db) in Hsorted.
  assert (Htop : top = firstn 3 (ranked db)) by reflexivity.
  assert (Hlow : low = rev (skipn (List.length (ranked db) - 3) (ranked db))) by reflexivity.
  split; [rewrite Htop; now apply StronglySorted_firstn|].
  split; [rewrite Hlow; now apply StronglySorted_rev, StronglySorted_skipn|].
  split.
  { intros s [Hs|Hs]; apply ranked_in.
    - rewrite Htop in Hs. rewrite <- (firstn_skipn 3 (ranked db)). apply in_or_app. now left.
    - rewrite Hlow in Hs. apply in_rev in Hs.
      rewrite <- (firstn_skipn (List.length (ranked db) - 3) (ranked db)).
      apply in_or_app. now right. }
  split; [intros best s Hb Hs; now apply (topPerformers_head db best)|].
  split; [intros worst s Hw Hs; now apply (lowPerformers_head db worst)|].
  intros Hn t l Ht Hl.
  rewrite Htop in Ht. rewrite Hlow in Hl. apply in_rev in Hl.
  pose proof (ranked_length db) as Hlen.
  replace (List.length (ranked db) - 3)%nat
    with ((List.length (ranked db) - 6) + 3)%nat in Hl by lia.
  rewrite <- skipn_skipn in Hl.
  apply (StronglySorted_split Spec.ranks_before 3 (ranked db) Hsorted t l Ht).
  rewrite <- (firstn_skipn (List.length (ranked db) - 6) (skipn 3 (ranked db))).
  apply in_or_app. now right.
Qed.

(** With four members the lists overlap and a low performer can be above
    a top performer. *)
Lemma getReportStats_overlap_inverts :
  let db := {| members := firstn 4 (members Sample.five); stories := []; roles := [];
               attendance := attendance Sample.five; polls := []; pollResponses := [] |} in
  map percentage (topPerformers (getReportStats db)) = [90; 80; 70]
  /\ map percentage (lowPerformers (getReportStats db)) = [60; 70; 80].
Proof. split; vm_compute; reflexivity. Qed.
End Ranking.

Lemma getReportStats_best_and_worst_witness :
  (6 <= List.length (members Scenario.six))%nat
  /\ forall t l,
       In t (Storage.topPerformers (Storage.getReportStats Scenario.six)) ->
       In l (Storage.lowPerformers (Storage.getReportStats Scenario.six)) ->
       Storage.percentage l <= Storage.percentage t.
Proof.
  split; [simpl; lia|].
  destruct (getReportStats_best_and_worst Scenario.six) as (_ & _ & _ & _ & _ & H).
  apply H. simpl; lia.
Defined.


Section AverageFacts.
Import Storage Binary64.

(** A mean rounded to the nearest integer stays between any two integer
    bounds of the values. *)
Lemma mean_rounded_between (xs : list Z) (a b : Z) :
  xs <> [] ->
  (forall x, In x xs -> a <= x <= b) ->
  a <= Spec.mean_rounded xs <= b.
Proof.
  intros Hne Hb.
  assert (Ht : a * Z.of_nat (List.length xs) <= Spec.total xs <= b * Z.of_nat (List.length xs)).
  { clear Hne. unfold Spec.total.
    induction xs as [|x xs IH]; cbn [fold_right List.length]; [lia|].
    pose proof (Hb x (or_introl eq_refl)).
    assert (H' : forall y, In y xs -> a <= y <= b) by (intros y Hy; apply Hb; now right).
    specialize (IH H'). lia. }
  destruct xs as [|x xs']; [congruence|].
  set (xs := x :: xs') in *.
  change (Spec.mean_rounded xs) with (Spec.round_div (Spec.total xs) (Z.of_nat (List.length xs))).
  assert (Hn : 0 < Z.of_nat (List.length xs)) by (unfold xs; cbn [List.length]; lia).
  unfold Spec.round_div. split.
  - apply Z.div_le_lower_bound; lia.
  - apply Z.lt_succ_r. apply Z.div_lt_upper_bound; lia.
Qed.

(** The source's average is the rounded mean of the percentages. *)
Lemma averageAttendance_mean (db : Database) :
  Z.of_nat (List.length (members db)) < 2 ^ 32 ->
  Z.of_nat (List.length (attendance db)) < 2 ^ 32 ->
  averageAttendance (getReportStats db)
  = Spec.mean_rounded (map percentage (map (memberStat (attendance db)) (members db))).
Proof.
  intros Hm Ha.
  unfold getReportStats; cbv zeta; cbn [averageAttendance].
  set (stats := map (memberStat (attendance db)) (members db)).
  rewrite sort_length, sum_percentage_total.
  rewrite (total_perm _ _ (Permutation_map percentage (sort_perm stats))).
  rewrite <- (length_map percentage stats).
  assert (Hrange : forall y, In y (map percentage stats) -> 0 <= y <= 100).
  { intros y Hy. apply in_map_iff in Hy. destruct Hy as (st & <- & Hst).
    apply in_map_iff in Hst. destruct Hst as (m & <- & _).
    apply memberStat_percentage_range.
    change (2 ^ 32) with 4294967296 in Ha. change (2 ^ 53) with 9007199254740992. lia. }
  assert (Hn : Z.of_nat (List.length (map percentage stats)) < 2 ^ 32).
  { unfold stats. now rewrite !length_map. }
  generalize dependent (map percentage stats). intros xs Hrange Hn.
  destruct xs as [|x xs']; [reflexivity|].
  set (xs := x :: xs') in *.
  assert (Hpos : 0 < Z.of_nat (List.length xs)) by (unfold xs; cbn [List.length]; lia).
  destruct (Z.ltb_spec 0 (Z.of_nat (List.length xs))) as [_|]; [|lia].
  change (Spec.mean_rounded xs)
    with (Spec.round_div (Spec.total xs) (Z.of_nat (List.length xs))).
  apply round_div_exact; [now apply total_bounds|lia].
Qed.

(** X2. The average lies between the worst and the best member: it is at
    least the percentage that opens [lowPerformers] and at most the one
    that opens [topPerformers], and so within 0 and 100. *)
Theorem getReportStats_average_between (db : Database) :
  Z.of_nat (List.length (members db)) < 2 ^ 32 ->
  Z.of_nat (List.length (attendance db)) < 2 ^ 32 ->
  0 <= averageAttendance (getReportStats db) <= 100
  /\ (members db <> [] ->
      exists best worst,
        hd_error (topPerformers (getReportStats db)) = Some best
        /\ hd_error (lowPerformers (getReportStats db)) = Some worst
        /\ percentage worst <= averageAttendance (getReportStats db) <= percentage best).
Proof.
  intros Hm Ha. rewrite (averageAttendance_mean db Hm Ha).
  set (stats := map (memberStat (attendance db)) (members db)).
  assert (Hrange : forall y, In y (map percentage stats) -> 0 <= y <= 100).
  { intros y Hy. apply in_map_iff in Hy. destruct Hy as (st & <- & Hst).
    apply in_map_iff in Hst. destruct Hst as (m & <- & _).
    apply memberStat_percentage_range.
    change (2 ^ 32) with 4294967296 in Ha. change (2 ^ 53) with 9007199254740992. lia. }
  split.
  - destruct (map percentage stats) as [|x xs] eqn:E; [cbn; lia|].
    rewrite <- E in *. apply mean_rounded_between; [rewrite E; discriminate|exact Hrange].
  - intros Hne.
    destruct (performers_nonempty db Hne) as (best & worst & Hb & Hw).
    exists best, worst. split; [exact Hb|]. split; [exact Hw|].
    apply mean_rounded_between.
    + unfold stats. destruct (members db); [congruence|discriminate].
    + intros y Hy. apply in_map_iff in Hy. destruct Hy as (st & <- & Hst). split.
      * now apply (lowPerformers_head db worst Hw).
      * now apply (topPerformers_head db best Hb).
Qed.

(** A count divided by itself is exactly 1, and 1 * 100 exactly 100. *)
Lemma round_percent_full (N : Z) : 0 < N < 2 ^ 53 -> JS.round_percent N N = 100.
Proof.
  intros HN. unfold JS.round_percent.
  destruct (of_Z_spec N HN) as (M1 & E1 & Hn1 & HE1 & HM1).
  destruct (div_spec _ _ _ _ _ _ Hn1 Hn1 ltac:(lia)) as (M & E & c & [Hx HMb] & Hc & HE & HF).
  destruct Hn1 as [_ HM1b].
  replace (E1 - E1 - 53 + c) with (c - 53) in * by lia.
  assert (Hone : M = (2 ^ 52)%positive /\ E = -52).
  { unfold faithful in HF.
    assert (HF' : (Zpos M * 2 ^ (E - (c - 53)) - 1) * 2 ^ c < 2 ^ 53
                  < (Zpos M * 2 ^ (E - (c - 53)) + 1) * 2 ^ c) by nia.
    clear HF.
    assert (HC : c = 0 /\ 2 ^ c = 1 \/ c = 1 /\ 2 ^ c = 2).
    { assert (c = 0 \/ c = 1) as [-> | ->] by lia; [left|right]; split; reflexivity. }
    assert (HW : E = c - 53 /\ 2 ^ (E - (c - 53)) = 1
                 \/ E = c - 53 + 1 /\ 2 ^ (E - (c - 53)) = 2).
    { assert (E = c - 53 \/ E = c - 53 + 1) as [-> | ->] by lia; [left|right];
        (split; [reflexivity|]).
      - now rewrite Z.sub_diag.
      - replace (c - 53 + 1 - (c - 53)) with 1 by lia. reflexivity. }
    change (2 ^ 52) with 4503599627370496 in HMb.
    change (2 ^ 53) with 9007199254740992 in HMb, HF'.
    assert (Zpos M = 4503599627370496 /\ E = -52) as [HM' HE'].
    { destruct HC as [[-> HC] | [-> HC]], HW as [[-> HW] | [-> HW]];
        rewrite HC, HW in HF'; lia. }
    split; [apply Pos2Z.inj; rewrite HM'; reflexivity|exact HE']. }
  destruct Hone as [-> ->]. rewrite Hx. vm_compute. reflexivity.
Qed.

Lemma round_percent_none (N : Z) : 0 < N < 2 ^ 53 -> JS.round_percent 0 N = 0.
Proof.
  intros HN. unfold JS.round_percent.
  destruct (round_percent_finite 0 N ltac:(lia) HN) as [[_ ->]|(M & E & _ & _ & _)].
  - reflexivity.
  - destruct (of_Z_spec N HN) as (M2 & E2 & [Hn2 _] & _).
    rewrite of_Z_0, Hn2. reflexivity.
Qed.

(** X3. The two ends of the percentage scale are exact: a member with no
    attendance record, or with records none of which is present or
    replaced, has percentage 0, and a member all of whose records are
    present or replaced has percentage 100. *)
Theorem memberStat_none_and_full (allAttendance : list Attendance.t) (member : Member.t) :
  Z.of_nat (List.length allAttendance) < 2 ^ 53 ->
  let memberAttendance :=
    filter (fun a => String.eqb (Attendance.memberId a) (Member.id member)) allAttendance in
  ((forall a, In a memberAttendance -> present_or_replaced a = false) ->
   percentage (memberStat allAttendance member) = 0)
  /\ (memberAttendance <> [] ->
      (forall a, In a memberAttendance -> present_or_replaced a = true) ->
      percentage (memberStat allAttendance member) = 100).
Proof.
  intros Hlen memberAttendance.
  assert (HN : Z.of_nat (List.length memberAttendance) < 2 ^ 53).
  { pose proof (filter_length_le
                  (fun a => String.eqb (Attendance.memberId a) (Member.id member)) allAttendance).
    fold memberAttendance in H. lia. }
  unfold memberStat; cbv zeta; cbn [percentage]. fold memberAttendance.
  split.
  - intros Hnone.
    assert (Hf : filter present_or_replaced memberAttendance = []).
    { clear HN. induction memberAttendance as [|a l IH]; [reflexivity|].
      cbn [filter]. rewrite (Hnone a (or_introl eq_refl)).
      apply IH. intros b Hb. apply Hnone. now right. }
    rewrite Hf. cbn [List.length].
    destruct (Z.ltb_spec 0 (Z.of_nat (List.length memberAttendance))); [|reflexivity].
    apply round_percent_none. lia.
  - intros Hne Hall.
    assert (Hf : filter present_or_replaced memberAttendance = memberAttendance).
    { clear HN Hne. induction memberAttendance as [|a l IH]; [reflexivity|].
      cbn [filter]. rewrite (Hall a (or_introl eq_refl)). f_equal.
      apply IH. intros b Hb. apply Hall. now right. }
    rewrite Hf.
    assert (Hpos : 0 < Z.of_nat (List.length memberAttendance)).
    { destruct memberAttendance; [congruence|cbn [List.length]; lia]. }
    destruct (Z.ltb_spec 0 (Z.of_nat (List.length memberAttendance))); [|lia].
    apply round_percent_full. lia.
Qed.
End AverageFacts.

Lemma getReportStats_average_between_witness :
  0 <= Storage.averageAttendance (Storage.getReportStats Sample.five) <= 100
  /\ exists best worst,
       hd_error (Storage.topPerformers (Storage.getReportStats Sample.five)) = Some best
       /\ hd_error (Storage.lowPerformers (Storage.getReportStats Sample.five)) = Some worst
       /\ Storage.percentage worst
          <= Storage.averageAttendance (Storage.getReportStats Sample.five)
          <= Storage.percentage best.
Proof.
  destruct (getReportStats_average_between Sample.five
              ltac:(vm_compute; reflexivity) ltac:(vm_compute; reflexivity)) as [Hr He].
  split; [exact Hr|]. apply He. discriminate.
Defined.

Lemma memberStat_none_and_full_witness :
  Storage.percentage
    (Storage.memberStat (Sample.history "a" 3 3) (Sample.member "b" "Bhavin")) = 0
  /\ Storage.percentage
       (Storage.memberStat (Sample.history "a" 3 3) (Sample.member "a" "Asha")) = 100.
Proof.
  split.
  - destruct (memberStat_none_and_full (Sample.history "a" 3 3) (Sample.member "b" "Bhavin")
                ltac:(vm_compute; reflexivity)) as [H _].
    apply H. simpl. intros a [].
  - destruct (memberStat_none_and_full (Sample.history "a" 3 3) (Sample.member "a" "Asha")
                ltac:(vm_compute; reflexivity)) as [_ H].
    apply H; simpl; [discriminate|].
    intros a [<-|[<-|[<-|[]]]]; reflexivity.
Defined.


(** ** The dashboard statistics and the soft deletes *)

Lemma filter_perm {A : Type} (f : A -> bool) (l l' : list A) :
  Permutation l l' -> Permutation (filter f l) (filter f l').
Proof.
  induction 1 as [|x l l' _ IH|x y l|l1 l2 l3 _ IH1 _ IH2]; cbn [filter].
  - constructor.
  - destruct (f x); [now constructor|exact IH].
  - destruct (f x), (f y); try reflexivity. apply perm_swap.
  - now transitivity (filter f l2).
Qed.

Lemma filter_all {A : Type} (f : A -> bool) (l : list A) :
  (forall a, In a l -> f a = true) -> filter f l = l.
Proof.
  induction l as [|a l IH]; intros H; [reflexivity|].
  cbn [filter]. rewrite (H a (or_introl eq_refl)). f_equal.
  apply IH. intros b Hb. apply H. now right.
Qed.

Lemma filter_none {A : Type} (f : A -> bool) (l : list A) :
  (forall a, In a l -> f a = false) -> filter f l = [].
Proof.
  induction l as [|a l IH]; intros H; [reflexivity|].
  cbn [filter]. rewrite (H a (or_introl eq_refl)).
  apply IH. intros b Hb. apply H. now right.
Qed.

(** The idiom [n > 0 ? Math.round((count / n) * 100) : 0] over the
    entries of an array that satisfy a test. *)
Lemma percent_of_array {A : Type} (p : A -> bool) (l : list A) :
  Z.of_nat (List.length l) < 2 ^ 53 ->
  let v := if 0 <? Z.of_nat (List.length l)
           then JS.round_percent (Z.of_nat (List.length (filter p l))) (Z.of_nat (List.length l))
           else 0 in
  0 <= v <= 100
  /\ ((forall a, In a l -> p a = false) -> v = 0)
  /\ (l <> [] -> (forall a, In a l -> p a = true) -> v = 100).
Proof.
  intros Hlen v. unfold v.
  destruct (Z.ltb_spec 0 (Z.of_nat (List.length l))) as [Hpos|Hz].
  - split; [|split].
    + apply round_percent_range; [|lia].
      pose proof (filter_length_le p l). lia.
    + intros Hnone. rewrite (filter_none p l Hnone). apply round_percent_none. lia.
    + intros _ Hall. rewrite (filter_all p l Hall). apply round_percent_full. lia.
  - split; [lia|]. split; [reflexivity|].
    intros Hne. destruct l; [congruence|cbn [List.length] in Hz; lia].
Qed.

Section StoryFacts.
Import DatabaseStorage.
Variable orderBy : forall A : Type, (A -> string) -> bool -> list A -> list A.
Hypothesis orderBy_perm :
  forall (A : Type) (column : A -> string) (desc : bool) (rows : list A),
    Permutation (orderBy A column desc rows) rows.

(** Reading a row by key after a keyed update of every matching row. *)
Lemma hd_filter_map {A : Type} (p : A -> bool) (f : A -> A) (l : list A) :
  (forall a, p (f a) = p a) ->
  hd_error (filter p (map f l)) = option_map f (hd_error (filter p l)).
Proof.
  intros Hp. induction l as [|a l IH]; [reflexivity|].
  cbn [map filter]. rewrite Hp. destruct (p a); [reflexivity|exact IH].
Qed.

(** X4. Deleting a story is a soft delete: the story leaves the list of
    stories that [getStories] serves, every other story stays listed, and
    [getStory] still finds the row under its key, now with
    [isActive = false]; rows with another key read as before, and deleting
    again changes nothing. *)
Theorem deleteStory_then_read (db : Database) (id : string) :
  let db' := Storage.deleteStory db id in
  Permutation (Storage.getStories orderBy db')
              (filter (fun s => negb (String.eqb (Story.id s) id)) (Storage.getStories orderBy db))
  /\ (forall s, getStory db id = Some s ->
        getStory db' id
        = Some (Story.mk (Story.id s) (Story.name s) (Some false) (Story.eventType s)))
  /\ (getStory db id = None -> getStory db' id = None)
  /\ (forall other, other <> id -> getStory db' other = getStory db other)
  /\ Storage.deleteStory db' id = db'.
Proof.
  intros db'.
  set (f := fun s => if String.eqb (Story.id s) id
                     then Story.mk (Story.id s) (Story.name s) (Some false) (Story.eventType s)
                     else s).
  assert (Hid : forall s, Story.id (f s) = Story.id s).
  { intros s. unfold f. destruct (String.eqb (Story.id s) id); reflexivity. }
  assert (Hstories : stories db' = map f (stories db)) by reflexivity.
  split; [|split; [|split; [|split]]].
  - unfold Storage.getStories.
    rewrite (orderBy_perm _ Story.name false (filter Storage.story_is_active (stories db'))).
    rewrite (filter_perm (fun s => negb (String.eqb (Story.id s) id)) _ _
               (orderBy_perm _ Story.name false
                  (filter Storage.story_is_active (stories db)))).
    rewrite Hstories. clear Hstories.
    induction (stories db) as [|s l IH]; [constructor|].
    cbn [map filter].
    destruct (String.eqb (Story.id s) id) eqn:E.
    + assert (f s = Story.mk (Story.id s) (Story.name s) (Some false) (Story.eventType s)) as ->
        by (unfold f; now rewrite E).
      cbn [Storage.story_is_active Story.isActive].
      destruct (Storage.story_is_active s); [cbn [filter]; rewrite E; cbn [negb]|]; exact IH.
    + assert (f s = s) as -> by (unfold f; now rewrite E).
      destruct (Storage.story_is_active s); [|exact IH].
      cbn [filter]. rewrite E. cbn [negb]. now apply perm_skip.
  - intros s Hs. unfold getStory in *. rewrite Hstories, hd_filter_map, Hs.
    + cbn [option_map]. unfold f.
      assert (String.eqb (Story.id s) id = true) as ->; [|reflexivity].
      destruct (filter _ (stories db)) as [|x xs] eqn:E; [discriminate|].
      injection Hs as ->.
      assert (Hin : In s (filter (fun s0 => String.eqb (Story.id s0) id) (stories db)))
        by (rewrite E; now left).
      apply filter_In in Hin. tauto.
    + intros a. now rewrite Hid.
  - intros Hn. unfold getStory in *. rewrite Hstories, hd_filter_map, Hn; [reflexivity|].
    intros a. now rewrite Hid.
  - intros other Hne. unfold getStory. rewrite Hstories. clear Hstories.
    induction (stories db) as [|s l IH]; [reflexivity|].
    cbn [map filter]. rewrite Hid.
    destruct (String.eqb (Story.id s) other) eqn:E; [|exact IH].
    cbn [hd_error]. f_equal. unfold f.
    apply String.eqb_eq in E.
    destruct (String.eqb_spec (Story.id s) id) as [e|_]; [|reflexivity].
    exfalso. apply Hne. rewrite <- E. exact e.
  - unfold db' at 1, Storage.deleteStory at 1. unfold db', Storage.deleteStory. f_equal.
    cbn [stories]. rewrite map_map. apply map_ext. intros s.
    destruct (String.eqb (Story.id s) id) eqn:E; cbn [Story.id]; rewrite E; reflexivity.
Qed.

(** X5. [getStoriesWithCharacters] lists the active stories, each with
    the characters whose [storyId] is its key; a character is listed
    somewhere exactly when its story is active, so the characters of a
    soft-deleted story are not served. *)
Theorem getStoriesWithCharacters_lists (t : Tables) :
  let listed := getStoriesWithCharacters orderBy t in
  Permutation (map story listed) (filter Storage.story_is_active (stories (core t)))
  /\ (forall e c, In e listed ->
        (In c (story_characters e) <->
         In c (characters t) /\ Character.storyId c = Story.id (story e)))
  /\ (forall c, In c (characters t) ->
        ((exists e, In e listed /\ In c (story_characters e)) <->
         (exists s, In s (stories (core t)) /\ Storage.story_is_active s = true
                    /\ Story.id s = Character.storyId c))).
Proof.
  intros listed. unfold listed, getStoriesWithCharacters.
  set (active := filter Storage.story_is_active (stories (core t))).
  pose proof (orderBy_perm _ Story.name false active) as Hp.
  set (ordered := orderBy _ Story.name false active) in *.
  assert (Hchars : forall s c,
             In c (filter (fun c => String.eqb (Character.storyId c) (Story.id s)) (characters t))
             <-> In c (characters t) /\ Character.storyId c = Story.id s).
  { intros s c. rewrite filter_In. now rewrite String.eqb_eq. }
  split; [|split].
  - rewrite map_map. cbn [story]. now rewrite map_id.
  - intros e c He. apply in_map_iff in He. destruct He as (s & <- & _).
    cbn [story story_characters]. apply Hchars.
  - intros c Hc. split.
    + intros (e & He & Hin). apply in_map_iff in He. destruct He as (s & <- & Hs).
      cbn [story_characters] in Hin. apply Hchars in Hin.
      apply (Permutation_in _ Hp) in Hs. apply filter_In in Hs.
      exists s. intuition congruence.
    + intros (s & Hs & Hact & Hid).
      exists {| story := s;
                story_characters :=
                  filter (fun c => String.eqb (Character.storyId c) (Story.id s))
                         (characters t) |}.
      split.
      * apply in_map_iff. exists s. split; [reflexivity|].
        apply (Permutation_in _ (Permutation_sym Hp)). apply filter_In. now split.
      * cbn [story_characters]. apply Hchars. now split.
Qed.

(** X6. The route that serves poll results to an admin pairs every poll
    with the responses stored for it and no others, each response with the
    member who gave it when that member still exists; a tally of the
    responses it serves therefore counts every stored vote for the poll. *)
Theorem pollsResults_serves_stored_responses (db : Database) (userId : string) :
  Routes.not_admin (Storage.getMemberByUserId db userId) = false ->
  exists results,
    Api.pollsResults orderBy db userId = Api.json results
    /\ Permutation (map fst results) (polls db)
    /\ forall poll served, In (poll, served) results ->
         let stored := filter (fun r => String.eqb (PollResponse.pollId r) (Poll.id poll))
                              (pollResponses db) in
         Permutation (map response served) stored
         /\ (forall v, In v served ->
               member v = Storage.find_by_id Member.id
                            (Some (PollResponse.memberId (response v))) (members db))
         /\ (forall idx, Routes.option_count (map response served) idx
                         = Routes.option_count stored idx).
Proof.
  intros Hadm. unfold Api.pollsResults. rewrite Hadm.
  eexists. split; [reflexivity|]. split.
  - rewrite map_map. cbn [fst]. rewrite map_id. apply orderBy_perm.
  - intros poll served Hin.
    set (stored := filter (fun r => String.eqb (PollResponse.pollId r) (Poll.id poll))
                          (pollResponses db)).
    apply in_map_iff in Hin. destruct Hin as (p & Heq & _).
    injection Heq as -> <-.
    unfold getPollResponsesByPollId. fold stored.
    assert (Hperm : Permutation
              (map response
                 (map (fun r => {| response := r;
                                   member := Storage.find_by_id Member.id
                                               (Some (PollResponse.memberId r)) (members db) |})
                      (orderBy _ PollResponse.createdAt true stored)))
              stored).
    { rewrite map_map. cbn [response]. rewrite map_id. apply orderBy_perm. }
    split; [exact Hperm|]. split.
    + intros v Hv. apply in_map_iff in Hv. destruct Hv as (r & <- & _). reflexivity.
    + intros idx. unfold Routes.option_count. f_equal.
      apply Permutation_length, filter_perm, Hperm.
Qed.
End StoryFacts.

Lemma deleteStory_then_read_witness :
  DatabaseStorage.getStory (Storage.deleteStory Sample.stories_db "s1") "s1"
  = Some Sample.retired
  /\ DatabaseStorage.getStory (Storage.deleteStory Sample.stories_db "s1") "s2"
     = Some Sample.running.
Proof.
  destruct (deleteStory_then_read Sample.keep_order (fun A c d rows => Permutation_refl rows)
              Sample.stories_db "s1") as (_ & H1 & _ & H2 & _).
  split.
  - exact (H1 Sample.dalo eq_refl).
  - apply (H2 "s2"). discriminate.
Defined.

Lemma getStoriesWithCharacters_lists_witness :
  Permutation
    (map DatabaseStorage.story
       (DatabaseStorage.getStoriesWithCharacters Sample.keep_order
          (Scenario.tables Sample.retired_db)))
    (filter Storage.story_is_active (stories Sample.retired_db)).
Proof.
  destruct (getStoriesWithCharacters_lists Sample.keep_order
              (fun A c d rows => Permutation_refl rows)
              (Scenario.tables Sample.retired_db)) as [H _].
  exact H.
Defined.

Lemma pollsResults_serves_stored_responses_witness :
  exists results,
    Api.pollsResults Sample.keep_order Sample.ab_db "sample-admin-user" = Api.json results
    /\ Permutation (map fst results) (polls Sample.ab_db).
Proof.
  destruct (pollsResults_serves_stored_responses Sample.keep_order
              (fun A c d rows => Permutation_refl rows)
              Sample.ab_db "sample-admin-user" eq_refl) as (results & H1 & H2 & _).
  exists results. split; [exact H1 | exact H2].
Defined.

Section StatsFacts.
Import DatabaseStorage.
Variable orderBy : forall A : Type, (A -> string) -> bool -> list A -> list A.
Variable gte : string -> string -> bool.
Hypothesis orderBy_perm :
  forall (A : Type) (column : A -> string) (desc : bool) (rows : list A),
    Permutation (orderBy A column desc rows) rows.

(** X7. The dashboard's weekly percentage is computed from the records
    dated within the window only: it lies in 0..100, is 0 when the window
    holds no record or none that is present or replaced, is 100 when every
    record in the window is present or replaced, and two databases with
    the same records in the window give the same value. *)
Theorem getStats_recentAttendance (oneWeekAgo : string) (t : Tables) :
  Z.of_nat (List.length (attendance (core t))) < 2 ^ 53 ->
  let in_window := fun a => gte (Attendance.date a) oneWeekAgo in
  let recent := filter in_window (attendance (core t)) in
  let weekly := recentAttendance (getStats gte oneWeekAgo t) in
  0 <= weekly <= 100
  /\ ((forall a, In a recent -> Storage.present_or_replaced a = false) -> weekly = 0)
  /\ (recent <> [] -> (forall a, In a recent -> Storage.present_or_replaced a = true) ->
      weekly = 100)
  /\ (forall t', filter in_window (attendance (core t')) = recent ->
        recentAttendance (getStats gte oneWeekAgo t') = weekly).
Proof.
  intros Hlen in_window recent weekly.
  assert (Hr : Z.of_nat (List.length recent) < 2 ^ 53).
  { pose proof (filter_length_le in_window (attendance (core t))). fold recent in H. lia. }
  destruct (percent_of_array Storage.present_or_replaced recent Hr) as (H1 & H2 & H3).
  split; [exact H1|]. split; [exact H2|]. split; [exact H3|].
  intros t' Ht'. unfold weekly, getStats; cbv zeta; cbn [recentAttendance].
  fold in_window. now rewrite Ht'.
Qed.

Lemma active_count_delete (l : list Notification.t) (id : string) :
  NoDup (map Notification.id l) ->
  let l' := map (fun n => if String.eqb (Notification.id n) id
                          then Notification.mk (Notification.id n) (Notification.title n)
                                 (Notification.type n) (Some false) (Notification.createdAt n)
                          else n) l in
  ((exists n, In n l /\ Notification.id n = id /\ notification_is_active n = true) ->
   Z.of_nat (List.length (filter notification_is_active l'))
   = Z.of_nat (List.length (filter notification_is_active l)) - 1)
  /\ ((forall n, In n l -> Notification.id n = id -> notification_is_active n = false) ->
      filter notification_is_active l' = filter notification_is_active l).
Proof.
  intros Hnd l'. unfold l'. clear l'. split.
  - induction l as [|a l IH]; intros (n & Hin & Hid & Hact); [destruct Hin|].
    cbn [map] in Hnd. inversion Hnd as [|? ? Ha Hl]; subst.
    cbn [map filter].
    destruct (String.eqb_spec (Notification.id a) (Notification.id n)) as [Heq|Hne].
    + (* the head is the deleted row; no later row has its key *)
      assert (a = n).
      { destruct Hin as [|Hin]; [assumption|].
        exfalso. apply Ha. rewrite Heq. now apply in_map. }
      subst a. rewrite Hact.
      cbn [notification_is_active Notification.isActive List.length].
      assert (Hrest : map (fun n0 => if String.eqb (Notification.id n0) (Notification.id n)
                                     then Notification.mk (Notification.id n0)
                                            (Notification.title n0) (Notification.type n0)
                                            (Some false) (Notification.createdAt n0)
                                     else n0) l = l).
      { rewrite <- (map_id l) at 2. apply map_ext_in. intros b Hb.
        destruct (String.eqb_spec (Notification.id b) (Notification.id n)) as [E|]; [|reflexivity].
        exfalso. apply Ha. rewrite <- E. now apply in_map. }
      rewrite Hrest. lia.
    + destruct Hin as [->|Hin]; [congruence|].
      specialize (IH Hl (ex_intro _ n (conj Hin (conj eq_refl Hact)))).
      destruct (notification_is_active a); cbn [List.length]; lia.
  - intros Hnone. induction l as [|a l IH]; [reflexivity|].
    cbn [map] in Hnd. inversion Hnd as [|? ? Ha Hl]; subst.
    cbn [map filter].
    assert (IH' := IH Hl (fun n Hn => Hnone n (or_intror Hn))).
    destruct (String.eqb_spec (Notification.id a) id) as [Heq|Hne].
    + rewrite (Hnone a (or_introl eq_refl) Heq).
      cbn [notification_is_active Notification.isActive]. exact IH'.
    + destruct (notification_is_active a); [f_equal|]; exact IH'.
Qed.

(** X8. Deleting a notification is a soft delete too: afterwards no
    active notification has that key, and the dashboard's count of active
    notifications drops by exactly one if the notification was active and
    stays as it was otherwise; the other dashboard figures do not move. *)
Theorem deleteNotification_activeNotifications (oneWeekAgo : string) (t : Tables) (id : string) :
  NoDup (map Notification.id (notifications t)) ->
  let t' := deleteNotification t id in
  let before := getStats gte oneWeekAgo t in
  let after := getStats gte oneWeekAgo t' in
  (forall n, In n (getActiveNotifications orderBy t') -> Notification.id n <> id)
  /\ ((exists n, In n (notifications t) /\ Notification.id n = id
                 /\ notification_is_active n = true) ->
      activeNotifications after = activeNotifications before - 1)
  /\ ((forall n, In n (notifications t) -> Notification.id n = id ->
                 notification_is_active n = false) ->
      activeNotifications after = activeNotifications before)
  /\ totalMembers after = totalMembers before
  /\ totalShows after = totalShows before
  /\ recentAttendance after = recentAttendance before.
Proof.
  intros Hnd t' before after.
  destruct (active_count_delete (notifications t) id Hnd) as [Hdrop Hsame].
  split; [|split; [|split; [|repeat split]]].
  - intros n Hn. unfold getActiveNotifications in Hn.
    apply (Permutation_in _ (orderBy_perm _ _ _ _)) in Hn.
    apply filter_In in Hn. destruct Hn as [Hin Hact].
    cbn [deleteNotification notifications t'] in Hin.
    apply in_map_iff in Hin. destruct Hin as (m & Hm & _).
    destruct (String.eqb_spec (Notification.id m) id) as [E|E]; subst n.
    + discriminate.
    + exact E.
  - intros Hex. apply (Hdrop Hex).
  - intros Hnone. unfold after, before, getStats; cbv zeta; cbn [activeNotifications].
    f_equal. f_equal. apply (Hsame Hnone).
Qed.

End StatsFacts.

Lemma getStats_recentAttendance_witness :
  0 <= DatabaseStorage.recentAttendance
         (DatabaseStorage.getStats Scenario.dated_on_or_after "2024-01-05"
            (Scenario.tables Sample.five)) <= 100.
Proof.
  destruct (getStats_recentAttendance Scenario.dated_on_or_after "2024-01-05"
              (Scenario.tables Sample.five) ltac:(vm_compute; reflexivity)) as [H _].
  exact H.
Defined.

Lemma deleteNotification_activeNotifications_witness :
  DatabaseStorage.activeNotifications
    (DatabaseStorage.getStats Scenario.dated_on_or_after "2024-01-05"
       (DatabaseStorage.deleteNotification (Scenario.tables Sample.five) "n1"))
  = DatabaseStorage.activeNotifications
      (DatabaseStorage.getStats Scenario.dated_on_or_after "2024-01-05"
         (Scenario.tables Sample.five)) - 1.
Proof.
  destruct (deleteNotification_activeNotifications Sample.keep_order Scenario.dated_on_or_after
              (fun A c d rows => Permutation_refl rows) "2024-01-05"
              (Scenario.tables Sample.five) "n1") as (_ & H & _).
  - simpl. constructor; [simpl; intros [H|[]]; discriminate|].
    constructor; [intros []|constructor].
  - apply H. exists (Scenario.notice "n1" (Some true)).
    simpl. split; [left; reflexivity|]. split; reflexivity.
Defined.


(** ** The poll tally *)

Section TallyFacts.
Variable orderBy : forall A : Type, (A -> string) -> bool -> list A -> list A.
Variable toLocaleString : string -> string.
Variable now_toLocaleString : string.

(** The option indices [0 .. n-1] of a poll with [n] options. *)
Lemma chosen_once (sel : Z) (n : nat) :
  Spec.total (map (fun i => if sel =? Z.of_nat i then 1 else 0) (seq 0 n))
  = if (0 <=? sel) && (sel <? Z.of_nat n) then 1 else 0.
Proof.
  induction n as [|n IH].
  { change (Z.of_nat 0) with 0.
    destruct (Z.leb_spec 0 sel), (Z.ltb_spec sel 0); try reflexivity; lia. }
  rewrite seq_S, map_app. cbn [map Nat.add].
  assert (Happ : forall xs ys, Spec.total (xs ++ ys) = Spec.total xs + Spec.total ys).
  { unfold Spec.total. induction xs as [|x xs IHx]; intros ys; cbn [app fold_right]; [lia|].
    rewrite IHx. lia. }
  rewrite Happ, IH. cbn [Spec.total fold_right].
  destruct (Z.eqb_spec sel (Z.of_nat n)) as [->|Hne].
  - destruct (Z.leb_spec 0 (Z.of_nat n)), (Z.ltb_spec (Z.of_nat n) (Z.of_nat n)),
      (Z.ltb_spec (Z.of_nat n) (Z.of_nat (S n))); cbn; lia.
  - destruct (Z.leb_spec 0 sel), (Z.ltb_spec sel (Z.of_nat n)),
      (Z.ltb_spec sel (Z.of_nat (S n))); cbn; lia.
Qed.

(** X9. The tally of the image branch accounts for each response once:
    over the option indices of the poll the counts add up to the number of
    responses whose [selectedOption] is one of those indices, never more
    than the number of responses.  Each option's percentage lies in
    0..100, is 0 for an option nobody chose and 100 for an option
    everybody chose. *)
Theorem option_counts_account_for_responses
    (responses : list PollResponse.t) (options : list string) :
  let n := List.length options in
  let valid := fun r => (0 <=? PollResponse.selectedOption r)
                        && (PollResponse.selectedOption r <? Z.of_nat n) in
  Spec.total (map (fun i => Routes.option_count responses (Z.of_nat i)) (seq 0 n))
  = Z.of_nat (List.length (filter valid responses))
  /\ Z.of_nat (List.length (filter valid responses)) <= Z.of_nat (List.length responses)
  /\ (Z.of_nat (List.length responses) < 2 ^ 53 ->
      forall idx,
        0 <= Routes.option_pct responses idx <= 100
        /\ ((forall r, In r responses -> PollResponse.selectedOption r <> idx) ->
            Routes.option_pct responses idx = 0)
        /\ (responses <> [] ->
            (forall r, In r responses -> PollResponse.selectedOption r = idx) ->
            Routes.option_pct responses idx = 100)).
Proof.
  intros n valid. split; [|split].
  - induction responses as [|r rs IH].
    + cbn [filter List.length]. unfold Routes.option_count. cbn [filter List.length].
      clear. induction (seq 0 n) as [|i l IHl]; [reflexivity|].
      cbn [map Spec.total fold_right] in *. unfold Spec.total in IHl. now rewrite IHl.
    + assert (Hsplit :
          Spec.total (map (fun i => Routes.option_count (r :: rs) (Z.of_nat i)) (seq 0 n))
          = Spec.total (map (fun i => if PollResponse.selectedOption r =? Z.of_nat i
                                      then 1 else 0) (seq 0 n))
            + Spec.total (map (fun i => Routes.option_count rs (Z.of_nat i)) (seq 0 n))).
      { clear. induction (seq 0 n) as [|i l IHl]; [reflexivity|].
        cbn [map]. unfold Spec.total in *. cbn [fold_right]. rewrite IHl.
        unfold Routes.option_count. cbn [filter].
        destruct (PollResponse.selectedOption r =? Z.of_nat i); cbn [List.length]; lia. }
      rewrite Hsplit, IH, chosen_once. cbn [filter]. fold n. unfold valid at 2.
      destruct ((0 <=? PollResponse.selectedOption r)
                && (PollResponse.selectedOption r <? Z.of_nat n)); cbn [List.length]; lia.
  - pose proof (filter_length_le valid responses). lia.
  - intros Hlen idx.
    destruct (percent_of_array (fun r => PollResponse.selectedOption r =? idx) responses Hlen)
      as (H1 & H2 & H3).
    unfold Routes.option_pct, Routes.option_count.
    split; [exact H1|]. split.
    + intros Hnone. apply H2. intros r Hr. apply Z.eqb_neq. now apply Hnone.
    + intros Hne Hall. apply H3; [exact Hne|]. intros r Hr. apply Z.eqb_eq. now apply Hall.
Qed.

(** X10. The spreadsheet and document branches of the poll export read
    the responses the way the image branch does, so they never list one:
    for an admin and an existing poll the sheet holds the question, a
    total of 0 and the empty separator row, and the document its three
    heading lines, whatever the table of responses holds. *)
Theorem pollsExport_lists_no_response
    (db : Database) (userId : string) (pollId : JS.value) (poll : Poll.t) :
  Routes.not_admin (Storage.getMemberByUserId db userId) = false ->
  find (fun p => JS.strict_eq (JS.str (Poll.id p)) pollId) (Storage.getPolls orderBy db)
  = Some poll ->
  Routes.pollsExport orderBy toLocaleString now_toLocaleString db userId pollId (JS.str "excel")
  = [ Routes.setHeader "Content-Type"
        "application/vnd.openxmlformats-officedocument.spreadsheetml.sheet";
      Routes.setHeader "Content-Disposition" "attachment; filename=poll-results.xlsx";
      Routes.send (Routes.Xlsx "Poll Results" (Routes.json_to_sheet
        [ [("Poll Question", Poll.question poll)]; [("Total Responses", "0")]; [] ])) ]
  /\ Routes.pollsExport orderBy toLocaleString now_toLocaleString db userId pollId (JS.str "pdf")
     = [ Routes.setHeader "Content-Type" "application/pdf";
         Routes.setHeader "Content-Disposition" "attachment; filename=poll-results.pdf";
         Routes.pipe (Routes.Pdf
           [ Routes.fontSize 16; Routes.text_at (Poll.question poll) 50 50;
             Routes.fontSize 10; Routes.text_at "Total Responses: 0" 50 100;
             Routes.text ("Generated: " ++ now_toLocaleString ++ JS.nl) ]) ].
Proof.
  intros Hadm Hfind. unfold Routes.pollsExport. rewrite Hadm, Hfind.
  split; reflexivity.
Qed.

Lemma bars_in_frame : forallb Rendered.bar_in_frame (map Z.of_nat (seq 0 101)) = true.
Proof. vm_compute. reflexivity. Qed.

(** X11. The bar drawn for an option never leaves its frame: its width,
    computed in binary64 as [(pct / 100) * 800], is between 0 and the 800
    pixels of the outline drawn around it. *)
Theorem poll_bar_within_frame
    (responses : list PollResponse.t) (option : string) (idx y : Z) :
  Z.of_nat (List.length responses) < 2 ^ 53 ->
  exists barWidth,
    nth_error (Routes.poll_image_option responses option idx y) 4
    = Some (Routes.fillRect 50 (y + 10) barWidth 15)
    /\ nth_error (Routes.poll_image_option responses option idx y) 6
       = Some (Routes.strokeRect 50 (y + 10) 800 15)
    /\ SFleb (JS.of_Z 0) barWidth = true
    /\ SFleb barWidth (JS.of_Z 800) = true.
Proof.
  intros Hlen. eexists. split; [reflexivity|]. split; [reflexivity|].
  destruct (percent_of_array (fun r => PollResponse.selectedOption r =? idx) responses Hlen)
    as ([Hlo Hhi] & _).
  fold (Routes.option_count responses idx) in Hlo, Hhi.
  fold (Routes.option_pct responses idx) in Hlo, Hhi.
  set (pct := Routes.option_pct responses idx) in *.
  pose proof bars_in_frame as H. rewrite forallb_forall in H.
  specialize (H pct).
  assert (Hin : In pct (map Z.of_nat (seq 0 101))).
  { apply in_map_iff. exists (Z.to_nat pct). split; [lia|]. apply in_seq. lia. }
  apply H in Hin. unfold Rendered.bar_in_frame in Hin. now apply andb_prop in Hin.
Qed.
End TallyFacts.

Lemma option_counts_account_for_responses_witness :
  Z.of_nat (List.length Sample.ab_votes) < 2 ^ 53
  /\ 0 <= Routes.option_pct Sample.ab_votes 0 <= 100.
Proof.
  split; [vm_compute; reflexivity|].
  destruct (option_counts_account_for_responses Sample.ab_votes ["A"; "B"]) as (_ & _ & H).
  destruct (H ltac:(vm_compute; reflexivity) 0) as [Hr _]. exact Hr.
Defined.

Lemma pollsExport_lists_no_response_witness :
  Routes.pollsExport Sample.keep_order Sample.same "now"
    Sample.ab_db "sample-admin-user" (JS.str "p1") (JS.str "excel")
  = [ Routes.setHeader "Content-Type"
        "application/vnd.openxmlformats-officedocument.spreadsheetml.sheet";
      Routes.setHeader "Content-Disposition" "attachment; filename=poll-results.xlsx";
      Routes.send (Routes.Xlsx "Poll Results" (Routes.json_to_sheet
        [ [("Poll Question", "A or B?")]; [("Total Responses", "0")]; [] ])) ].
Proof.
  destruct (pollsExport_lists_no_response Sample.keep_order Sample.same "now"
              Sample.ab_db "sample-admin-user" (JS.str "p1") Sample.ab_poll
              eq_refl eq_refl) as [H _].
  exact H.
Defined.

Lemma poll_bar_within_frame_witness :
  exists barWidth,
    nth_error (Routes.poll_image_option Sample.ab_votes "A" 0 220) 4
    = Some (Routes.fillRect 50 (220 + 10) barWidth 15)
    /\ nth_error (Routes.poll_image_option Sample.ab_votes "A" 0 220) 6
       = Some (Routes.strokeRect 50 (220 + 10) 800 15)
    /\ SFleb (JS.of_Z 0) barWidth = true
    /\ SFleb barWidth (JS.of_Z 800) = true.
Proof.
  apply (poll_bar_within_frame Sample.ab_votes "A" 0 220). vm_compute; reflexivity.
Defined.


(** ** The export filter as the reports page drives it *)

Section PageFacts.
Variable orderBy : forall A : Type, (A -> string) -> bool -> list A -> list A.
Variable Date_parse : string -> option Z.

Lemma strict_eq_str (s t : string) : JS.strict_eq (JS.str s) (JS.str t) = String.eqb s t.
Proof. reflexivity. Qed.

Lemma truthy_str (s : string) : JS.truthy (JS.str s) = negb (String.eqb s "").
Proof. reflexivity. Qed.

(** On one record, the page's test is the server's test and the event
    test. *)
Lemma shown_export_filter (st : ReportsPage.State) (r : Attendance.t)
    (m : option Member.t) (s : option Story.t) (ro : option Role.t) (rm : option Member.t) :
  ReportsPage.shown Date_parse st
    {| Storage.record := r; Storage.member := m; Storage.story := s;
       Storage.role := ro; Storage.replacedMember := rm |}
  = Routes.export_filter Date_parse (ReportsPage.export_filters st) r && ReportsPage.event_shown st r.
Proof.
  unfold ReportsPage.shown, Routes.export_filter, ReportsPage.event_shown, ReportsPage.export_filters.
  cbn [Storage.record Routes.dateFrom Routes.dateTo Routes.statusFilter Routes.storyFilter
       Routes.memberFilter Routes.eventFilter Routes.new_Date].
  rewrite !truthy_str, !strict_eq_str.
  destruct (String.eqb (ReportsPage.dateFrom st) "");
    destruct (Routes.date_lt (Date_parse (Attendance.date r))
                (Date_parse (ReportsPage.dateFrom st)));
    destruct (String.eqb (ReportsPage.dateTo st) "");
    destruct (Routes.date_lt (Date_parse (ReportsPage.dateTo st))
                (Date_parse (Attendance.date r)));
    destruct (String.eqb (ReportsPage.statusFilter st) "all");
    destruct (String.eqb (Attendance.status r) (ReportsPage.statusFilter st));
    destruct (String.eqb (ReportsPage.storyFilter st) "all");
    destruct (JS.strict_eq (JS.nullable (Attendance.storyId r))
                (JS.str (ReportsPage.storyFilter st)));
    destruct (String.eqb (ReportsPage.memberFilter st) "all");
    destruct (String.eqb (Attendance.memberId r) (ReportsPage.memberFilter st));
    destruct (String.eqb (ReportsPage.eventFilter st) "all");
    destruct (JS.strict_eq (JS.nullable (Attendance.eventType r))
                (JS.str (ReportsPage.eventFilter st)));
    reflexivity.
Qed.

(** X12. What the reports page shows and what its export button
    downloads: when the page holds the joined attendance view that
    [GET /api/attendance/all] serves, then from the same database and the
    same filter state the records shown on the page are the exported
    records that also pass the page's event selection, in the same order.  With the event selection
    at "all" the export holds exactly the records shown; with an event
    selected it holds every record shown and may hold more. *)
Theorem export_matches_page (db : Database) (st : ReportsPage.State) :
  let shown := ReportsPage.filteredAttendance Date_parse st
                 (Some (Storage.getAttendanceWithDetails orderBy db)) in
  let exported := Routes.apply_filters Date_parse (Some (ReportsPage.export_filters st))
                    (Storage.getAllAttendance orderBy db) in
  map Storage.record shown = filter (ReportsPage.event_shown st) exported
  /\ (ReportsPage.eventFilter st = "all" -> map Storage.record shown = exported)
  /\ (forall v, In v shown -> In (Storage.record v) exported).
Proof.
  intros shown exported.
  assert (Hmain : map Storage.record shown = filter (ReportsPage.event_shown st) exported).
  { unfold shown, exported, ReportsPage.filteredAttendance, Routes.apply_filters,
      Storage.getAttendanceWithDetails, Storage.getAllAttendance.
    induction (orderBy _ Attendance.date true (attendance db)) as [|r l IH]; [reflexivity|].
    cbn [map filter]. unfold Storage.withDetails at 1. rewrite shown_export_filter.
    destruct (Routes.export_filter Date_parse (ReportsPage.export_filters st) r);
      cbn [andb filter]; [|exact IH].
    destruct (ReportsPage.event_shown st r); cbn [map Storage.record]; [f_equal|]; exact IH. }
  split; [exact Hmain|]. split.
  - intros Hall. rewrite Hmain. apply filter_all. intros r _.
    unfold ReportsPage.event_shown. rewrite Hall. reflexivity.
  - intros v Hv. apply (in_map Storage.record) in Hv. rewrite Hmain in Hv.
    apply filter_In in Hv. tauto.
Qed.

(** X13. A request that constrains nothing exports everything: when
    both dates are absent or empty and the status, story and member
    selections are "all" (the state the reports page starts in), every
    attendance record is exported, whatever [eventFilter] holds; and so
    it is when the request carries no [filters] object at all. *)
Theorem export_unconstrained_keeps_all (filters : Routes.Filters)
    (allAttendance : list Attendance.t) :
  JS.truthy (Routes.dateFrom filters) = false ->
  JS.truthy (Routes.dateTo filters) = false ->
  Routes.statusFilter filters = JS.str "all" ->
  Routes.storyFilter filters = JS.str "all" ->
  Routes.memberFilter filters = JS.str "all" ->
  Routes.apply_filters Date_parse (Some filters) allAttendance = allAttendance
  /\ Routes.apply_filters Date_parse None allAttendance = allAttendance.
Proof.
  intros Hfrom Hto Hs Hst Hm. split; [|reflexivity].
  cbn [Routes.apply_filters]. apply filter_all. intros r _.
  unfold Routes.export_filter. rewrite Hfrom, Hto, Hs, Hst, Hm. reflexivity.
Qed.

(** X14. The date bounds are inclusive and forgiving: a record dated on
    [dateFrom] or on [dateTo] is not excluded by that bound, a bound that
    is not a valid date excludes nothing, and a record whose own date is
    not valid is excluded by no bound.  A record is excluded exactly when
    its date lies strictly before a valid [dateFrom] or strictly after a
    valid [dateTo]. *)
Theorem export_date_bounds (st : ReportsPage.State) (r : Attendance.t) :
  ReportsPage.statusFilter st = "all" ->
  ReportsPage.storyFilter st = "all" ->
  ReportsPage.memberFilter st = "all" ->
  let kept := Routes.export_filter Date_parse (ReportsPage.export_filters st) r in
  let strictly_before (a b : string) :=
    exists x y, Date_parse a = Some x /\ Date_parse b = Some y /\ x < y in
  (kept = false <->
     (ReportsPage.dateFrom st <> "" /\ strictly_before (Attendance.date r) (ReportsPage.dateFrom st))
     \/ (ReportsPage.dateTo st <> "" /\ strictly_before (ReportsPage.dateTo st) (Attendance.date r)))
  /\ (Attendance.date r = ReportsPage.dateFrom st -> ReportsPage.dateTo st = "" -> kept = true)
  /\ (Attendance.date r = ReportsPage.dateTo st -> ReportsPage.dateFrom st = "" -> kept = true)
  /\ (Date_parse (Attendance.date r) = None -> kept = true).
Proof.
  intros Hs Hst Hm kept strictly_before.
  assert (Hlt : forall a b, Routes.date_lt (Date_parse a) (Date_parse b) = true
                            <-> strictly_before a b).
  { intros a b. unfold strictly_before, Routes.date_lt.
    destruct (Date_parse a) as [x|], (Date_parse b) as [y|].
    - rewrite Z.ltb_lt. split; [intros H; now exists x, y|].
      intros (x' & y' & Hx & Hy & Hxy). congruence.
    - split; [discriminate|]. intros (x' & y' & _ & Hy & _). discriminate.
    - split; [discriminate|]. intros (x' & y' & Hx & _). discriminate.
    - split; [discriminate|]. intros (x' & y' & Hx & _). discriminate. }
  assert (Hkept : kept = negb ((negb (String.eqb (ReportsPage.dateFrom st) "")
                                && Routes.date_lt (Date_parse (Attendance.date r))
                                     (Date_parse (ReportsPage.dateFrom st)))
                               || (negb (String.eqb (ReportsPage.dateTo st) "")
                                   && Routes.date_lt (Date_parse (ReportsPage.dateTo st))
                                        (Date_parse (Attendance.date r))))).
  { unfold kept, Routes.export_filter, ReportsPage.export_filters.
    cbn [Routes.dateFrom Routes.dateTo Routes.statusFilter Routes.storyFilter
         Routes.memberFilter Routes.new_Date].
    rewrite !truthy_str, Hs, Hst, Hm. cbn [JS.strict_eq].
    rewrite String.eqb_refl. cbn [negb andb].
    repeat match goal with
           | |- context [if ?b then _ else _] => destruct b
           end; reflexivity. }
  split; [|split; [|split]].
  - rewrite Hkept, negb_false_iff, orb_true_iff, !andb_true_iff, !negb_true_iff,
      !String.eqb_neq, !Hlt. reflexivity.
  - intros Hd Hto. rewrite Hkept, Hd, Hto. cbn [String.eqb negb andb orb].
    unfold Routes.date_lt. destruct (Date_parse (ReportsPage.dateFrom st)) as [x|].
    + rewrite Z.ltb_irrefl. now rewrite andb_false_r.
    + now rewrite andb_false_r.
  - intros Hd Hfrom. rewrite Hkept, Hd, Hfrom. cbn [String.eqb negb andb orb].
    unfold Routes.date_lt. destruct (Date_parse (ReportsPage.dateTo st)) as [x|].
    + rewrite Z.ltb_irrefl. now rewrite andb_false_r.
    + now rewrite andb_false_r.
  - intros Hnone. rewrite Hkept, Hnone. unfold Routes.date_lt.
    destruct (Date_parse (ReportsPage.dateTo st)); now rewrite !andb_false_r.
Qed.

(** X15. Selecting one status and nothing else exports exactly the
    records of that status, in the order they had; a record never matches
    a selection that differs from its status. *)
Theorem export_status_selection (status : string) (allAttendance : list Attendance.t) :
  status <> "all" ->
  let st := {| ReportsPage.dateFrom := ""; ReportsPage.dateTo := "";
               ReportsPage.statusFilter := status; ReportsPage.storyFilter := "all";
               ReportsPage.memberFilter := "all"; ReportsPage.eventFilter := "all" |} in
  Routes.apply_filters Date_parse (Some (ReportsPage.export_filters st)) allAttendance
  = filter (fun r => String.eqb (Attendance.status r) status) allAttendance.
Proof.
  intros Hne st. cbn [Routes.apply_filters]. apply filter_ext. intros r.
  unfold Routes.export_filter, ReportsPage.export_filters, st.
  cbn [Routes.dateFrom Routes.dateTo Routes.statusFilter Routes.storyFilter
       Routes.memberFilter ReportsPage.dateFrom ReportsPage.dateTo ReportsPage.statusFilter
       ReportsPage.storyFilter ReportsPage.memberFilter].
  rewrite !truthy_str, !strict_eq_str. cbn [String.eqb negb andb].
  rewrite (proj2 (String.eqb_neq status "all") Hne). cbn [negb andb].
  destruct (String.eqb (Attendance.status r) status); reflexivity.
Qed.
End PageFacts.

Lemma export_matches_page_witness :
  ReportsPage.eventFilter Scenario.january_10_to_11 = "all"
  /\ map Storage.record
       (ReportsPage.filteredAttendance Sample.day_of Scenario.january_10_to_11
          (Some (Storage.getAttendanceWithDetails Sample.keep_order Sample.dangling_db)))
     = Routes.apply_filters Sample.day_of
         (Some (ReportsPage.export_filters Scenario.january_10_to_11))
         (Storage.getAllAttendance Sample.keep_order Sample.dangling_db).
Proof.
  split; [reflexivity|].
  destruct (export_matches_page Sample.keep_order Sample.day_of Sample.dangling_db
              Scenario.january_10_to_11) as (_ & H & _).
  apply H. reflexivity.
Defined.

Lemma export_unconstrained_keeps_all_witness :
  Routes.apply_filters Sample.day_of
    (Some (ReportsPage.export_filters ReportsPage.initial)) (attendance Sample.five)
  = attendance Sample.five.
Proof.
  destruct (export_unconstrained_keeps_all Sample.day_of
              (ReportsPage.export_filters ReportsPage.initial) (attendance Sample.five)
              eq_refl eq_refl eq_refl eq_refl eq_refl) as [H _].
  exact H.
Defined.

Lemma export_date_bounds_witness :
  Routes.export_filter Sample.day_of
    (ReportsPage.export_filters Scenario.january_10_to_11) Sample.orphan = false
  /\ Routes.export_filter Sample.day_of
       (ReportsPage.export_filters Scenario.january_10_to_11) Sample.dangling = true.
Proof.
  split.
  - destruct (export_date_bounds Sample.day_of Scenario.january_10_to_11 Sample.orphan
                eq_refl eq_refl eq_refl) as (H & _).
    apply H. right. split; [discriminate|].
    exists 11, 12. split; [reflexivity|]. split; [reflexivity|lia].
  - destruct (export_date_bounds Sample.day_of Scenario.january_10_to_11 Sample.dangling
                eq_refl eq_refl eq_refl) as (H & _).
    destruct (Routes.export_filter Sample.day_of
                (ReportsPage.export_filters Scenario.january_10_to_11) Sample.dangling)
      eqn:E; [reflexivity|].
    destruct (proj1 H eq_refl) as [[_ (x & y & Hx & Hy & Hxy)]|[_ (x & y & Hx & Hy & Hxy)]];
      vm_compute in Hx, Hy; injection Hx as <-; injection Hy as <-; lia.
Defined.

Lemma export_status_selection_witness :
  Routes.apply_filters Sample.day_of
    (Some (ReportsPage.export_filters
             {| ReportsPage.dateFrom := ""; ReportsPage.dateTo := "";
                ReportsPage.statusFilter := "absent"; ReportsPage.storyFilter := "all";
                ReportsPage.memberFilter := "all"; ReportsPage.eventFilter := "all" |}))
    (attendance Sample.dangling_db)
  = [ Sample.orphan ].
Proof.
  rewrite (export_status_selection Sample.day_of "absent" (attendance Sample.dangling_db)
             ltac:(discriminate)).
  reflexivity.
Defined.


(** ** Who is served *)

Section AccessControl.
Variable orderBy : forall A : Type, (A -> string) -> bool -> list A -> list A.
Variable gte : string -> string -> bool.
Variable Date_parse : string -> option Z.
Variable toLocaleDateString : string -> string.
Variable toLocaleString : string -> string.
Variable now_toLocaleDateString : string.
Variable now_toLocaleString : string.
Variable toUpperCase : string -> string.

Lemma hd_error_filter_In {A : Type} (f : A -> bool) (l : list A) (x : A) :
  hd_error (filter f l) = Some x -> In x l /\ f x = true.
Proof.
  intros H. apply filter_In. destruct (filter f l) as [|y ys]; [discriminate|].
  injection H as ->. now left.
Qed.

Lemma not_admin_unlinked (db : Database) (userId : string) :
  (forall m, In m (members db) -> Member.userId m = Some userId ->
             Member.isAdmin m <> Some true) ->
  Routes.not_admin (Storage.getMemberByUserId db userId) = true.
Proof.
  intros H. unfold Storage.getMemberByUserId.
  destruct (hd_error _) as [m|] eqn:E; [|reflexivity].
  apply hd_error_filter_In in E. destruct E as [Hin Hm].
  assert (Hu : Member.userId m = Some userId).
  { destruct (Member.userId m) as [u|]; [|discriminate Hm].
    cbn in Hm. apply String.eqb_eq in Hm. now subst. }
  specialize (H m Hin Hu). cbn [Routes.not_admin].
  destruct (Member.isAdmin m) as [[|]|]; congruence.
Qed.

(** X16. Only admins are served: when no member linked to the caller's
    user id has the admin flag set to true (the caller has no member
    record, or the flag is false or NULL), the attendance list, both
    exports, the report statistics and the poll results all answer
    403 "Forbidden" and nothing else, whatever the request asks for. *)
Theorem admin_routes_forbidden (db : Database) (userId : string) :
  (forall m, In m (members db) -> Member.userId m = Some userId ->
             Member.isAdmin m <> Some true) ->
  Routes.attendanceAll orderBy db userId = [Routes.status_json 403 "Forbidden"]
  /\ (forall format filters,
        Routes.reportsExport orderBy Date_parse toLocaleDateString now_toLocaleDateString
          now_toLocaleString toUpperCase db userId format filters
        = [Routes.status_json 403 "Forbidden"])
  /\ (forall pollId format,
        Routes.pollsExport orderBy toLocaleString now_toLocaleString db userId pollId format
        = [Routes.status_json 403 "Forbidden"])
  /\ Api.reportsStats db userId = Api.status_message 403 "Forbidden"
  /\ Api.pollsResults orderBy db userId = Api.status_message 403 "Forbidden".
Proof.
  intros H. pose proof (not_admin_unlinked db userId H) as Hn.
  unfold Routes.attendanceAll, Routes.reportsExport, Routes.pollsExport,
    Api.reportsStats, Api.pollsResults.
  cbv zeta. rewrite Hn. repeat split.
Qed.
End AccessControl.

Lemma admin_routes_forbidden_witness :
  Routes.attendanceAll Sample.keep_order Sample.ab_db "visitor"
  = [Routes.status_json 403 "Forbidden"]
  /\ Api.reportsStats Sample.ab_db "visitor" = Api.status_message 403 "Forbidden".
Proof.
  destruct (admin_routes_forbidden Sample.keep_order Sample.day_of Sample.same Sample.same
              "today" "now" Sample.same Sample.ab_db "visitor") as (H1 & _ & _ & H2 & _).
  - intros m [<-|[<-|[]]] Hu; discriminate.
  - split; [exact H1 | exact H2].
Defined.

(** ** What the renderers put on the page *)

Section RendererFacts.
Variable toLocaleDateString : string -> string.
Variable now_toLocaleDateString : string.
Variable now_toLocaleString : string.
Variable toUpperCase : string -> string.

Lemma length_append (s t : string) :
  JS.length (s ++ t) = (JS.length s + JS.length t)%nat.
Proof.
  induction s as [|c s IH]; [reflexivity|].
  cbn [append JS.length]. rewrite IH. lia.
Qed.

Lemma code_units_at_le (c : ascii) : (JS.code_units_at c <= 2)%nat.
Proof. destruct c as [[] [] [] [] [] [] [] []]; cbn; lia. Qed.

Lemma code_units_at_continuation (b0 b1 b2 b3 b4 b5 : bool) :
  JS.code_units_at (Ascii b0 b1 b2 b3 b4 b5 false true) = 0%nat.
Proof. destruct b0, b1, b2, b3, b4, b5; reflexivity. Qed.

Lemma length_high_surrogate (c0 c1 c2 : ascii) :
  JS.length (JS.high_surrogate c0 c1 c2) = 1%nat.
Proof.
  destruct c0 as [u2 u3 u4 ? ? ? ? ?], c1 as [z0 z1 z2 z3 u0 u1 ? ?], c2 as [? ? ? ? y0 y1 ? ?].
  cbn [JS.high_surrogate JS.length].
  rewrite !code_units_at_continuation. reflexivity.
Qed.

(** [text.substring(0, n)] has at most [n] code units. *)
Lemma length_substring (n : nat) (text : string) :
  (JS.length (JS.substring n text) <= n)%nat.
Proof.
  revert n. induction text as [|c rest IH]; intros n; [cbn; lia|].
  cbn [JS.substring].
  pose proof (code_units_at_le c) as Hc.
  destruct (JS.code_units_at c) as [|[|k]] eqn:E.
  - cbn [JS.length]. rewrite E. apply IH.
  - destruct n as [|n']; [cbn; lia|].
    cbn [JS.length]. rewrite E. specialize (IH n'). lia.
  - destruct n as [|[|n']]; [cbn; lia| |].
    + destruct rest as [|c1 [|c2 rest']]; [cbn; lia|cbn; lia|].
      rewrite length_high_surrogate. lia.
    + cbn [JS.length]. rewrite E. specialize (IH n'). lia.
Qed.

Lemma truncate_length (text : string) (maxLen : nat) :
  (2 <= maxLen)%nat -> (JS.length (Routes.truncate text maxLen) <= maxLen)%nat.
Proof.
  intros H. unfold Routes.truncate.
  destruct (Nat.ltb_spec maxLen (JS.length text)) as [Hlt|Hge]; [|exact Hge].
  rewrite length_append. pose proof (length_substring (maxLen - 2) text).
  change (JS.length "..") with 2%nat. lia.
Qed.

Lemma truncate_short (text : string) (maxLen : nat) :
  (JS.length text <= maxLen)%nat -> Routes.truncate text maxLen = text.
Proof.
  intros H. unfold Routes.truncate.
  destruct (Nat.ltb_spec maxLen (JS.length text)); [lia | reflexivity].
Qed.

(** The rows drawn from height [280 + 25 * k] on: one for each of the
    first [49 - k] records. *)
Lemma image_rows_from (members : list Member.t) (stories : list Story.t)
    (records : list Attendance.t) (k : nat) :
  (k <= 49)%nat ->
  Routes.image_rows toLocaleDateString members stories (280 + 25 * Z.of_nat k) records
  = flat_map (fun p => Routes.image_row toLocaleDateString members stories (snd p)
                         (280 + 25 * Z.of_nat (fst p)))
             (combine (seq k (49 - k)) records).
Proof.
  revert k. induction records as [|r rest IH]; intros k Hk.
  - cbn [Routes.image_rows]. now rewrite combine_nil.
  - cbn [Routes.image_rows].
    destruct (Z.ltb_spec 1500 (280 + 25 * Z.of_nat k)) as [Hover|Hfit].
    + assert (k = 49)%nat as -> by lia.
      change (49 - 49)%nat with 0%nat. cbn [seq combine flat_map].
      clear IH. induction rest as [|r' rest' IH']; [reflexivity|].
      cbn [Routes.image_rows]. change (1500 <? 280 + 25 * Z.of_nat 49) with true.
      exact IH'.
    + assert (Hk' : (k < 49)%nat) by lia.
      replace (49 - k)%nat with (S (49 - S k)) by lia.
      cbn [seq combine flat_map fst snd]. f_equal.
      replace (280 + 25 * Z.of_nat k + 25) with (280 + 25 * Z.of_nat (S k)) by lia.
      apply IH. lia.
Qed.


(** X18. Whatever the data, every text of the image table fits its
    column: a cell has at most 25 UTF-16 code units, the unit in which
    the source's [text.length] counts (a longer value is cut and ends in
    ".."), and it is drawn at a height from 280 to 1500. *)
Theorem image_cells_bounded (members : list Member.t) (stories : list Story.t)
    (filtered : list Attendance.t) (op : Routes.CanvasOp) :
  In op (Routes.image_rows toLocaleDateString members stories 280 filtered) ->
  exists cell x y, op = Routes.fillText cell x y
                   /\ (JS.length cell <= 25)%nat
                   /\ 280 <= y <= 1500.
Proof.
  pose proof (image_rows_from members stories filtered 0) as H0.
  change (280 + 25 * Z.of_nat 0) with 280 in H0.
  change (49 - 0)%nat with 49%nat in H0. rewrite H0 by lia. clear H0.
  intros Hin. apply in_flat_map in Hin. destruct Hin as [[i r] [Hp Hop]].
  apply in_combine_l in Hp. apply in_seq in Hp. cbn [fst snd] in Hop.
  assert (Hy : 280 <= 280 + 25 * Z.of_nat i <= 1500) by lia.
  unfold Routes.image_row in Hop. cbv zeta in Hop. cbn [In] in Hop.
  repeat match type of Hop with
         | _ \/ _ => destruct Hop as [Hop|Hop]
         end;
    try contradiction; subst op;
    eexists _, _, _; (split; [reflexivity|]); (split; [|exact Hy]);
    (eapply Nat.le_trans; [apply truncate_length; lia | lia]).
Qed.

Lemma page_breaks_app (a b : list Routes.PdfOp) :
  Rendered.page_breaks (a ++ b) = (Rendered.page_breaks a + Rendered.page_breaks b)%nat.
Proof. unfold Rendered.page_breaks. now rewrite filter_app, length_app. Qed.

Lemma div10_at_multiple (idx : nat) :
  (idx mod 10 = 0 -> 0 < idx -> idx / 10 = S ((idx - 1) / 10))%nat.
Proof.
  intros.
  pose proof (Nat.div_mod_eq idx 10). pose proof (Nat.div_mod_eq (idx - 1) 10).
  pose proof (Nat.mod_upper_bound (idx - 1) 10 ltac:(lia)). lia.
Qed.

Lemma div10_between (idx : nat) :
  (idx mod 10 <> 0 -> idx / 10 = (idx - 1) / 10)%nat.
Proof.
  intros.
  pose proof (Nat.div_mod_eq idx 10). pose proof (Nat.div_mod_eq (idx - 1) 10).
  pose proof (Nat.mod_upper_bound (idx - 1) 10 ltac:(lia)).
  pose proof (Nat.mod_upper_bound idx 10 ltac:(lia)). lia.
Qed.

Lemma pdf_records_breaks (members : list Member.t) (stories : list Story.t)
    (records : list Attendance.t) (idx : nat) :
  (1 <= idx)%nat ->
  Rendered.page_breaks
    (Routes.pdf_records toLocaleDateString toUpperCase members stories idx records)
  = ((idx + List.length records - 1) / 10 - (idx - 1) / 10)%nat.
Proof.
  revert idx. induction records as [|r rest IH]; intros idx Hidx.
  - cbn [Routes.pdf_records List.length]. unfold Rendered.page_breaks. cbn [filter List.length].
    rewrite Nat.add_0_r. lia.
  - cbn [Routes.pdf_records]. rewrite page_breaks_app.
    change (Routes.text ?s :: ?l) with ([Routes.text s] ++ l)%list.
    rewrite page_breaks_app, IH by lia.
    change (List.length (r :: rest)) with (S (List.length rest)).
    generalize (List.length rest). intros n.
    destruct (Nat.eqb_spec (idx mod 10) 0) as [Hz|Hnz];
      destruct (Nat.ltb_spec 0 idx); try lia; cbn [andb];
      unfold Rendered.page_breaks; cbn [filter Rendered.is_addPage List.length];
      replace (S idx + n - 1)%nat with (idx + S n - 1)%nat by lia;
      replace (S idx - 1)%nat with idx by lia.
    + pose proof (div10_at_multiple idx Hz ltac:(lia)).
      assert (idx / 10 <= (idx + S n - 1) / 10)%nat by (apply Nat.Div0.div_le_mono; lia).
      lia.
    + pose proof (div10_between idx Hnz).
      lia.
Qed.

Lemma pdf_records_lines (members : list Member.t) (stories : list Story.t)
    (records : list Attendance.t) (idx : nat) :
  filter (fun op => negb (Rendered.is_addPage op))
    (Routes.pdf_records toLocaleDateString toUpperCase members stories idx records)
  = map (fun r => Routes.text (Routes.pdf_line toLocaleDateString toUpperCase members stories r))
        records.
Proof.
  revert idx. induction records as [|r rest IH]; intros idx; [reflexivity|].
  cbn [Routes.pdf_records map]. rewrite filter_app.
  cbn [filter Rendered.is_addPage negb]. rewrite IH.
  destruct (Nat.eqb (idx mod 10) 0 && (0 <? idx)%nat); reflexivity.
Qed.

Lemma pages_nonempty (doc : list Routes.PdfOp) : Rendered.pages doc <> [].
Proof.
  induction doc as [|op rest IH]; [discriminate|].
  destruct op; cbn [Rendered.pages]; try discriminate;
    destruct (Rendered.pages rest); discriminate.
Qed.

(** Operations that start no page stay on the page that follows them. *)
Lemma pages_app (xs rest : list Routes.PdfOp) :
  (forall op, In op xs -> Rendered.is_addPage op = false) ->
  Rendered.pages (xs ++ rest)
  = match Rendered.pages rest with
    | page :: later => (xs ++ page)%list :: later
    | [] => [xs]
    end.
Proof.
  induction xs as [|op xs IH]; intros Hxs.
  - cbn [app]. pose proof (pages_nonempty rest). destruct (Rendered.pages rest); congruence.
  - assert (Hop : Rendered.is_addPage op = false) by (apply Hxs; now left).
    assert (IH' := IH (fun o Ho => Hxs o (or_intror Ho))).
    change ((op :: xs) ++ rest)%list with (op :: (xs ++ rest))%list.
    pose proof (pages_nonempty rest) as Hne.
    destruct op; try discriminate Hop; cbn [Rendered.pages]; rewrite IH';
      destruct (Rendered.pages rest); try congruence; reflexivity.
Qed.

Lemma in_tens_nil {A : Type} : Rendered.in_tens (@nil A) = [].
Proof. reflexivity. Qed.

Lemma in_tens_cons {A : Type} (l : list A) :
  l <> [] -> Rendered.in_tens l = firstn 10 l :: Rendered.in_tens (skipn 10 l).
Proof.
  intros Hne. unfold Rendered.in_tens.
  assert (Hlen : (1 <= List.length l)%nat) by (destruct l; [congruence | cbn; lia]).
  assert (Hcount : ((List.length l + 9) / 10 = S ((List.length (skipn 10 l) + 9) / 10))%nat).
  { rewrite length_skipn. revert Hlen. generalize (List.length l). intros n Hn.
    destruct (Nat.le_gt_cases 10 n) as [Hge|Hlt].
    - replace (n + 9)%nat with ((n - 10 + 9) + 1 * 10)%nat by lia.
      rewrite Nat.div_add by lia. lia.
    - replace (n - 10)%nat with 0%nat by lia.
      change ((0 + 9) / 10)%nat with 0%nat.
      symmetry. apply Nat.div_unique with (r := (n - 1)%nat); lia. }
  rewrite Hcount. cbn [seq map]. f_equal.
  rewrite <- seq_shift, map_map. apply map_ext. intros k.
  replace (10 * S k)%nat with (10 + 10 * k)%nat by lia.
  now rewrite skipn_skipn, (Nat.add_comm (10 * k) 10).
Qed.

(** A run of records none of which starts a page. *)
Lemma pdf_records_run (members : list Member.t) (stories : list Story.t)
    (m idx : nat) (records : list Attendance.t) :
  (forall i, (idx <= i < idx + m)%nat -> (i mod 10 <> 0 \/ i = 0)%nat) ->
  Routes.pdf_records toLocaleDateString toUpperCase members stories idx records
  = (map (fun r => Routes.text
                     (Routes.pdf_line toLocaleDateString toUpperCase members stories r))
         (firstn m records)
     ++ Routes.pdf_records toLocaleDateString toUpperCase members stories (idx + m)
          (skipn m records))%list.
Proof.
  revert idx records. induction m as [|m IH]; intros idx records Hrun.
  - cbn [firstn skipn map app]. now rewrite Nat.add_0_r.
  - destruct records as [|r rest]; [reflexivity|].
    cbn [firstn skipn map Routes.pdf_records].
    assert (Hhere : (Nat.eqb (idx mod 10) 0 && (0 <? idx)%nat) = false).
    { destruct (Hrun idx ltac:(lia)) as [Hmod|Hzero].
      - apply Nat.eqb_neq in Hmod. now rewrite Hmod.
      - subst idx. reflexivity. }
    rewrite Hhere. cbn [app]. f_equal.
    rewrite (IH (S idx) rest).
    + now replace (S idx + m)%nat with (idx + S m)%nat by lia.
    + intros i Hi. apply Hrun. lia.
Qed.

(** From a record that starts a page on: an empty page end, then the
    records ten to a page. *)
Lemma pdf_records_pages (members : list Member.t) (stories : list Story.t)
    (fuel : nat) (records : list Attendance.t) (q : nat) :
  (List.length records <= fuel)%nat -> (1 <= q)%nat ->
  Rendered.pages
    (Routes.pdf_records toLocaleDateString toUpperCase members stories (10 * q) records)
  = [] :: Rendered.in_tens
            (map (fun r => Routes.text
                             (Routes.pdf_line toLocaleDateString toUpperCase members stories r))
                 records).
Proof.
  revert records q. induction fuel as [|fuel IH]; intros records q Hlen Hq.
  - destruct records; [reflexivity | cbn in Hlen; lia].
  - destruct records as [|r rest]; [reflexivity|].
    rewrite in_tens_cons by discriminate.
    rewrite firstn_map, skipn_map.
    cbn [Routes.pdf_records].
    assert (Hbreak : (Nat.eqb ((10 * q) mod 10) 0 && (0 <? 10 * q)%nat) = true).
    { rewrite Nat.mul_comm, Nat.Div0.mod_mul. cbn [Nat.eqb andb].
      apply Nat.ltb_lt. lia. }
    rewrite Hbreak. cbn [app Rendered.pages]. f_equal.
    rewrite (pdf_records_run members stories 9 (S (10 * q)) rest).
    + rewrite pages_app.
      * replace (S (10 * q) + 9)%nat with (10 * S q)%nat by lia.
        rewrite (IH (skipn 9 rest) (S q)).
        -- rewrite app_nil_r. reflexivity.
        -- rewrite length_skipn. cbn [List.length] in Hlen. lia.
        -- lia.
      * intros op Hop.
        apply in_map_iff in Hop. destruct Hop as (x & <- & _). reflexivity.
    + intros i Hi. left.
      assert (Hi' : (i = 10 * q + (i - 10 * q))%nat) by lia.
      rewrite Hi', Nat.add_comm, Nat.mul_comm, Nat.Div0.mod_add.
      rewrite Nat.mod_small by lia. lia.
Qed.

(** X19. The PDF report lists the first 100 filtered records, one line
    each in their order, ten lines to a page: the first page holds the
    heading and records 0 to 9, and page [k] records [10 * k] to
    [10 * k + 9].  So after the heading the document holds exactly those
    lines, and it calls [addPage] [(n - 1) / 10] times for [n] listed
    records, before every tenth record and never more than 9 times. *)
Theorem pdf_lists_first_100_ten_per_page (members : list Member.t) (stories : list Story.t)
    (filtered : list Attendance.t) :
  let doc := Routes.pdf_doc toLocaleDateString now_toLocaleDateString toUpperCase
               members stories filtered in
  let n := Nat.min 100 (List.length filtered) in
  let heading :=
    [ Routes.fontSize 16; Routes.text_at "Attendance Report" 50 50;
      Routes.fontSize 10;
      Routes.text ("Generated: " ++ now_toLocaleDateString ++ JS.nl ++ JS.nl)%string;
      Routes.fontSize 10 ] in
  let lines :=
    map (fun r => Routes.text
                    (Routes.pdf_line toLocaleDateString toUpperCase members stories r))
        (firstn 100 filtered) in
  Rendered.pages doc
  = match Rendered.in_tens lines with
    | [] => [heading]
    | first :: later => (heading ++ first)%list :: later
    end
  /\ filter (fun op => negb (Rendered.is_addPage op)) doc = (heading ++ lines)%list
  /\ Rendered.page_breaks doc = ((n - 1) / 10)%nat
  /\ (Rendered.page_breaks doc <= 9)%nat.
Proof.
  intros doc n heading lines.
  assert (Hb : Rendered.page_breaks doc = ((n - 1) / 10)%nat).
  { unfold doc, Routes.pdf_doc. rewrite page_breaks_app.
    change (Rendered.page_breaks [_; _; _; _; _]) with 0%nat. rewrite Nat.add_0_l.
    unfold JS.slice_first, n. rewrite <- (length_firstn 100 filtered).
    generalize (firstn 100 filtered). intros [|r rest]; [reflexivity|].
    cbn [Routes.pdf_records]. change (Nat.eqb (0 mod 10) 0 && (0 <? 0)%nat) with false.
    cbn [app]. change (Routes.text ?s :: ?l) with ([Routes.text s] ++ l)%list.
    rewrite page_breaks_app, pdf_records_breaks by lia.
    change (Rendered.page_breaks [Routes.text _]) with 0%nat.
    change ((1 - 1) / 10)%nat with 0%nat.
    rewrite Nat.add_0_l, Nat.sub_0_r.
    change (List.length (r :: rest)) with (S (List.length rest)).
    replace (1 + List.length rest - 1)%nat with (S (List.length rest) - 1)%nat by lia.
    reflexivity. }
  split; [|split; [|split]].
  - unfold doc, Routes.pdf_doc, JS.slice_first. fold heading.
    unfold lines. generalize (firstn 100 filtered). intros records.
    destruct records as [|r rest]; [reflexivity|].
    rewrite in_tens_cons by discriminate.
    rewrite firstn_map, skipn_map.
    rewrite (pdf_records_run members stories 10 0 (r :: rest)).
    + rewrite app_assoc, pages_app.
      * change (0 + 10)%nat with (10 * 1)%nat.
        rewrite (pdf_records_pages members stories (List.length (skipn 10 (r :: rest)))
                   (skipn 10 (r :: rest)) 1) by lia.
        rewrite app_nil_r. reflexivity.
      * intros op Hop. apply in_app_or in Hop. destruct Hop as [Hop|Hop].
        -- unfold heading in Hop. cbn [In] in Hop.
           repeat match type of Hop with
                  | _ \/ _ => destruct Hop as [<-|Hop]
                  end; try reflexivity; contradiction.
        -- apply in_map_iff in Hop. destruct Hop as (x & <- & _). reflexivity.
    + intros i Hi. destruct i as [|i]; [now right|left].
      rewrite Nat.mod_small by lia. lia.
  - unfold doc, Routes.pdf_doc. rewrite filter_app, pdf_records_lines. reflexivity.
  - exact Hb.
  - rewrite Hb. assert (n <= 100)%nat by apply Nat.le_min_l.
    assert ((n - 1) / 10 <= 99 / 10)%nat by (apply Nat.Div0.div_le_mono; lia).
    exact H0.
Qed.

Lemma poll_pdf_records_y (poll : Poll.t) (members : list Member.t)
    (responses : list PollResponse.t) (y0 : Z) (op : Routes.PdfOp) (y : Z) :
  50 <= y0 ->
  In op (Routes.poll_pdf_records poll members y0 responses) ->
  Rendered.pdf_text_y op = Some y -> 50 <= y <= 700.
Proof.
  revert y0. induction responses as [|r rest IH]; intros y0 Hy0 Hin Hop; [contradiction|].
  cbn [Routes.poll_pdf_records] in Hin. cbv zeta in Hin.
  destruct (Z.ltb_spec 700 y0) as [Hover|Hfit].
  - destruct Hin as [<-|[<-|Hin]]; [discriminate| |].
    + cbn in Hop. injection Hop as <-. lia.
    + apply (IH (50 + 20)); [lia | exact Hin | exact Hop].
  - destruct Hin as [<-|Hin].
    + cbn in Hop. injection Hop as <-. lia.
    + apply (IH (y0 + 20)); [lia | exact Hin | exact Hop].
Qed.

Lemma poll_pdf_records_lines (poll : Poll.t) (members : list Member.t)
    (responses : list PollResponse.t) (y0 : Z) :
  flat_map Rendered.text_of (Routes.poll_pdf_records poll members y0 responses)
  = map (fun r => Routes.responder_name members r ++ ": " ++ Routes.selected_option poll r)
        responses.
Proof.
  revert y0. induction responses as [|r rest IH]; intros y0; [reflexivity|].
  cbn [Routes.poll_pdf_records]. cbv zeta.
  destruct (700 <? y0); cbn [flat_map Rendered.text_of app map]; now rewrite IH.
Qed.

(** X20. The PDF of a poll names the first 100 responses in their order,
    one line each ("member: option") after the three heading lines, and
    places every line of the document on the page: at a height from 50
    to 700, a new page being started when the next line would fall below
    700. *)
Theorem poll_pdf_lines_on_page (poll : Poll.t) (members : list Member.t)
    (responses : list PollResponse.t) :
  let doc := Routes.poll_pdf_doc now_toLocaleString poll members responses in
  (forall op y, In op doc -> Rendered.pdf_text_y op = Some y -> 50 <= y <= 700)
  /\ flat_map Rendered.text_of doc
     = ([ Poll.question poll;
          ("Total Responses: " ++ JS.show_Z (Z.of_nat (List.length responses)))%string;
          ("Generated: " ++ now_toLocaleString ++ JS.nl)%string ]
        ++ map (fun r => (Routes.responder_name members r ++ ": "
                          ++ Routes.selected_option poll r)%string)
               (firstn 100 responses))%list.
Proof.
  intros doc. split.
  - intros op y Hin Hop. unfold doc, Routes.poll_pdf_doc in Hin.
    apply in_app_or in Hin. destruct Hin as [Hin|Hin].
    + cbn [In] in Hin.
      repeat match type of Hin with
             | _ \/ _ => destruct Hin as [Hin|Hin]
             end; try contradiction; subst op; cbn in Hop;
        try discriminate; injection Hop as <-; lia.
    + apply (poll_pdf_records_y poll members (JS.slice_first 100 responses) 150 op y);
        [lia | exact Hin | exact Hop].
  - unfold doc, Routes.poll_pdf_doc. rewrite flat_map_app, poll_pdf_records_lines.
    reflexivity.
Qed.

End RendererFacts.

Lemma image_cells_bounded_witness :
  exists cell x y,
    Routes.fillText "Reneé Zoë Brontë-Mül" 200 280 = Routes.fillText cell x y
    /\ (JS.length cell <= 25)%nat
    /\ 280 <= y <= 1500.
Proof.
  apply (image_cells_bounded Sample.same [Sample.member "a" "Reneé Zoë Brontë-Mül"] []
           [Sample.att "a" "present"]
           (Routes.fillText "Reneé Zoë Brontë-Mül" 200 280)).
  vm_compute. right. left. reflexivity.
Defined.

(** X21. The summary line of the image report counts present, absent and
    replaced records; the three counts never exceed the total, and they
    add up to it exactly when every filtered record has one of these
    three statuses. *)
Theorem image_status_counts (filtered : list Attendance.t) :
  let counted := Routes.count_status "present" filtered
                 + Routes.count_status "absent" filtered
                 + Routes.count_status "replaced" filtered in
  counted <= Z.of_nat (List.length filtered)
  /\ (counted = Z.of_nat (List.length filtered)
      <-> forall r, In r filtered ->
            Attendance.status r = "present" \/ Attendance.status r = "absent"
            \/ Attendance.status r = "replaced").
Proof.
  unfold Routes.count_status. induction filtered as [|r rest IH]; cbv zeta.
  - cbn. split; [lia|]. split; [intros _ r []|reflexivity].
  - cbv zeta in IH. destruct IH as [IHle IHeq].
    cbn [filter]. rewrite length_cons.
    destruct (String.eqb_spec (Attendance.status r) "present") as [Hp|Hp];
      destruct (String.eqb_spec (Attendance.status r) "absent") as [Ha|Ha];
      destruct (String.eqb_spec (Attendance.status r) "replaced") as [Hr|Hr];
      try (rewrite Hp in Ha; discriminate Ha);
      try (rewrite Hp in Hr; discriminate Hr);
      try (rewrite Ha in Hr; discriminate Hr);
      rewrite ?length_cons; (split; [lia|]); split.
    all: try (intros Heq r' [<-|Hin]; [tauto | apply IHeq; [lia | exact Hin]]).
    all: try (intros Hall; assert (Hrest : forall r', In r' rest -> _)
                by (intros r' Hr'; exact (Hall r' (or_intror Hr')));
              apply IHeq in Hrest; lia).
    + intros Heq. lia.
    + intros Hall. destruct (Hall r (or_introl eq_refl)) as [?|[?|?]]; contradiction.
Qed.


(** ** A member's history and the member's statistics *)

Section HistoryFacts.
Variable orderBy : forall A : Type, (A -> string) -> bool -> list A -> list A.
Hypothesis orderBy_perm :
  forall (A : Type) (column : A -> string) (desc : bool) (rows : list A),
    Permutation (orderBy A column desc rows) rows.

(** X22. The history a member is served and the member's line in the
    report statistics agree: the percentage is computed from exactly the
    records [getAttendanceByMember] returns for the member, [k] present or
    replaced out of [n], and it is 0 for a member with an empty history;
    no record of another member is in the history. *)
Theorem memberStat_of_member_history (db : Database) (member : Member.t) :
  let history := DatabaseStorage.getAttendanceByMember orderBy db (Member.id member) in
  let n := Z.of_nat (List.length history) in
  let k := Z.of_nat (List.length (filter Storage.present_or_replaced history)) in
  Storage.percentage (Storage.memberStat (attendance db) member)
  = (if 0 <? n then JS.round_percent k n else 0)
  /\ (history = [] -> Storage.percentage (Storage.memberStat (attendance db) member) = 0)
  /\ (forall a, In a history <->
                In a (attendance db) /\ Attendance.memberId a = Member.id member).
Proof.
  intros history n k.
  assert (Hperm : Permutation history
                    (filter (fun a => String.eqb (Attendance.memberId a) (Member.id member))
                            (attendance db))) by apply orderBy_perm.
  assert (Hmain : Storage.percentage (Storage.memberStat (attendance db) member)
                  = (if 0 <? n then JS.round_percent k n else 0)).
  { unfold Storage.memberStat. cbv zeta. cbn [Storage.percentage]. unfold n, k.
    rewrite (Permutation_length Hperm).
    rewrite (Permutation_length (filter_perm Storage.present_or_replaced _ _ Hperm)).
    reflexivity. }
  split; [exact Hmain|]. split.
  - intros He. rewrite Hmain. unfold n. rewrite He. reflexivity.
  - intros a. split.
    + intros Hin. apply (Permutation_in _ Hperm) in Hin. apply filter_In in Hin.
      destruct Hin as [Hin He]. apply String.eqb_eq in He. now split.
    + intros [Hin He]. apply (Permutation_in _ (Permutation_sym Hperm)).
      apply filter_In. split; [exact Hin|]. now apply String.eqb_eq.
Qed.
End HistoryFacts.

Lemma memberStat_of_member_history_witness :
  Storage.percentage
    (Storage.memberStat (attendance Sample.five) (Sample.member "a" "Asha"))
  = JS.round_percent 9 10
  /\ List.length
       (DatabaseStorage.getAttendanceByMember Sample.keep_order Sample.five "a") = 10%nat.
Proof.
  split; [|reflexivity].
  exact (proj1 (memberStat_of_member_history Sample.keep_order
                  (fun A c d rows => Permutation_refl rows)
                  Sample.five (Sample.member "a" "Asha"))).
Defined.
